(** * Spatial assignment and mapping transform of ifc-flow-vibe

    A shallow embedding of the Python node scripts under
    [docs/python-examples]:

    - [space-analysis-example.py]   : module [SpaceAnalysis]
    - [add-room-info-example.py]    : modules [AddRoomInfo] and
                                      [AddRoomInfoReport]
    - [room-assignment-transform.py]: module [Transform]
    - [room-assignment-to-walls.py] : module [ToWalls]
    - [debug-spaces.py]             : module [DebugSpaces]

    Python dictionaries that the scripts build by assignment are [gmap]s;
    dictionaries that arrive as JSON-shaped input keep their item order in
    an association list.  Numbers read from quantity sets are exact
    rationals; binary floating point is not modelled.  The numeric
    operations therefore serve for their control flow (the guards against
    an empty list and a total that is not positive), for the value they
    give on 0 and for the order in which a sum is accumulated; what the
    script's doubles add up or round to is left unstated. *)

From Stdlib Require Import String Ascii ZArith QArith Qround List Bool Lia Lqa.
From stdpp Require Import gmap strings list fin_maps pretty.

Set Warnings "-register-all".

Local Open Scope string_scope.
Local Open Scope list_scope.

(** ** Python values and the dynamic operations the scripts use *)

Module Py.

(** Exceptions the scripts can meet. *)
Inductive exn : Type :=
| TypeError
| AttributeError
| KeyError
| ZeroDivisionError.

(** A computation that returns or raises. *)
Inductive res (A : Type) : Type :=
| Ok (a : A)
| Raise (e : exn).
Arguments Ok {A} a.
Arguments Raise {A} e.

#[global] Instance res_ret : MRet res := fun A a => Ok a.
#[global] Instance res_bind : MBind res := fun A B f m =>
  match m with
  | Ok a => f a
  | Raise e => Raise e
  end.

Definition raises {A} (m : res A) : Prop :=
  match m with Ok _ => False | Raise _ => True end.

(** JSON-shaped values: what a node receives as [input_data]. *)
Inductive val : Type :=
| PyNone
| PyBool (b : bool)
| PyInt (z : Z)
| PyStr (s : string)
| PyList (l : list val)
| PyDict (d : list (string * val)).

(** [bool(v)]. *)
Definition truthy (v : val) : bool :=
  match v with
  | PyNone => false
  | PyBool b => b
  | PyInt z => negb (Z.eqb z 0)
  | PyStr s => negb (String.eqb s "")
  | PyList l => match l with [] => false | _ => true end
  | PyDict d => match d with [] => false | _ => true end
  end.

(** [isinstance(v, dict)]. *)
Definition is_dict (v : val) : bool :=
  match v with PyDict _ => true | _ => false end.

(** [v == s] for a string literal [s]. *)
Definition eq_str (v : val) (s : string) : bool :=
  match v with PyStr t => String.eqb t s | _ => false end.

(** Item lookup in an association list: the first binding of [k]. *)
Fixpoint assoc (k : string) (d : list (string * val)) : option val :=
  match d with
  | [] => None
  | (k', v) :: rest => if String.eqb k' k then Some v else assoc k rest
  end.

(** [d[k] = v] on an insertion-ordered dictionary: an existing key keeps
    its place, a new key goes last. *)
Fixpoint dict_set (k : string) (v : val) (d : list (string * val))
  : list (string * val) :=
  match d with
  | [] => [(k, v)]
  | (k', v') :: rest =>
      if String.eqb k' k then (k, v) :: rest
      else (k', v') :: dict_set k v rest
  end.

(** A Python dict has one binding per key. *)
Definition wf_dict (d : list (string * val)) : Prop := NoDup (map fst d).

(** [a in b] for strings: [a] is a substring of [b]. *)
Fixpoint contains (kw s : string) : bool :=
  if String.prefix kw s then true
  else match s with
       | EmptyString => false
       | String _ rest => contains kw rest
       end.

(** [k in v] for a string literal [k]. *)
Definition str_in (k : string) (v : val) : res bool :=
  match v with
  | PyDict d => Ok (bool_decide (is_Some (assoc k d)))
  | PyList l => Ok (existsb (fun x => eq_str x k) l)
  | PyStr s => Ok (contains k s)
  | _ => Raise TypeError
  end.

(** [v[k]] for a string literal [k]. *)
Definition getitem (v : val) (k : string) : res val :=
  match v with
  | PyDict d => match assoc k d with Some x => Ok x | None => Raise KeyError end
  | _ => Raise TypeError
  end.

(** [v.get(k, dflt)]. *)
Definition get (v : val) (k : string) (dflt : val) : res val :=
  match v with
  | PyDict d => Ok (match assoc k d with Some x => x | None => dflt end)
  | _ => Raise AttributeError
  end.

(** [v.items()]. *)
Definition items (v : val) : res (list (string * val)) :=
  match v with
  | PyDict d => Ok d
  | _ => Raise AttributeError
  end.

(** [len(v)]. *)
Definition len (v : val) : res nat :=
  match v with
  | PyDict d => Ok (List.length d)
  | PyList l => Ok (List.length l)
  | PyStr s => Ok (String.length s)
  | _ => Raise TypeError
  end.

(** [s[:n]]. *)
Definition slice_to (n : nat) (s : string) : string := String.substring 0 n s.

(** [c.lower()] on one ASCII character. *)
Definition lower_ascii (c : ascii) : ascii :=
  let n := nat_of_ascii c in
  if (65 <=? n)%nat && (n <=? 90)%nat then ascii_of_nat (n + 32) else c.

(** [s.lower()] on ASCII text. *)
Fixpoint lower (s : string) : string :=
  match s with
  | EmptyString => EmptyString
  | String c rest => String (lower_ascii c) (lower rest)
  end.

(** [s or dflt] for a string. *)
Definition str_or (s dflt : string) : string :=
  if String.eqb s "" then dflt else s.

(** [a or dflt] for an optional string attribute ([None] when unset). *)
Definition attr_or (a : option string) (dflt : string) : string :=
  match a with
  | Some s => str_or s dflt
  | None => dflt
  end.

(** [sum(xs)]: a left fold from the integer 0, here on exact numbers.  The
    scripts add doubles, where the result rounds at every step and depends
    on the order; only the shape of the fold is relied on. *)
Definition sum (xs : list Q) : Q := fold_left Qplus xs 0%Q.

(** [a / b]. *)
Definition div (a b : Q) : res Q :=
  if Qeq_bool b 0 then Raise ZeroDivisionError else Ok (a / b)%Q.

(** Round to the nearest integer, ties to even. *)
Definition round_half_even (x : Q) : Z :=
  let f := Qfloor x in
  match Qcompare (x - inject_Z f) (1 # 2) with
  | Lt => f
  | Gt => (f + 1)%Z
  | Eq => if Z.even f then f else (f + 1)%Z
  end.

(** [round(x, ndigits)] on an exact number, ties to even.  On a double
    Python rounds the binary value it holds, which can fall on the other
    side of a tie; only the value at 0 is relied on. *)
Definition round (x : Q) (ndigits : nat) : Q :=
  let scale := (10 ^ Z.of_nat ndigits)%Z in
  Qred (inject_Z (round_half_even (x * inject_Z scale)) / inject_Z scale).

End Py.

Import Py.

(** ** The IFC graph as the scripts read it *)

Module Ifc.

(** An entity instance.  [eid] is the instance number in the file;
    ifcopenshell's [==] on instances compares it.  [ifc_class] is what
    [is_a()] returns.  Optional attributes are [None] when unset. *)
Record entity : Type := {
  eid : nat;
  ifc_class : string;
  GlobalId : string;
  Name : option string;
  ObjectType : option string;
  Description : option string
}.

(** [a == b]. *)
Definition entity_eqb (a b : entity) : bool := Nat.eqb (eid a) (eid b).

(** [e in es]. *)
Definition entity_in (e : entity) (es : list entity) : bool :=
  existsb (fun x => entity_eqb x e) es.

(** [e.is_a(cls)] for a class without subtypes (IfcBuildingStorey,
    IfcSpace). *)
Definition is_a (e : entity) (cls : string) : bool :=
  String.eqb (ifc_class e) cls.

Module RelAggregates.
Record t : Type := { RelatingObject : entity; RelatedObjects : list entity }.
End RelAggregates.

Module RelContained.
Record t : Type := { RelatingStructure : entity; RelatedElements : list entity }.
End RelContained.

Module RelAssignsToGroup.
Record t : Type := { RelatingGroup : entity; RelatedObjects : list entity }.
End RelAssignsToGroup.

(** The open file: one field per [by_type] query the scripts make, the
    property sets of an entity ([ifcopenshell.util.element.get_psets],
    which may raise) and [by_guid] ([None] when the lookup raises or
    returns nothing). *)
Record model : Type := {
  IfcSpace : list entity;
  IfcZone : list entity;
  IfcBuildingStorey : list entity;
  IfcElement : list entity;
  IfcWall : list entity;
  IfcRelAggregates : list RelAggregates.t;
  IfcRelContainedInSpatialStructure : list RelContained.t;
  IfcRelAssignsToGroup : list RelAssignsToGroup.t;
  get_psets : entity -> res (gmap string (gmap string Q));
  by_guid : string -> option entity
}.

End Ifc.

Import Ifc.

(** ** space-analysis-example.py *)

Module SpaceAnalysis.

(** The summary of a contained or unassigned element (lines 76-80 and
    132-136). *)
Record element_info : Type := {
  el_id : string;
  el_type : string;
  el_name : string
}.

(** One value of [element_space_map] (lines 84-89). *)
Record assignment : Type := {
  space_id : string;
  space_name : string;
  space_type : string;
  storey : option string
}.

(** One item of [space_data] (lines 34-44, 91-92).  The two occupancy
    fields of lines 66-67 are copied from the property set and read by
    nothing else; they are left out. *)
Record space_info : Type := {
  si_id : string;
  si_name : string;
  si_type : string;
  si_description : string;
  si_storey : option string;
  si_elements : list element_info;
  si_area : Q;
  si_volume : Q;
  si_height : Q;
  si_element_count : nat
}.

(** One item of [zone_data] (lines 98-104). *)
Record zone_info : Type := {
  z_id : string;
  z_name : string;
  z_type : string;
  z_description : string;
  z_spaces : list (string * string)
}.

Definition element_summary (element : entity) : element_info :=
  {| el_id := GlobalId element;
     el_type := ifc_class element;
     el_name := attr_or (Name element)
                  (ifc_class element ++ "_" ++ slice_to 8 (GlobalId element)) |}.

(** Lines 47-50: the first aggregation that relates the space under a
    storey decides; the loop stops there. *)
Fixpoint find_storey (space : entity) (rels : list RelAggregates.t)
  : option string :=
  match rels with
  | [] => None
  | rel :: rest =>
      if entity_in space (RelAggregates.RelatedObjects rel)
         && is_a (RelAggregates.RelatingObject rel) "IfcBuildingStorey"
      then Name (RelAggregates.RelatingObject rel)
      else find_storey space rest
  end.

(** Lines 53-69: a quantity of [Qto_SpaceBaseQuantities]; 0 when the set
    or the key is missing, and when [get_psets] raised. *)
Definition quantity (m : model) (space : entity) (key : string) : Q :=
  match get_psets m space with
  | Ok psets =>
      match psets !! "Qto_SpaceBaseQuantities" with
      | Some quantities => default 0%Q (quantities !! key)
      | None => 0%Q
      end
  | Raise _ => 0%Q
  end.

(** Lines 76-89: the body of the loop over [rel.RelatedElements]. *)
Definition contain_element (space : entity) (sname stype : string)
    (sstorey : option string)
    (st : list element_info * gmap string assignment) (element : entity)
  : list element_info * gmap string assignment :=
  (st.1 ++ [element_summary element],
   <[GlobalId element :=
       {| space_id := GlobalId space; space_name := sname;
          space_type := stype; storey := sstorey |}]> (st.2)).

(** Lines 73-89: the body of the loop over the containment relations. *)
Definition scan_contained (space : entity) (sname stype : string)
    (sstorey : option string)
    (st : list element_info * gmap string assignment) (rel : RelContained.t)
  : list element_info * gmap string assignment :=
  if entity_eqb (RelContained.RelatingStructure rel) space
  then fold_left (contain_element space sname stype sstorey)
         (RelContained.RelatedElements rel) st
  else st.

(** Lines 33-93: the body of the loop over the spaces. *)
Definition process_space (m : model)
    (st : list space_info * gmap string assignment) (space : entity)
  : list space_info * gmap string assignment :=
  let sname := attr_or (Name space) ("Space_" ++ slice_to 8 (GlobalId space)) in
  let stype := attr_or (ObjectType space) "Generic" in
  let sstorey := find_storey space (IfcRelAggregates m) in
  let inner :=
    fold_left (scan_contained space sname stype sstorey)
      (IfcRelContainedInSpatialStructure m) ([], st.2) in
  (st.1 ++ [ {| si_id := GlobalId space;
                si_name := sname;
                si_type := stype;
                si_description := attr_or (Description space) "";
                si_storey := sstorey;
                si_elements := inner.1;
                si_area := quantity m space "NetFloorArea";
                si_volume := quantity m space "NetVolume";
                si_height := quantity m space "Height";
                si_element_count := List.length inner.1 |} ],
   inner.2).

Definition process_spaces (m : model)
  : list space_info * gmap string assignment :=
  fold_left (process_space m) (IfcSpace m) ([], ∅).

(** Lines 107-114. *)
Definition zone_members (zone : entity) (acc : list (string * string))
    (rel : RelAssignsToGroup.t) : list (string * string) :=
  if entity_eqb (RelAssignsToGroup.RelatingGroup rel) zone
  then fold_left
         (fun acc obj =>
            if is_a obj "IfcSpace"
            then acc ++ [(GlobalId obj, attr_or (Name obj) "")]
            else acc)
         (RelAssignsToGroup.RelatedObjects rel) acc
  else acc.

(** Lines 97-116. *)
Definition process_zone (m : model) (zone : entity) : zone_info :=
  {| z_id := GlobalId zone;
     z_name := attr_or (Name zone) ("Zone_" ++ slice_to 8 (GlobalId zone));
     z_type := attr_or (ObjectType zone) "Generic";
     z_description := attr_or (Description zone) "";
     z_spaces := fold_left (zone_members zone) (IfcRelAssignsToGroup m) [] |}.

(** Lines 125-129. *)
Definition in_storey (m : model) (element : entity) : bool :=
  existsb (fun rel => entity_in element (RelContained.RelatedElements rel))
    (IfcRelContainedInSpatialStructure m).

(** Lines 122-136: the body of the loop over all elements. *)
Definition check_unassigned (m : model) (esm : gmap string assignment)
    (unassigned : list element_info) (element : entity) : list element_info :=
  match esm !! GlobalId element with
  | None =>
      if in_storey m element then unassigned
      else unassigned ++ [element_summary element]
  | Some _ => unassigned
  end.

Definition find_unassigned (m : model) (esm : gmap string assignment)
  : list element_info :=
  fold_left (check_unassigned m esm) (IfcElement m) [].

(** One value of [space_types] (lines 148-152). *)
Record type_stats : Type := {
  ts_count : nat;
  ts_total_area : Q;
  ts_spaces : list string
}.

(** Lines 145-155. *)
Definition count_type (space_types : gmap string type_stats)
    (space : space_info) : gmap string type_stats :=
  let cur := default {| ts_count := 0; ts_total_area := 0%Q; ts_spaces := [] |}
               (space_types !! si_type space) in
  <[si_type space :=
      {| ts_count := S (ts_count cur);
         ts_total_area := (ts_total_area cur + si_area space)%Q;
         ts_spaces := ts_spaces cur ++ [si_name space] |}]> space_types.

Definition circulation_keywords : list string :=
  ["corridor"; "hallway"; "lobby"; "stair"; "elevator"; "circulation"].

(** Lines 163-167. *)
Definition is_circulation (space : space_info) : bool :=
  existsb
    (fun keyword =>
       contains keyword (lower (str_or (si_name space) ""))
       || contains keyword (lower (str_or (si_type space) "")))
    circulation_keywords.

(** Lines 162-172: the state is [(circulation_spaces, program_spaces)]. *)
Definition classify (st : list space_info * list space_info)
    (space : space_info) : list space_info * list space_info :=
  if is_circulation space then (st.1 ++ [space], st.2)
  else (st.1, st.2 ++ [space]).

Definition classify_all (space_data : list space_info)
  : list space_info * list space_info :=
  fold_left classify space_data ([], []).

Record category : Type := {
  c_count : nat;
  c_area : Q;
  c_percentage : Q
}.

Record summary : Type := {
  total_spaces : nat;
  total_zones : nat;
  total_storeys : nat;
  assigned_elements : nat;
  unassigned_elements : nat;
  total_area : Q;
  total_volume : Q;
  average_height : Q;
  space_types : gmap string type_stats;
  circulation : category;
  program : category
}.

(** Line 141. *)
Definition avg_height (space_data : list space_info) : res Q :=
  match space_data with
  | [] => Ok 0%Q
  | _ => div (sum (map si_height space_data))
             (inject_Z (Z.of_nat (List.length space_data)))
  end.

(** Lines 196 and 201, on exact numbers: the guard and the value 0 are as
    in the script, the quotient is not rounded as a double is. *)
Definition percentage (part total : Q) : res Q :=
  if Qlt_le_dec 0 total
  then q ← div part total; Ok (round (q * 100) 1)
  else Ok 0%Q.

(** Lines 139-203. *)
Definition summarize (m : model) (space_data : list space_info)
    (esm : gmap string assignment) (unassigned : list element_info)
  : res summary :=
  let total := sum (map si_area space_data) in
  let volume := sum (map si_volume space_data) in
  h ← avg_height space_data;
  let types := fold_left count_type space_data ∅ in
  let groups := classify_all space_data in
  let circulation_area := sum (map si_area groups.1) in
  let program_area := sum (map si_area groups.2) in
  pc ← percentage circulation_area total;
  pp ← percentage program_area total;
  Ok {| total_spaces := List.length (IfcSpace m);
        total_zones := List.length (IfcZone m);
        total_storeys := List.length (IfcBuildingStorey m);
        assigned_elements := size esm;
        unassigned_elements := List.length unassigned;
        total_area := round total 2;
        total_volume := round volume 2;
        average_height := round h 2;
        space_types := types;
        circulation := {| c_count := List.length groups.1;
                          c_area := round circulation_area 2;
                          c_percentage := pc |};
        program := {| c_count := List.length groups.2;
                      c_area := round program_area 2;
                      c_percentage := pp |} |}.

(** The [result] of a run that did not raise (lines 178-204). *)
Record analysis : Type := {
  spaces : list space_info;
  element_space_map : gmap string assignment;
  zones : list zone_info;
  unassigned : list element_info;
  stats : summary
}.

(** The [result] of the script: the analysis, or the error record of the
    outer [except] (lines 215-222). *)
Inductive result : Type :=
| Analysed (a : analysis)
| Failed (e : exn).

(** Lines 21-204. *)
Definition build (m : model) : res analysis :=
  let st := process_spaces m in
  let zone_data := map (process_zone m) (IfcZone m) in
  let un := find_unassigned m st.2 in
  s ← summarize m st.1 st.2 un;
  Ok {| spaces := st.1; element_space_map := st.2; zones := zone_data;
        unassigned := un; stats := s |}.

Definition run (m : model) : result :=
  match build m with
  | Ok a => Analysed a
  | Raise e => Failed e
  end.

End SpaceAnalysis.

(** A loop whose body may raise: the first exception ends it. *)
Fixpoint foldM {S A : Type} (f : S -> A -> res S) (l : list A) (s : S)
  : res S :=
  match l with
  | [] => Ok s
  | x :: rest => s' ← f s x; foldM f rest s'
  end.

(** ** add-room-info-example.py *)

Module AddRoomInfo.

(** Lines 13-19: where the script looks for the assignment table. *)
Definition read_space_assignments (input_data : val) : res val :=
  if truthy input_data && is_dict input_data then
    camel ← str_in "elementSpaceMap" input_data;
    if camel : bool then getitem input_data "elementSpaceMap"
    else
      snake ← str_in "element_space_map" input_data;
      if snake : bool then getitem input_data "element_space_map"
      else Ok PyNone
  else Ok PyNone.

(** [None] or a string as a value. *)
Definition opt_str (o : option string) : val :=
  match o with Some s => PyStr s | None => PyNone end.

(** Lines 50-56: the body of the loop over [rel.RelatedElements]. *)
Definition assign_element (space : entity) (space_name space_type : string)
    (storey_name : option string) (acc : list (string * val))
    (element : entity) : list (string * val) :=
  dict_set (GlobalId element)
    (PyDict [("spaceName", PyStr space_name);
             ("spaceType", PyStr space_type);
             ("spaceId", PyStr (GlobalId space));
             ("storey", opt_str storey_name)]) acc.

(** Lines 36-56: the body of the loop over the spaces. *)
Definition assign_space (m : model) (acc : list (string * val))
    (space : entity) : list (string * val) :=
  let space_name := attr_or (Name space) ("Space_" ++ slice_to 8 (GlobalId space)) in
  let space_type := attr_or (ObjectType space) "Generic" in
  let storey_name := SpaceAnalysis.find_storey space (IfcRelAggregates m) in
  fold_left
    (fun acc rel =>
       if entity_eqb (RelContained.RelatingStructure rel) space
       then fold_left (assign_element space space_name space_type storey_name)
              (RelContained.RelatedElements rel) acc
       else acc)
    (IfcRelContainedInSpatialStructure m) acc.

(** Lines 33-56: the script's own analysis. *)
Definition own_analysis (m : model) : val :=
  PyDict (fold_left (assign_space m) (IfcSpace m) []).

(** One item of [result["details"]] (lines 73-83). *)
Record detail : Type := {
  d_id : string;
  d_type : string;
  d_name : string;
  d_space_name : val;
  d_space_type : val;
  d_space_id : val;
  d_storey : val
}.

(** [result] as the loop of lines 61-102 updates it. *)
Record progress : Type := {
  elements_updated : nat;
  elements_skipped : nat;
  details : list detail
}.

(** Lines 62-102: the body of the loop; the inner [except] turns a raise
    into a skipped element. *)
Definition update_element (m : model) (st : progress)
    (item : string * val) : progress :=
  let skip := {| elements_updated := elements_updated st;
                 elements_skipped := S (elements_skipped st);
                 details := details st |} in
  match by_guid m item.1 with
  | None => skip
  | Some element =>
      let info : res detail :=
        sn ← get item.2 "spaceName" (PyStr "");
        sty ← get item.2 "spaceType" (PyStr "");
        sid ← get item.2 "spaceId" (PyStr "");
        sto ← get item.2 "storey" (PyStr "");
        Ok {| d_id := GlobalId element; d_type := ifc_class element;
              d_name := attr_or (Name element) "";
              d_space_name := sn; d_space_type := sty;
              d_space_id := sid; d_storey := sto |} in
      match info with
      | Ok d => {| elements_updated := S (elements_updated st);
                   elements_skipped := elements_skipped st;
                   details := details st ++ [d] |}
      | Raise _ => skip
      end
  end.

(** Lines 28-102: from the table that was read to the state after the
    update loop.  The summary and the grouping of lines 104-126 are
    computed from this state and the table alone and are not embedded. *)
Definition update_all (m : model) (space_assignments : val) : res progress :=
  let table :=
    if truthy space_assignments then space_assignments else own_analysis m in
  _ ← len table;
  its ← items table;
  Ok (fold_left (update_element m) its
        {| elements_updated := 0; elements_skipped := 0; details := [] |}).

(** Lines 9-102. *)
Definition run (m : model) (input_data : val) : res progress :=
  space_assignments ← read_space_assignments input_data;
  update_all m space_assignments.

End AddRoomInfo.

(** ** room-assignment-transform.py *)

Module Transform.

(** The counters of [result['metadata']] (lines 60-64). *)
Record counters : Type := {
  wallsFound : nat;
  otherElementsSkipped : nat;
  totalMappings : nat
}.

(** [result['metadata']]: the counters, or the [error] message of the
    other branch (lines 72-74). *)
Inductive metadata : Type :=
| Counted (c : counters)
| Error (msg : string).

Record result : Type := {
  mappings : gmap string val;
  meta : metadata
}.

(** Lines 20-28: the GlobalIds of the walls of the model, when there is
    one. *)
Definition wall_global_ids (ifc : option model) : gset string :=
  match ifc with
  | Some m => fold_left (fun ids wall => {[GlobalId wall]} ∪ ids) (IfcWall m) ∅
  | None => ∅
  end.

(** The loop state: [(wall_mappings, walls_found, other_elements_skipped)]. *)
Record state : Type := {
  wall_mappings : gmap string val;
  walls_found : nat;
  other_elements_skipped : nat
}.

Definition init : state :=
  {| wall_mappings := ∅; walls_found := 0; other_elements_skipped := 0 |}.

(** Line 43: [space_name and space_name != 'None']. *)
Definition valid_name (space_name : val) : bool :=
  truthy space_name && negb (eq_str space_name "None").

(** Lines 38-50: the body of the loop over [element_space_map.items()]. *)
Definition step (walls : gset string) (st : state) (item : string * val)
  : res state :=
  if bool_decide (item.1 ∈ walls) then
    space_name ← get item.2 "spaceName" (PyStr "");
    if valid_name space_name
    then Ok {| wall_mappings := <[item.1 := space_name]> (wall_mappings st);
               walls_found := S (walls_found st);
               other_elements_skipped := other_elements_skipped st |}
    else Ok st
  else Ok {| wall_mappings := wall_mappings st;
             walls_found := walls_found st;
             other_elements_skipped := S (other_elements_skipped st) |}.

(** Line 11: [input_data and isinstance(input_data, dict) and
    'elementSpaceMap' in input_data]. *)
Definition recognised (input_data : val) : res bool :=
  if truthy input_data then
    if is_dict input_data then str_in "elementSpaceMap" input_data
    else Ok false
  else Ok false.

(** Lines 58-65. *)
Definition report (st : state) : result :=
  {| mappings := wall_mappings st;
     meta := Counted {| wallsFound := walls_found st;
                        otherElementsSkipped := other_elements_skipped st;
                        totalMappings := size (wall_mappings st) |} |}.

(** Lines 70-75. *)
Definition not_applicable : result :=
  {| mappings := ∅; meta := Error "No room assignment data found" |}.

(** The whole script: [input_data] and [model] are the node's inputs,
    the value is [result]. *)
Definition transform (input_data : val) (ifc : option model) : res result :=
  ok ← recognised input_data;
  if ok : bool then
    element_space_map ← getitem input_data "elementSpaceMap";
    _ ← len element_space_map;
    let walls := wall_global_ids ifc in
    its ← items element_space_map;
    st ← foldM (step walls) its init;
    Ok (report st)
  else Ok not_applicable.

End Transform.

(** ** room-assignment-to-walls.py *)

Module ToWalls.

(** One item of [model['elements']]: the three keys the script reads,
    [None] when the key is missing ([properties.GlobalId] for
    [el_global_id]). *)
Record element : Type := {
  el_id : option string;
  el_global_id : option string;
  el_type : option string
}.

(** The node's [inputs]: [input] is [None] when the key is missing;
    [elements] is [model.elements], empty when either key is missing. *)
Record inputs : Type := {
  input : option val;
  elements : list element
}.

(** Lines 31-40: [element_lookup] maps an element id to
    [(GlobalId, type)]. *)
Definition add_lookup (lookup : gmap string (string * string))
    (elem : element) : gmap string (string * string) :=
  let elem_id := default "" (el_id elem) in
  let global_id := default "" (el_global_id elem) in
  let elem_type := default "" (el_type elem) in
  if negb (String.eqb elem_id "") && negb (String.eqb global_id "")
  then <[elem_id := (global_id, elem_type)]> lookup
  else lookup.

Definition element_lookup (elems : list element)
  : gmap string (string * string) :=
  fold_left add_lookup elems ∅.

(** Lines 47-59: the body of the loop over [element_space_map.items()]. *)
Definition step (lookup : gmap string (string * string))
    (st : Transform.state) (item : string * val) : res Transform.state :=
  match lookup !! item.1 with
  | Some elem_info =>
      if String.eqb elem_info.2 "IfcWall" then
        space_name ← get item.2 "spaceName" (PyStr "");
        if Transform.valid_name space_name
        then Ok {| Transform.wall_mappings :=
                     <[elem_info.1 := space_name]> (Transform.wall_mappings st);
                   Transform.walls_found := S (Transform.walls_found st);
                   Transform.other_elements_skipped :=
                     Transform.other_elements_skipped st |}
        else Ok st
      else Ok {| Transform.wall_mappings := Transform.wall_mappings st;
                 Transform.walls_found := Transform.walls_found st;
                 Transform.other_elements_skipped :=
                   S (Transform.other_elements_skipped st) |}
  | None => Ok st
  end.

(** [output]: the mapping record (lines 63-70) or the input itself
    (line 78). *)
Inductive output : Type :=
| Mapped (r : Transform.result)
| PassedThrough (v : val).

(** The whole script. *)
Definition transform (ins : inputs) : res output :=
  let input_data := default (PyDict []) (input ins) in
  has ← str_in "elementSpaceMap" input_data;
  if has : bool then
    element_space_map ← getitem input_data "elementSpaceMap";
    let lookup := element_lookup (elements ins) in
    its ← items element_space_map;
    st ← foldM (step lookup) its Transform.init;
    Ok (Mapped (Transform.report st))
  else Ok (PassedThrough input_data).

End ToWalls.

(** ** add-room-info-example.py, lines 104-126: summary and grouping *)

Module AddRoomInfoReport.

(** A hashable value as a member of a set or a key of a dictionary:
    a string, an integer ([True] and [False] being 1 and 0), or [None]. *)
Abbreviation hkey := (string + (Z + ()))%type.

(** [hash(v)]: lists and dictionaries are unhashable. *)
Definition hash_key (v : val) : res hkey :=
  match v with
  | PyStr s => Ok (inl s)
  | PyInt z => Ok (inr (inl z))
  | PyBool b => Ok (inr (inl (if b then 1 else 0)%Z))
  | PyNone => Ok (inr (inr ()))
  | PyList _ => Raise TypeError
  | PyDict _ => Raise TypeError
  end.

(** Line 109: one turn of [set(s.get("spaceName", "") for s in ...)]. *)
Definition collect_name (acc : gset hkey) (s : val) : res (gset hkey) :=
  v ← get s "spaceName" (PyStr "");
  h ← hash_key v;
  Ok ({[h]} ∪ acc).

(** Line 110: one turn of
    [set(s.get("storey", "") for s in ... if s.get("storey"))]. *)
Definition collect_storey (acc : gset hkey) (s : val) : res (gset hkey) :=
  c ← get s "storey" PyNone;
  if truthy c then
    v ← get s "storey" (PyStr "");
    h ← hash_key v;
    Ok ({[h]} ∪ acc)
  else Ok acc.

(** [result["summary"]] (lines 105-111). *)
Record summary : Type := {
  total_processed : nat;
  successfully_updated : nat;
  skipped : nat;
  spaces_found : nat;
  storeys_found : nat
}.

(** Lines 115-123: one turn of the grouping loop; the group of a space
    name collects [(id, type, name)] of its elements. *)
Definition group_detail (groups : gmap hkey (list (string * string * string)))
    (d : AddRoomInfo.detail)
  : res (gmap hkey (list (string * string * string))) :=
  h ← hash_key (AddRoomInfo.d_space_name d);
  Ok (<[h := default [] (groups !! h)
             ++ [(AddRoomInfo.d_id d, AddRoomInfo.d_type d, AddRoomInfo.d_name d)]]>
        groups).

(** The final [result] of a run that did not raise. *)
Record report : Type := {
  elements_updated : nat;
  elements_skipped : nat;
  details : list AddRoomInfo.detail;
  stats : summary;
  elements_by_space : gmap hkey (list (string * string * string))
}.

(** The table the update loop walks (lines 28-56): the one that was read,
    or the own analysis when that is falsy. *)
Definition table_of (m : model) (space_assignments : val) : val :=
  if truthy space_assignments then space_assignments
  else AddRoomInfo.own_analysis m.

(** Lines 104-126. *)
Definition finish (table : val) (p : AddRoomInfo.progress) : res report :=
  n ← len table;
  its ← items table;
  names ← foldM collect_name (map snd its) ∅;
  storeys ← foldM collect_storey (map snd its) ∅;
  groups ← foldM group_detail (AddRoomInfo.details p) ∅;
  Ok {| elements_updated := AddRoomInfo.elements_updated p;
        elements_skipped := AddRoomInfo.elements_skipped p;
        details := AddRoomInfo.details p;
        stats := {| total_processed := n;
                    successfully_updated := AddRoomInfo.elements_updated p;
                    skipped := AddRoomInfo.elements_skipped p;
                    spaces_found := size names;
                    storeys_found := size storeys |};
        elements_by_space := groups |}.

(** The [result] of the script: the report, or the error record of the
    outer [except] (lines 134-140). *)
Inductive result : Type :=
| Done (r : report)
| Failed (e : exn).

(** The whole script. *)
Definition script (m : model) (input_data : val) : result :=
  match
    (space_assignments ← AddRoomInfo.read_space_assignments input_data;
     p ← AddRoomInfo.update_all m space_assignments;
     finish (table_of m space_assignments) p)
  with
  | Ok r => Done r
  | Raise e => Failed e
  end.

End AddRoomInfoReport.

(** ** debug-spaces.py *)

Module DebugSpaces.

(** The open file as this script queries it: the queries of the other
    scripts ([core]), the further classes it lists, the schema name and the
    number of instances.  [IfcSpatialZone] is [None] when the schema of
    the file has no such class and the query raises. *)
Record file : Type := {
  core : model;
  schema : option string;
  total_elements : nat;
  IfcBuilding : list entity;
  IfcSite : list entity;
  IfcSpatialZone : option (list entity);
  IfcSlab : list entity;
  IfcColumn : list entity;
  IfcBeam : list entity;
  IfcDoor : list entity;
  IfcWindow : list entity
}.

(** [model.by_type(t)] for the classes of lines 21-28 and 58; [None] when
    the query raises. *)
Definition by_type (f : file) (t : string) : option (list entity) :=
  if String.eqb t "IfcSpace" then Some (IfcSpace (core f))
  else if String.eqb t "IfcZone" then Some (IfcZone (core f))
  else if String.eqb t "IfcBuildingStorey" then Some (IfcBuildingStorey (core f))
  else if String.eqb t "IfcBuilding" then Some (IfcBuilding f)
  else if String.eqb t "IfcSite" then Some (IfcSite f)
  else if String.eqb t "IfcSpatialZone" then IfcSpatialZone f
  else if String.eqb t "IfcWall" then Some (IfcWall (core f))
  else if String.eqb t "IfcSlab" then Some (IfcSlab f)
  else if String.eqb t "IfcColumn" then Some (IfcColumn f)
  else if String.eqb t "IfcBeam" then Some (IfcBeam f)
  else if String.eqb t "IfcDoor" then Some (IfcDoor f)
  else if String.eqb t "IfcWindow" then Some (IfcWindow f)
  else None.

(** [len(model.by_type(t))] for the relationship classes of lines 46-50. *)
Definition rel_count (f : file) (t : string) : nat :=
  if String.eqb t "IfcRelContainedInSpatialStructure"
  then List.length (IfcRelContainedInSpatialStructure (core f))
  else if String.eqb t "IfcRelAggregates"
  then List.length (IfcRelAggregates (core f))
  else if String.eqb t "IfcRelAssignsToGroup"
  then List.length (IfcRelAssignsToGroup (core f))
  else 0.

Definition spatial_types : list string :=
  ["IfcSpace"; "IfcZone"; "IfcBuildingStorey"; "IfcBuilding"; "IfcSite";
   "IfcSpatialZone"].

Definition rel_types : list string :=
  ["IfcRelContainedInSpatialStructure"; "IfcRelAggregates";
   "IfcRelAssignsToGroup"].

Definition element_types : list string :=
  ["IfcWall"; "IfcSlab"; "IfcColumn"; "IfcBeam"; "IfcDoor"; "IfcWindow"].

(** One example of lines 39-43: [(id, name, type)]. *)
Definition example (elem : entity) : string * option string * option string :=
  (GlobalId elem, Name elem, ObjectType elem).

(** One value of [result["spatial_elements"]] (lines 33-36). *)
Record spatial_entry : Type := {
  count : nat;
  examples : list (string * option string * option string)
}.

(** Lines 30-43: one turn of the loop over [spatial_types]. *)
Definition scan_spatial (f : file) (acc : gmap string spatial_entry)
    (spatial_type : string) : option (gmap string spatial_entry) :=
  elements ← by_type f spatial_type;
  match elements with
  | [] => Some acc
  | _ => Some (<[spatial_type :=
                   {| count := List.length elements;
                      examples := map example (firstn 3 elements) |}]> acc)
  end.

(** A loop whose body may raise, on [option]. *)
Fixpoint fold_opt {S A : Type} (step : S -> A -> option S) (l : list A) (s : S)
  : option S :=
  match l with
  | [] => Some s
  | x :: rest => s' ← step s x; fold_opt step rest s'
  end.

(** Lines 52-55: one turn of the loop over [rel_types]. *)
Definition scan_rel (f : file) (acc : gmap string nat) (rel_type : string)
  : gmap string nat :=
  match rel_count f rel_type with
  | O => acc
  | n => <[rel_type := n]> acc
  end.

(** [contained_in] of a sample (lines 77-81): [(type, name, id)] of the
    containing structure. *)
Definition container (rel : RelContained.t) : string * option string * string :=
  (ifc_class (RelContained.RelatingStructure rel),
   Name (RelContained.RelatingStructure rel),
   GlobalId (RelContained.RelatingStructure rel)).

(** Lines 74-82: the first relation that relates the sample decides. *)
Fixpoint find_container (sample : entity) (rels : list RelContained.t)
  : option (string * option string * string) :=
  match rels with
  | [] => None
  | rel :: rest =>
      if entity_in sample (RelContained.RelatedElements rel)
      then Some (container rel)
      else find_container sample rest
  end.

(** One item of [result["sample_elements"]] (lines 63-71). *)
Record sample_info : Type := {
  s_type : string;
  s_count : nat;
  s_id : string;
  s_name : option string;
  s_contained_in : option (string * option string * string)
}.

(** Lines 59-84: one turn of the loop over [element_types]. *)
Definition scan_sample (f : file) (acc : list sample_info) (elem_type : string)
  : option (list sample_info) :=
  elems ← by_type f elem_type;
  match elems with
  | [] => Some acc
  | sample :: _ =>
      Some (acc ++ [ {| s_type := elem_type;
                        s_count := List.length elems;
                        s_id := GlobalId sample;
                        s_name := Name sample;
                        s_contained_in :=
                          find_container sample
                            (IfcRelContainedInSpatialStructure (core f)) |} ])
  end.

(** Lines 102-104: every relation of the storey overwrites the count. *)
Definition count_contained (storey : entity) (n : nat) (rel : RelContained.t)
  : nat :=
  if entity_eqb (RelContained.RelatingStructure rel) storey
  then List.length (RelContained.RelatedElements rel)
  else n.

(** One item of [storey_analysis["storeys"]] (lines 95-106). *)
Record storey_info : Type := {
  st_name : option string;
  st_id : string;
  st_contained_elements : nat
}.

Definition analyse_storey (f : file) (storey : entity) : storey_info :=
  {| st_name := Name storey;
     st_id := GlobalId storey;
     st_contained_elements :=
       fold_left (count_contained storey)
         (IfcRelContainedInSpatialStructure (core f)) 0 |}.

(** Lines 87-106: [None] when the key [storey_analysis] is not set. *)
Definition storey_analysis (f : file) (spatial : gmap string spatial_entry)
  : option (nat * list storey_info) :=
  match spatial !! "IfcSpace" with
  | Some _ => None
  | None =>
      match IfcBuildingStorey (core f) with
      | [] => None
      | storeys => Some (List.length storeys, map (analyse_storey f) storeys)
      end
  end.

(** Lines 109-114.  [pretty] prints a number in decimal. *)
Definition message (spatial : gmap string spatial_entry) : string :=
  match spatial !! "IfcSpace" with
  | Some spaces =>
      "Found " ++ pretty (count spaces) ++ " spaces in the model"
  | None =>
      match spatial !! "IfcBuildingStorey" with
      | Some storeys =>
          "No spaces found, but model has " ++ pretty (count storeys)
          ++ " building storeys"
      | None => "No spatial structure found in this IFC file"
      end
  end.

(** [result]. *)
Record report : Type := {
  file_schema : string;
  file_total_elements : nat;
  spatial_elements : gmap string spatial_entry;
  spatial_relationships : gmap string nat;
  sample_elements : list sample_info;
  storeys : option (nat * list storey_info);
  msg : string
}.

(** The whole script; [None] when a query raises. *)
Definition script (f : file) : option report :=
  spatial ← fold_opt (scan_spatial f) spatial_types ∅;
  let rels := fold_left (scan_rel f) rel_types ∅ in
  samples ← fold_opt (scan_sample f) element_types [];
  Some {| file_schema := default "Unknown" (schema f);
          file_total_elements := total_elements f;
          spatial_elements := spatial;
          spatial_relationships := rels;
          sample_elements := samples;
          storeys := storey_analysis f spatial;
          msg := message spatial |}.

End DebugSpaces.

(** ** Closed forms of the loops, used to state what they compute *)

Module Resolver.

Import SpaceAnalysis.

(** The elements a structure contains: the related elements of every
    containment relation whose relating structure is [s], in scan order. *)
Definition contained_elements (m : model) (s : entity) : list entity :=
  flat_map
    (fun rel =>
       if entity_eqb (RelContained.RelatingStructure rel) s
       then RelContained.RelatedElements rel else [])
    (IfcRelContainedInSpatialStructure m).

(** The value the space loop writes for every element of [space]. *)
Definition assignment_of (m : model) (space : entity) : assignment :=
  {| space_id := GlobalId space;
     space_name := attr_or (Name space) ("Space_" ++ slice_to 8 (GlobalId space));
     space_type := attr_or (ObjectType space) "Generic";
     storey := find_storey space (IfcRelAggregates m) |}.

(** The record the space loop appends for [space]. *)
Definition record_of (m : model) (space : entity) : space_info :=
  {| si_id := GlobalId space;
     si_name := attr_or (Name space) ("Space_" ++ slice_to 8 (GlobalId space));
     si_type := attr_or (ObjectType space) "Generic";
     si_description := attr_or (Description space) "";
     si_storey := find_storey space (IfcRelAggregates m);
     si_elements := map element_summary (contained_elements m space);
     si_area := quantity m space "NetFloorArea";
     si_volume := quantity m space "NetVolume";
     si_height := quantity m space "Height";
     si_element_count := List.length (contained_elements m space) |}.

(** Every write to [element_space_map], in the order the loops make it. *)
Definition writes (m : model) (spaces : list entity)
  : list (string * assignment) :=
  flat_map
    (fun space =>
       map (fun element => (GlobalId element, assignment_of m space))
         (contained_elements m space))
    spaces.

(** Replaying a list of writes on a dictionary. *)
Definition replay {V : Type} (ws : list (string * V)) (d : gmap string V)
  : gmap string V :=
  fold_left (fun d w => <[w.1 := w.2]> d) ws d.

(** The value the own analysis of add-room-info writes for every element
    of [space]. *)
Definition entry_of (m : model) (space : entity) : val :=
  PyDict [("spaceName",
           PyStr (attr_or (Name space) ("Space_" ++ slice_to 8 (GlobalId space))));
          ("spaceType", PyStr (attr_or (ObjectType space) "Generic"));
          ("spaceId", PyStr (GlobalId space));
          ("storey", AddRoomInfo.opt_str (find_storey space (IfcRelAggregates m)))].

(** Every write of the own analysis, in order. *)
Definition entries (m : model) (spaces : list entity) : list (string * val) :=
  flat_map
    (fun space =>
       map (fun element => (GlobalId element, entry_of m space))
         (contained_elements m space))
    spaces.

(** Replaying a list of writes on an insertion-ordered dictionary. *)
Definition dict_replay (ws d : list (string * val)) : list (string * val) :=
  fold_left (fun d w => dict_set w.1 w.2 d) ws d.

(** The room name the transformers read from a table value that is a
    dictionary: [space_info.get('spaceName', '')]. *)
Definition name_of (space_info : val) : val :=
  match get space_info "spaceName" (PyStr "") with
  | Ok v => v
  | Raise _ => PyStr ""
  end.

(** The entries [Transform] writes to its mapping: the key is a wall and
    the room name is valid. *)
Definition included (walls : gset string) (item : string * val) : bool :=
  bool_decide (item.1 ∈ walls) && Transform.valid_name (name_of item.2).

(** The entries [Transform] counts as skipped: the key is not a wall. *)
Definition other (walls : gset string) (item : string * val) : bool :=
  negb (bool_decide (item.1 ∈ walls)).

(** The wall entries [Transform] neither writes nor counts: the room name
    is not valid. *)
Definition nameless (walls : gset string) (item : string * val) : bool :=
  bool_decide (item.1 ∈ walls) && negb (Transform.valid_name (name_of item.2)).

(** The same four classes for [ToWalls], which resolves the key of an
    entry in its element lookup: written (a wall with a valid name),
    skipped (resolved, not a wall), a wall without a valid name, and a key
    the lookup does not know. *)
Definition w_included (lookup : gmap string (string * string))
    (item : string * val) : bool :=
  match lookup !! item.1 with
  | Some info => String.eqb info.2 "IfcWall" && Transform.valid_name (name_of item.2)
  | None => false
  end.

Definition w_other (lookup : gmap string (string * string))
    (item : string * val) : bool :=
  match lookup !! item.1 with
  | Some info => negb (String.eqb info.2 "IfcWall")
  | None => false
  end.

Definition w_nameless (lookup : gmap string (string * string))
    (item : string * val) : bool :=
  match lookup !! item.1 with
  | Some info =>
      String.eqb info.2 "IfcWall" && negb (Transform.valid_name (name_of item.2))
  | None => false
  end.

Definition w_unknown (lookup : gmap string (string * string))
    (item : string * val) : bool :=
  match lookup !! item.1 with
  | Some _ => false
  | None => true
  end.

(** The key [ToWalls] writes for an entry: the GlobalId its lookup gives. *)
Definition w_key (lookup : gmap string (string * string))
    (item : string * val) : string :=
  match lookup !! item.1 with
  | Some info => info.1
  | None => ""
  end.

End Resolver.

(** ** Sample data used to exercise the statements below *)

Module Sample.

Definition storey_L1 : entity :=
  {| eid := 1; ifc_class := "IfcBuildingStorey"; GlobalId := "3vB2YO$MX4xv5uCqZZG0L1";
     Name := Some "L1"; ObjectType := None; Description := None |}.

Definition building : entity :=
  {| eid := 2; ifc_class := "IfcBuilding"; GlobalId := "0KMpiAlnb52RgQuM1CwVfd";
     Name := Some "Block A"; ObjectType := None; Description := None |}.

Definition room_a : entity :=
  {| eid := 10; ifc_class := "IfcSpace"; GlobalId := "1hOSvn6df7F8_7GcBWlRRA";
     Name := Some "Room A"; ObjectType := Some "Office"; Description := None |}.

(** A space whose name and object type are empty strings. *)
Definition blank : entity :=
  {| eid := 11; ifc_class := "IfcSpace"; GlobalId := "2O2Fr$t4X7Zf8NOew3FLBL";
     Name := Some ""; ObjectType := Some ""; Description := None |}.

Definition wall_1 : entity :=
  {| eid := 20; ifc_class := "IfcWall"; GlobalId := "W1aaaaaaaaaaaaaaaaaaaa";
     Name := Some "Wall 1"; ObjectType := None; Description := None |}.

Definition door_1 : entity :=
  {| eid := 21; ifc_class := "IfcDoor"; GlobalId := "D1aaaaaaaaaaaaaaaaaaaa";
     Name := None; ObjectType := None; Description := None |}.

Definition slab_1 : entity :=
  {| eid := 22; ifc_class := "IfcSlab"; GlobalId := "S1aaaaaaaaaaaaaaaaaaaa";
     Name := None; ObjectType := None; Description := None |}.

(** Room A is aggregated first by the building, then by storey L1.  Wall 1
    is claimed by Room A and then by the blank space; door 1 sits directly
    in the storey; slab 1 is contained nowhere. *)
Definition house : model :=
  {| IfcSpace := [room_a; blank];
     IfcZone := [];
     IfcBuildingStorey := [storey_L1];
     IfcElement := [wall_1; door_1; slab_1];
     IfcWall := [wall_1];
     IfcRelAggregates :=
       [ {| RelAggregates.RelatingObject := building;
            RelAggregates.RelatedObjects := [storey_L1; room_a] |};
         {| RelAggregates.RelatingObject := storey_L1;
            RelAggregates.RelatedObjects := [room_a; blank] |} ];
     IfcRelContainedInSpatialStructure :=
       [ {| RelContained.RelatingStructure := room_a;
            RelContained.RelatedElements := [wall_1] |};
         {| RelContained.RelatingStructure := blank;
            RelContained.RelatedElements := [wall_1] |};
         {| RelContained.RelatingStructure := storey_L1;
            RelContained.RelatedElements := [door_1] |} ];
     IfcRelAssignsToGroup := [];
     get_psets := fun e =>
       if entity_eqb e room_a
       then Ok {[ "Qto_SpaceBaseQuantities" :=
                    ({[ "NetFloorArea" := (41 # 2)%Q; "NetVolume" := (123 # 2)%Q;
                        "Height" := 3%Q ]} : gmap string Q) ]}
       else Raise AttributeError;
     by_guid := fun g =>
       if String.eqb g (GlobalId wall_1) then Some wall_1 else None |}.

(** A model without spaces. *)
Definition shell : model :=
  {| IfcSpace := [];
     IfcZone := [];
     IfcBuildingStorey := [storey_L1];
     IfcElement := [door_1; slab_1];
     IfcWall := [];
     IfcRelAggregates := [];
     IfcRelContainedInSpatialStructure :=
       [ {| RelContained.RelatingStructure := storey_L1;
            RelContained.RelatedElements := [door_1] |} ];
     IfcRelAssignsToGroup := [];
     get_psets := fun _ => Ok ∅;
     by_guid := fun _ => None |}.

(** An assignment table as the analysis node publishes it: one wall with
    a room, one door. *)
Definition table : val :=
  PyDict [ ("W1aaaaaaaaaaaaaaaaaaaa",
            PyDict [("spaceName", PyStr "Room A"); ("spaceType", PyStr "Office")]);
           ("D1aaaaaaaaaaaaaaaaaaaa",
            PyDict [("spaceName", PyStr "Room A")]) ].

(** A table whose only wall has no usable room name. *)
Definition nameless : val :=
  PyDict [ ("W1aaaaaaaaaaaaaaaaaaaa", PyDict [("spaceName", PyStr "")]) ].

(** The element list of the viewer model for [ToWalls]: the table keys are
    the element ids. *)
Definition viewer : list ToWalls.element :=
  [ {| ToWalls.el_id := Some "W1aaaaaaaaaaaaaaaaaaaa";
       ToWalls.el_global_id := Some "W1aaaaaaaaaaaaaaaaaaaa";
       ToWalls.el_type := Some "IfcWall" |};
    {| ToWalls.el_id := Some "D1aaaaaaaaaaaaaaaaaaaa";
       ToWalls.el_global_id := Some "D1aaaaaaaaaaaaaaaaaaaa";
       ToWalls.el_type := Some "IfcDoor" |} ].

(** Two space records: a corridor of area 30 and an office of area 70. *)
Definition corridor : SpaceAnalysis.space_info :=
  {| SpaceAnalysis.si_id := "0jf0rYHfX3RAB3bSIRjmmy";
     SpaceAnalysis.si_name := "Main Corridor";
     SpaceAnalysis.si_type := "Generic";
     SpaceAnalysis.si_description := "";
     SpaceAnalysis.si_storey := Some "L1";
     SpaceAnalysis.si_elements := [];
     SpaceAnalysis.si_area := 30%Q;
     SpaceAnalysis.si_volume := 90%Q;
     SpaceAnalysis.si_height := 3%Q;
     SpaceAnalysis.si_element_count := 0 |}.

Definition office : SpaceAnalysis.space_info :=
  {| SpaceAnalysis.si_id := "1s5utE$rDDfRKgzV6jUJ3d";
     SpaceAnalysis.si_name := "Office 1";
     SpaceAnalysis.si_type := "Generic";
     SpaceAnalysis.si_description := "";
     SpaceAnalysis.si_storey := Some "L1";
     SpaceAnalysis.si_elements := [];
     SpaceAnalysis.si_area := 70%Q;
     SpaceAnalysis.si_volume := 210%Q;
     SpaceAnalysis.si_height := 3%Q;
     SpaceAnalysis.si_element_count := 0 |}.

End Sample.

(** ** Views used to relate the scripts to one another *)

Module Views.

(** An assignment of the analysis as the dictionary add-room-info reads
    and writes. *)
Definition as_entry (asg : SpaceAnalysis.assignment) : val :=
  PyDict [("spaceName", PyStr (SpaceAnalysis.space_name asg));
          ("spaceType", PyStr (SpaceAnalysis.space_type asg));
          ("spaceId", PyStr (SpaceAnalysis.space_id asg));
          ("storey", AddRoomInfo.opt_str (SpaceAnalysis.storey asg))].

(** What the grouping keeps of a detail. *)
Definition triple (d : AddRoomInfo.detail) : string * string * string :=
  (AddRoomInfo.d_id d, AddRoomInfo.d_type d, AddRoomInfo.d_name d).

(** The detail's space name hashes to [h]. *)
Definition grouped_under (h : AddRoomInfoReport.hkey) (d : AddRoomInfo.detail)
  : bool :=
  match AddRoomInfoReport.hash_key (AddRoomInfo.d_space_name d) with
  | Ok h' => bool_decide (h' = h)
  | Raise _ => false
  end.

(** The entries the update loop turns into a detail: the model knows the
    GlobalId and the value is a dictionary. *)
Definition updatable (m : model) (item : string * val) : bool :=
  match by_guid m item.1 with
  | Some _ => is_dict item.2
  | None => false
  end.

End Views.

(** ** More sample data *)

Module Sample2.

Definition zone_east : entity :=
  {| eid := 30; ifc_class := "IfcZone"; GlobalId := "Z1aaaaaaaaaaaaaaaaaaaa";
     Name := None; ObjectType := Some "Fire"; Description := None |}.

(** The sample house with one zone; the zone groups Room A, wall 1 and the
    blank space. *)
Definition zoned : model :=
  {| IfcSpace := IfcSpace Sample.house;
     IfcZone := [zone_east];
     IfcBuildingStorey := IfcBuildingStorey Sample.house;
     IfcElement := IfcElement Sample.house;
     IfcWall := IfcWall Sample.house;
     IfcRelAggregates := IfcRelAggregates Sample.house;
     IfcRelContainedInSpatialStructure :=
       IfcRelContainedInSpatialStructure Sample.house;
     IfcRelAssignsToGroup :=
       [ {| RelAssignsToGroup.RelatingGroup := zone_east;
            RelAssignsToGroup.RelatedObjects :=
              [Sample.room_a; Sample.wall_1; Sample.blank] |} ];
     get_psets := get_psets Sample.house;
     by_guid := by_guid Sample.house |}.

(** A table whose door entry is a bare string instead of a dictionary. *)
Definition broken : list (string * val) :=
  [ ("W1aaaaaaaaaaaaaaaaaaaa", PyDict [("spaceName", PyStr "Room A")]);
    ("D1aaaaaaaaaaaaaaaaaaaa", PyStr "Room A") ].

(** The entries of the sample table, and the same read door first. *)
Definition entries : list (string * val) :=
  [ ("W1aaaaaaaaaaaaaaaaaaaa",
     PyDict [("spaceName", PyStr "Room A"); ("spaceType", PyStr "Office")]);
    ("D1aaaaaaaaaaaaaaaaaaaa", PyDict [("spaceName", PyStr "Room A")]) ].

Definition entries_rev : list (string * val) :=
  [ ("D1aaaaaaaaaaaaaaaaaaaa", PyDict [("spaceName", PyStr "Room A")]);
    ("W1aaaaaaaaaaaaaaaaaaaa",
     PyDict [("spaceName", PyStr "Room A"); ("spaceType", PyStr "Office")]) ].

(** A viewer list in which two element ids carry the GlobalId of wall 1,
    and a table with one entry for each id. *)
Definition twins : list ToWalls.element :=
  [ {| ToWalls.el_id := Some "101";
       ToWalls.el_global_id := Some "W1aaaaaaaaaaaaaaaaaaaa";
       ToWalls.el_type := Some "IfcWall" |};
    {| ToWalls.el_id := Some "102";
       ToWalls.el_global_id := Some "W1aaaaaaaaaaaaaaaaaaaa";
       ToWalls.el_type := Some "IfcWall" |} ].

Definition twin_table : val :=
  PyDict [("elementSpaceMap",
           PyDict [ ("101", PyDict [("spaceName", PyStr "Room A")]);
                    ("102", PyDict [("spaceName", PyStr "Room B")]) ])].

(** A model without spaces whose storey has two containment relations,
    of one and of two elements, as the file [debug-spaces.py] opens. *)
Definition annex : model :=
  {| IfcSpace := [];
     IfcZone := [];
     IfcBuildingStorey := [Sample.storey_L1];
     IfcElement := [Sample.door_1; Sample.slab_1; Sample.wall_1];
     IfcWall := [Sample.wall_1];
     IfcRelAggregates := [];
     IfcRelContainedInSpatialStructure :=
       [ {| RelContained.RelatingStructure := Sample.storey_L1;
            RelContained.RelatedElements := [Sample.door_1] |};
         {| RelContained.RelatingStructure := Sample.storey_L1;
            RelContained.RelatedElements := [Sample.slab_1; Sample.wall_1] |} ];
     IfcRelAssignsToGroup := [];
     get_psets := fun _ => Ok ∅;
     by_guid := fun _ => None |}.

Definition annex_file : DebugSpaces.file :=
  {| DebugSpaces.core := annex;
     DebugSpaces.schema := Some "IFC4";
     DebugSpaces.total_elements := 9;
     DebugSpaces.IfcBuilding := [Sample.building];
     DebugSpaces.IfcSite := [];
     DebugSpaces.IfcSpatialZone := Some [];
     DebugSpaces.IfcSlab := [Sample.slab_1];
     DebugSpaces.IfcColumn := [];
     DebugSpaces.IfcBeam := [];
     DebugSpaces.IfcDoor := [Sample.door_1];
     DebugSpaces.IfcWindow := [] |}.

(** A table with an entry for wall 1 and an entry under an id that the
    viewer list below does not hold. *)
Definition stray : list (string * val) :=
  [ ("W1aaaaaaaaaaaaaaaaaaaa", PyDict [("spaceName", PyStr "Room A")]);
    ("X9aaaaaaaaaaaaaaaaaaaa", PyDict [("spaceName", PyStr "Room B")]) ].

Definition lone_viewer : list ToWalls.element :=
  [ {| ToWalls.el_id := Some "W1aaaaaaaaaaaaaaaaaaaa";
       ToWalls.el_global_id := Some "W1aaaaaaaaaaaaaaaaaaaa";
       ToWalls.el_type := Some "IfcWall" |} ].

End Sample2.

(** * Properties *)

(** ** Relationship resolver *)

Section Storey.

Import SpaceAnalysis.

(** The test of line 48 in logical form. *)
Lemma storey_test_spec (space : entity) (rel : RelAggregates.t) :
  entity_in space (RelAggregates.RelatedObjects rel)
  && is_a (RelAggregates.RelatingObject rel) "IfcBuildingStorey" = true
  <-> (exists x, In x (RelAggregates.RelatedObjects rel) /\ eid x = eid space)
      /\ ifc_class (RelAggregates.RelatingObject rel) = "IfcBuildingStorey".
Proof.
  rewrite andb_true_iff. unfold entity_in, is_a, entity_eqb.
  rewrite existsb_exists, String.eqb_eq.
  split; intros [[x [Hin Hx]] Hc]; (split; [exists x; split; [exact Hin|] | exact Hc]).
  - now apply Nat.eqb_eq.
  - now apply Nat.eqb_eq.
Qed.

Lemma find_storey_skip (space : entity) (pre rest : list RelAggregates.t) :
  (forall r, In r pre ->
     entity_in space (RelAggregates.RelatedObjects r)
     && is_a (RelAggregates.RelatingObject r) "IfcBuildingStorey" = false) ->
  find_storey space (pre ++ rest) = find_storey space rest.
Proof.
  induction pre as [|r pre IH]; intros Hpre; simpl; [reflexivity|].
  rewrite (Hpre r (or_introl eq_refl)).
  apply IH. intros r' Hr'. apply Hpre. now right.
Qed.

End Storey.

(** C6: storey resolution returns the name of the relating object of the
    first aggregation whose related objects contain the space and whose
    relating object is an IfcBuildingStorey; it returns nothing when no
    aggregation qualifies; an aggregation under another kind of object
    (a building, say) is passed over and the scan goes on. *)
Theorem storey_of_first_match (space : entity) (rels : list RelAggregates.t) :
  let qualifies (r : RelAggregates.t) :=
    (exists x, In x (RelAggregates.RelatedObjects r) /\ eid x = eid space)
    /\ ifc_class (RelAggregates.RelatingObject r) = "IfcBuildingStorey" in
  (forall pre rel post,
      rels = pre ++ rel :: post ->
      (forall r, In r pre -> ~ qualifies r) ->
      qualifies rel ->
      SpaceAnalysis.find_storey space rels
      = Name (RelAggregates.RelatingObject rel))
  /\ ((forall r, In r rels -> ~ qualifies r) ->
      SpaceAnalysis.find_storey space rels = None)
  /\ (forall rel rest,
        rels = rel :: rest ->
        ifc_class (RelAggregates.RelatingObject rel) <> "IfcBuildingStorey" ->
        SpaceAnalysis.find_storey space rels
        = SpaceAnalysis.find_storey space rest).
Proof.
  intros qualifies.
  assert (Hno : forall l, (forall r, In r l -> ~ qualifies r) ->
            forall r, In r l ->
              entity_in space (RelAggregates.RelatedObjects r)
              && is_a (RelAggregates.RelatingObject r) "IfcBuildingStorey" = false).
  { intros l Hl r Hr. apply not_true_is_false. intros Ht.
    apply (Hl r Hr). now apply storey_test_spec. }
  split; [|split].
  - intros pre rel post -> Hpre Hrel.
    rewrite find_storey_skip by now apply Hno.
    simpl. apply storey_test_spec in Hrel. now rewrite Hrel.
  - intros Hall.
    rewrite <- (app_nil_r rels).
    rewrite find_storey_skip by now apply Hno.
    reflexivity.
  - intros rel rest -> Hcls. simpl.
    destruct (entity_in space _ && _) eqn:E; [|reflexivity].
    apply storey_test_spec in E. now destruct E.
Qed.

(** C6 on the sample model: the building's aggregation is passed over and
    the storey's one decides. *)
Lemma storey_of_first_match_witness :
  SpaceAnalysis.find_storey Sample.room_a (IfcRelAggregates Sample.house)
  = Some "L1".
Proof.
  apply (proj1 (storey_of_first_match Sample.room_a
                  (IfcRelAggregates Sample.house))
           [ {| RelAggregates.RelatingObject := Sample.building;
                RelAggregates.RelatedObjects := [Sample.storey_L1; Sample.room_a] |} ]
           {| RelAggregates.RelatingObject := Sample.storey_L1;
              RelAggregates.RelatedObjects := [Sample.room_a; Sample.blank] |}
           []).
  - reflexivity.
  - intros r [<-|[]] [_ Hc]. discriminate Hc.
  - split; [|reflexivity]. exists Sample.room_a. simpl. auto.
Defined.

(** ** Spatial assignment builder *)

Section Builder.

Import SpaceAnalysis Resolver.

Lemma replay_app {V} (a b : list (string * V)) (d : gmap string V) :
  replay (a ++ b) d = replay b (replay a d).
Proof. unfold replay. apply fold_left_app. Qed.

(** A key that no write names keeps its binding. *)
Lemma replay_untouched {V} (ws : list (string * V)) (d : gmap string V) g :
  (forall w, In w ws -> w.1 <> g) -> replay ws d !! g = d !! g.
Proof.
  revert d. induction ws as [|w ws IH]; intros d Hws; [reflexivity|].
  change (replay ws (<[w.1 := w.2]> d) !! g = d !! g).
  rewrite IH by (intros w' Hw'; apply Hws; now right).
  apply lookup_insert_ne. apply Hws. now left.
Qed.

(** The last write to a key decides its binding. *)
Lemma replay_last {V} (pre post : list (string * V)) (d : gmap string V) g v :
  (forall w, In w post -> w.1 <> g) ->
  replay (pre ++ (g, v) :: post) d !! g = Some v.
Proof.
  intros Hpost. rewrite replay_app.
  change (replay post (<[g := v]> (replay pre d)) !! g = Some v).
  rewrite replay_untouched by exact Hpost.
  apply lookup_insert_eq.
Qed.

(** A key that is bound after a replay was bound before or written. *)
Lemma replay_bound {V} (ws : list (string * V)) (d : gmap string V) g v :
  replay ws d !! g = Some v -> d !! g = Some v \/ In (g, v) ws.
Proof.
  revert d. induction ws as [|[k x] ws IH]; intros d H; [now left|].
  change (replay ws (<[k := x]> d) !! g = Some v) in H.
  apply IH in H as [H|H]; [|right; now right].
  destruct (decide (k = g)) as [->|Hne].
  - rewrite lookup_insert_eq in H. inversion H; subst. right. now left.
  - rewrite lookup_insert_ne in H by exact Hne. now left.
Qed.

Lemma contain_elements_fold space sname stype sstorey els c e :
  fold_left (contain_element space sname stype sstorey) els (c, e)
  = (c ++ map element_summary els,
     replay (map (fun el => (GlobalId el,
                    {| space_id := GlobalId space; space_name := sname;
                       space_type := stype; storey := sstorey |})) els) e).
Proof.
  revert c e. induction els as [|el els IH]; intros c e; simpl.
  - now rewrite app_nil_r.
  - unfold contain_element at 2. simpl. rewrite IH.
    now rewrite <- app_assoc.
Qed.

Lemma scan_contained_fold space sname stype sstorey rels c e :
  let els :=
    flat_map (fun rel =>
                if entity_eqb (RelContained.RelatingStructure rel) space
                then RelContained.RelatedElements rel else []) rels in
  fold_left (scan_contained space sname stype sstorey) rels (c, e)
  = (c ++ map element_summary els,
     replay (map (fun el => (GlobalId el,
                    {| space_id := GlobalId space; space_name := sname;
                       space_type := stype; storey := sstorey |})) els) e).
Proof.
  revert c e. induction rels as [|rel rels IH]; intros c e; simpl.
  - now rewrite app_nil_r.
  - unfold scan_contained at 2.
    destruct (entity_eqb _ space).
    + rewrite contain_elements_fold, IH.
      rewrite !map_app, replay_app, <- app_assoc. reflexivity.
    + rewrite IH. reflexivity.
Qed.

Lemma process_space_closed m st space :
  process_space m st space
  = (st.1 ++ [record_of m space],
     replay (map (fun el => (GlobalId el, assignment_of m space))
               (contained_elements m space)) st.2).
Proof.
  unfold process_space.
  rewrite scan_contained_fold. simpl.
  unfold record_of, assignment_of, contained_elements.
  now rewrite length_map.
Qed.

Lemma process_spaces_fold m l st :
  fold_left (process_space m) l st
  = (st.1 ++ map (record_of m) l, replay (writes m l) st.2).
Proof.
  revert st. induction l as [|space l IH]; intros [sd e]; simpl.
  - now rewrite app_nil_r.
  - rewrite process_space_closed, IH. simpl.
    now rewrite replay_app, <- app_assoc.
Qed.

(** The space loop appends one record per space, in enumeration order, and
    replays every write on the empty dictionary. *)
Lemma process_spaces_closed m :
  process_spaces m = (map (record_of m) (IfcSpace m), replay (writes m (IfcSpace m)) ∅).
Proof. unfold process_spaces. now rewrite process_spaces_fold. Qed.

Lemma writes_app m a b : writes m (a ++ b) = writes m a ++ writes m b.
Proof. unfold writes. apply flat_map_app. Qed.

Lemma in_writes m l g a :
  In (g, a) (writes m l) <->
  exists space element,
    In space l /\ In element (contained_elements m space)
    /\ g = GlobalId element /\ a = assignment_of m space.
Proof.
  unfold writes. rewrite in_flat_map. split.
  - intros [space [Hs Hin]]. apply in_map_iff in Hin as [el [Heq Hel]].
    inversion Heq; subst. now exists space, el.
  - intros [space [el [Hs [Hel [-> ->]]]]]. exists space. split; [exact Hs|].
    apply in_map_iff. now exists el.
Qed.

(** Membership in [contained_elements] in terms of the relations. *)
Lemma in_contained_elements m s element :
  In element (contained_elements m s) <->
  exists rel, In rel (IfcRelContainedInSpatialStructure m)
              /\ eid (RelContained.RelatingStructure rel) = eid s
              /\ In element (RelContained.RelatedElements rel).
Proof.
  unfold contained_elements. rewrite in_flat_map.
  split; intros [rel [Hrel H]]; exists rel.
  - unfold entity_eqb in H.
    destruct (Nat.eqb _ _) eqn:E; [|contradiction].
    apply Nat.eqb_eq in E. auto.
  - split; [exact Hrel|]. destruct H as [He Hin].
    unfold entity_eqb. apply Nat.eqb_eq in He. now rewrite He.
Qed.

(** The statistics never raise: both divisions are guarded. *)
Lemma avg_height_ok space_data : exists h, avg_height space_data = Ok h.
Proof.
  destruct space_data as [|s l]; [now exists 0%Q|].
  unfold avg_height, div.
  destruct (Qeq_bool _ 0) eqn:E; [|eauto].
  apply Qeq_bool_eq in E. unfold Qeq in E. simpl in E. lia.
Qed.

Lemma percentage_ok part total : exists p, percentage part total = Ok p.
Proof.
  unfold percentage. destruct (Qlt_le_dec 0 total) as [Hpos|Hle]; [|eauto].
  unfold div. destruct (Qeq_bool total 0) eqn:E; [|simpl; eauto].
  apply Qeq_bool_eq in E. rewrite E in Hpos. now apply Qlt_irrefl in Hpos.
Qed.

Lemma percentage_zero part total : (total == 0)%Q -> percentage part total = Ok 0%Q.
Proof.
  intros H. unfold percentage.
  destruct (Qlt_le_dec 0 total) as [Hpos|Hle]; [|reflexivity].
  rewrite H in Hpos. now apply Qlt_irrefl in Hpos.
Qed.

Lemma summarize_ok m sd esm un : exists s, summarize m sd esm un = Ok s.
Proof.
  unfold summarize.
  destruct (avg_height_ok sd) as [h ->]. simpl.
  destruct (percentage_ok (sum (map si_area (classify_all sd).1))
              (sum (map si_area sd))) as [pc ->]. simpl.
  destruct (percentage_ok (sum (map si_area (classify_all sd).2))
              (sum (map si_area sd))) as [pp ->]. simpl.
  eauto.
Qed.

(** The analysis always reaches its result record. *)
Lemma build_ok m : exists a, build m = Ok a.
Proof.
  unfold build.
  destruct (summarize_ok m (process_spaces m).1 (process_spaces m).2
              (find_unassigned m (process_spaces m).2)) as [s ->].
  simpl. eauto.
Qed.

Lemma build_fields m a :
  build m = Ok a ->
  spaces a = map (record_of m) (IfcSpace m)
  /\ element_space_map a = replay (writes m (IfcSpace m)) ∅
  /\ unassigned a = find_unassigned m (element_space_map a)
  /\ summarize m (spaces a) (element_space_map a) (unassigned a) = Ok (stats a).
Proof.
  unfold build. intros H.
  destruct (summarize m _ _ _) as [s|e] eqn:E; simpl in H; [|discriminate].
  inversion H; subst; simpl. clear H.
  rewrite process_spaces_closed in *. simpl in *. auto.
Qed.

End Builder.

Section BuilderClaims.

Import SpaceAnalysis Resolver.

(** When every write to a key carries the same value, one such write is
    enough to bind the key to it. *)
Lemma replay_const {V} (ws : list (string * V)) (d : gmap string V) g v :
  In (g, v) ws ->
  (forall w, In w ws -> w.1 = g -> w.2 = v) ->
  replay ws d !! g = Some v.
Proof.
  induction ws as [|w ws IH] using rev_ind; intros Hin Hall; [destruct Hin|].
  rewrite replay_app.
  change (<[w.1 := w.2]> (replay ws d) !! g = Some v).
  destruct (decide (w.1 = g)) as [Heq|Hne].
  - rewrite <- (Hall w) by (try apply in_or_app; auto using in_eq).
    rewrite <- Heq. apply lookup_insert_eq.
  - rewrite lookup_insert_ne by exact Hne.
    apply IH.
    + apply in_app_or in Hin as [Hin|[Hin|[]]]; [exact Hin|].
      subst w. now elim Hne.
    + intros w' Hw'. apply Hall. apply in_or_app. now left.
Qed.

(** C5: when an element is related in containment relations of two
    spaces, the analysis still completes, and the entry of the element's
    GlobalId in [element_space_map] is the assignment of the space that is
    processed later (here [s2], no space after it claiming the same
    GlobalId); the keys of the map are pairwise distinct. *)
Theorem later_space_wins (m : model) (pre mid post : list entity)
    (s1 s2 element : entity) :
  IfcSpace m = pre ++ s1 :: mid ++ s2 :: post ->
  (exists rel, In rel (IfcRelContainedInSpatialStructure m)
               /\ eid (RelContained.RelatingStructure rel) = eid s1
               /\ In element (RelContained.RelatedElements rel)) ->
  (exists rel, In rel (IfcRelContainedInSpatialStructure m)
               /\ eid (RelContained.RelatingStructure rel) = eid s2
               /\ In element (RelContained.RelatedElements rel)) ->
  (forall s rel el,
      In s post -> In rel (IfcRelContainedInSpatialStructure m) ->
      eid (RelContained.RelatingStructure rel) = eid s ->
      In el (RelContained.RelatedElements rel) ->
      GlobalId el <> GlobalId element) ->
  exists a,
    run m = Analysed a
    /\ element_space_map a !! GlobalId element
       = Some {| space_id := GlobalId s2;
                 space_name := attr_or (Name s2)
                                 ("Space_" ++ slice_to 8 (GlobalId s2));
                 space_type := attr_or (ObjectType s2) "Generic";
                 storey := find_storey s2 (IfcRelAggregates m) |}
    /\ NoDup (map fst (map_to_list (element_space_map a))).
Proof.
  intros Hsp _ H2 Hlater.
  apply in_contained_elements in H2.
  assert (Hpost : forall s el, In s post -> In el (contained_elements m s) ->
                    GlobalId el <> GlobalId element).
  { intros s el Hs Hel.
    apply in_contained_elements in Hel as (rel & Hrel & He & Hin).
    now apply (Hlater s rel el). }
  change (Some _) with (Some (assignment_of m s2)).
  destruct (build_ok m) as [a Ha]. exists a.
  unfold run. rewrite Ha. split; [reflexivity|].
  apply build_fields in Ha as (_ & -> & _).
  split; [|apply NoDup_fst_map_to_list].
  rewrite Hsp.
  replace (pre ++ s1 :: mid ++ s2 :: post)
    with ((pre ++ s1 :: mid) ++ [s2] ++ post)
    by (rewrite <- app_assoc; reflexivity).
  rewrite !writes_app, !replay_app.
  rewrite replay_untouched.
  - apply replay_const.
    + apply in_writes. exists s2, element. repeat split; auto. now left.
    + intros [g x] Hw _. apply in_writes in Hw as (sp & el & [<-|[]] & _ & _ & ->).
      reflexivity.
  - intros [g x] Hw. apply in_writes in Hw as (sp & el & Hs & Hel & -> & _).
    simpl. now apply (Hpost sp el).
Qed.

(** C5 on the sample model: wall 1 is claimed by Room A and by the blank
    space after it; the map holds the blank space's assignment. *)
Lemma later_space_wins_witness :
  exists a,
    run Sample.house = Analysed a
    /\ element_space_map a !! GlobalId Sample.wall_1
       = Some (assignment_of Sample.house Sample.blank)
    /\ NoDup (map fst (map_to_list (element_space_map a))).
Proof.
  apply (later_space_wins Sample.house [] [] [] Sample.room_a Sample.blank
           Sample.wall_1).
  - reflexivity.
  - exists {| RelContained.RelatingStructure := Sample.room_a;
              RelContained.RelatedElements := [Sample.wall_1] |}.
    simpl. auto.
  - exists {| RelContained.RelatingStructure := Sample.blank;
              RelContained.RelatedElements := [Sample.wall_1] |}.
    simpl. auto.
  - intros s rel el [].
Defined.

(** C8: the analysis of any model reaches its result record (neither
    division can fault); for a model without spaces the record has no
    spaces, an empty map, total area 0 and average height 0; and whenever
    the areas sum to zero both percentages are 0. *)
Theorem empty_model_statistics (m : model) :
  exists a,
    run m = Analysed a
    /\ (IfcSpace m = [] ->
        spaces a = []
        /\ element_space_map a = ∅
        /\ total_area (stats a) = 0%Q
        /\ average_height (stats a) = 0%Q)
    /\ ((sum (map si_area (spaces a)) == 0)%Q ->
        c_percentage (circulation (stats a)) = 0%Q
        /\ c_percentage (program (stats a)) = 0%Q).
Proof.
  destruct (build_ok m) as [a Ha]. exists a.
  unfold run. rewrite Ha. split; [reflexivity|].
  apply build_fields in Ha as (Hs & He & _ & Hst).
  split.
  - intros Hnil. rewrite Hnil in Hs, He. simpl in Hs, He.
    rewrite Hs, He in Hst. rewrite Hs, He.
    unfold summarize in Hst. simpl in Hst.
    inversion Hst as [Hst']. simpl. repeat split; reflexivity.
  - intros Hzero. unfold summarize in Hst.
    destruct (avg_height_ok (spaces a)) as [h Hh]. rewrite Hh in Hst.
    simpl in Hst.
    rewrite !(percentage_zero _ _ Hzero) in Hst. simpl in Hst.
    inversion Hst as [Hst']. simpl. split; reflexivity.
Qed.

(** C8 on the sample model without spaces. *)
Lemma empty_model_statistics_witness :
  exists a,
    run Sample.shell = Analysed a
    /\ spaces a = [] /\ element_space_map a = ∅
    /\ total_area (stats a) = 0%Q /\ average_height (stats a) = 0%Q
    /\ c_percentage (circulation (stats a)) = 0%Q
    /\ c_percentage (program (stats a)) = 0%Q.
Proof.
  destruct (empty_model_statistics Sample.shell) as (a & Hrun & Hnil & Hpct).
  exists a. split; [exact Hrun|].
  destruct (Hnil eq_refl) as (Hs & He & Ha & Hh).
  rewrite Hs in Hpct. destruct (Hpct (Qeq_refl 0)) as [Hc Hp].
  repeat split; assumption.
Defined.

Lemma find_unassigned_fold m esm l acc :
  fold_left (check_unassigned m esm) l acc
  = acc ++ map element_summary
             (List.filter
                (fun e => bool_decide (esm !! GlobalId e = None)
                          && negb (in_storey m e)) l).
Proof.
  revert acc. induction l as [|e l IH]; intros acc; simpl.
  - now rewrite app_nil_r.
  - rewrite IH. unfold check_unassigned.
    destruct (esm !! GlobalId e) eqn:E.
    + rewrite bool_decide_eq_false_2 by discriminate. reflexivity.
    + rewrite bool_decide_eq_true_2 by reflexivity. simpl.
      destruct (in_storey m e); simpl; [reflexivity|].
      now rewrite <- app_assoc.
Qed.

(** [in_storey] in terms of the relations. *)
Lemma in_storey_spec m e :
  in_storey m e = true <->
  exists rel x, In rel (IfcRelContainedInSpatialStructure m)
                /\ In x (RelContained.RelatedElements rel) /\ eid x = eid e.
Proof.
  unfold in_storey, entity_in, entity_eqb. rewrite existsb_exists. split.
  - intros [rel [Hrel H]]. apply existsb_exists in H as [x [Hx Heq]].
    apply Nat.eqb_eq in Heq. now exists rel, x.
  - intros (rel & x & Hrel & Hx & Heq). exists rel. split; [exact Hrel|].
    apply existsb_exists. exists x. split; [exact Hx|]. now apply Nat.eqb_eq.
Qed.

(** C9: every record of [unassigned] comes from an element whose GlobalId
    is not a key of [element_space_map] and that no containment relation
    relates; every such element is recorded; and an element that is missing
    from the map but is related by some containment relation is not
    recorded (GlobalIds identifying elements), so it is in neither
    collection. *)
Theorem unassigned_disjoint (m : model) (a : analysis) :
  run m = Analysed a ->
  let related (e : entity) :=
    exists rel x, In rel (IfcRelContainedInSpatialStructure m)
                  /\ In x (RelContained.RelatedElements rel) /\ eid x = eid e in
  (forall u, In u (unassigned a) ->
     element_space_map a !! el_id u = None
     /\ exists e, In e (IfcElement m) /\ u = element_summary e /\ ~ related e)
  /\ (forall e, In e (IfcElement m) ->
        element_space_map a !! GlobalId e = None -> ~ related e ->
        In (element_summary e) (unassigned a))
  /\ (forall e, In e (IfcElement m) ->
        element_space_map a !! GlobalId e = None -> related e ->
        (forall e', In e' (IfcElement m) -> GlobalId e' = GlobalId e ->
                    eid e' = eid e) ->
        forall u, In u (unassigned a) -> el_id u <> GlobalId e).
Proof.
  intros Hrun related. unfold run in Hrun.
  destruct (build m) as [a'|] eqn:Hb; [|discriminate].
  inversion Hrun; subst a'. clear Hrun.
  apply build_fields in Hb as (_ & _ & Hun & _).
  assert (Hmem : forall u, In u (unassigned a) <->
            exists e, In e (IfcElement m) /\ u = element_summary e
                      /\ element_space_map a !! GlobalId e = None
                      /\ in_storey m e = false).
  { intros u. rewrite Hun. unfold find_unassigned.
    rewrite find_unassigned_fold. simpl. rewrite in_map_iff. split.
    - intros (e & <- & He). apply filter_In in He as [He Hc].
      apply andb_true_iff in Hc as [Hc1 Hc2].
      apply bool_decide_eq_true_1 in Hc1. apply negb_true_iff in Hc2.
      now exists e.
    - intros (e & He & -> & Hc1 & Hc2). exists e. split; [reflexivity|].
      apply filter_In. split; [exact He|].
      rewrite bool_decide_eq_true_2, Hc2 by exact Hc1. reflexivity. }
  assert (Hrel : forall e, in_storey m e = false <-> ~ related e).
  { intros e. rewrite <- not_true_iff_false. now rewrite in_storey_spec. }
  split; [|split].
  - intros u Hu. apply Hmem in Hu as (e & He & -> & Hc1 & Hc2).
    split; [exact Hc1|]. exists e. repeat split; auto. now apply Hrel.
  - intros e He Hc1 Hc2. apply Hmem. exists e. repeat split; auto.
    now apply Hrel.
  - intros e He Hc1 Hc2 Huniq u Hu Hid.
    apply Hmem in Hu as (e' & He' & -> & _ & Hc2').
    apply Hrel in Hc2'. apply Hc2'.
    destruct Hc2 as (rel & x & ? & ? & Hx). exists rel, x.
    repeat split; auto. rewrite Hx. symmetry. now apply Huniq.
Qed.

(** C9 on the sample model: slab 1 alone is unassigned; door 1, which sits
    directly in the storey, is in neither collection. *)
Lemma unassigned_disjoint_witness :
  exists a,
    run Sample.house = Analysed a
    /\ unassigned a = [element_summary Sample.slab_1]
    /\ element_space_map a !! GlobalId Sample.door_1 = None
    /\ (forall u, In u (unassigned a) ->
          element_space_map a !! el_id u = None)
    /\ (forall u, In u (unassigned a) -> el_id u <> GlobalId Sample.door_1).
Proof.
  destruct (build_ok Sample.house) as [a Ha].
  assert (Hrun : run Sample.house = Analysed a) by (unfold run; now rewrite Ha).
  exists a. split; [exact Hrun|].
  destruct (unassigned_disjoint Sample.house a Hrun) as (H1 & _ & H3).
  apply build_fields in Ha as (_ & He & Hun & _).
  assert (Hdoor : element_space_map a !! GlobalId Sample.door_1 = None).
  { rewrite He. vm_compute. reflexivity. }
  split; [rewrite Hun, He; vm_compute; reflexivity|].
  split; [exact Hdoor|].
  split; [intros u Hu; apply (H1 u Hu)|].
  apply (H3 Sample.door_1).
  - simpl. right. left. reflexivity.
  - exact Hdoor.
  - exists {| RelContained.RelatingStructure := Sample.storey_L1;
              RelContained.RelatedElements := [Sample.door_1] |}, Sample.door_1.
    simpl. auto.
  - intros e' [<-|[<-|[<-|[]]]]; simpl; intros Hg;
      first [reflexivity | discriminate Hg].
Defined.

End BuilderClaims.

(** ** Insertion-ordered dictionaries *)

Section Dict.

Import Resolver.

Lemma assoc_dict_set_eq k v d : assoc k (dict_set k v d) = Some v.
Proof.
  induction d as [|[k' v'] d IH]; simpl.
  - now rewrite String.eqb_refl.
  - destruct (String.eqb k' k) eqn:E; simpl.
    + now rewrite String.eqb_refl.
    + now rewrite E.
Qed.

Lemma assoc_dict_set_ne k k' v d :
  k <> k' -> assoc k' (dict_set k v d) = assoc k' d.
Proof.
  intros Hne. apply String.eqb_neq in Hne.
  induction d as [|[k0 v0] d IH]; simpl.
  - now rewrite Hne.
  - destruct (String.eqb k0 k) eqn:E; simpl.
    + rewrite Hne. apply String.eqb_eq in E. subst k0. now rewrite Hne.
    + now rewrite IH.
Qed.

(** Assigning to a fresh key appends the binding. *)
Lemma dict_set_fresh k v d : assoc k d = None -> dict_set k v d = d ++ [(k, v)].
Proof.
  induction d as [|[k' v'] d IH]; simpl; [reflexivity|].
  destruct (String.eqb k' k); [discriminate|].
  intros H. now rewrite IH.
Qed.

Lemma dict_set_keys k v d :
  forall x, In x (map fst (dict_set k v d)) <-> x = k \/ In x (map fst d).
Proof.
  induction d as [|[k' v'] d IH]; intros x; simpl.
  - split; [intros [<-|[]]; now left | intros [->|[]]; now left].
  - destruct (String.eqb k' k) eqn:E; simpl.
    + apply String.eqb_eq in E. subst k'. intuition (subst; auto).
    + rewrite IH. intuition (subst; auto).
Qed.

(** Assignment keeps the keys of a dictionary distinct. *)
Lemma dict_set_wf k v d : wf_dict d -> wf_dict (dict_set k v d).
Proof.
  unfold wf_dict. induction d as [|[k' v'] d IH]; simpl; intros Hd.
  - apply NoDup_singleton.
  - apply NoDup_cons in Hd as [Hnin Hd'].
    destruct (String.eqb k' k) eqn:E; simpl.
    + apply String.eqb_eq in E. subst k'. now apply NoDup_cons.
    + apply NoDup_cons. split; [|now apply IH].
      rewrite list_elem_of_In, dict_set_keys. intros [->|Hin].
      * now rewrite String.eqb_refl in E.
      * apply Hnin. now apply list_elem_of_In.
Qed.

Lemma dict_replay_app a b d : dict_replay (a ++ b) d = dict_replay b (dict_replay a d).
Proof. unfold dict_replay. apply fold_left_app. Qed.

Lemma dict_replay_untouched ws d g :
  (forall w, In w ws -> w.1 <> g) -> assoc g (dict_replay ws d) = assoc g d.
Proof.
  revert d. induction ws as [|w ws IH]; intros d Hws; [reflexivity|].
  change (assoc g (dict_replay ws (dict_set w.1 w.2 d)) = assoc g d).
  rewrite IH by (intros w' Hw'; apply Hws; now right).
  apply assoc_dict_set_ne. apply Hws. now left.
Qed.

Lemma dict_replay_const ws d g v :
  In (g, v) ws ->
  (forall w, In w ws -> w.1 = g -> w.2 = v) ->
  assoc g (dict_replay ws d) = Some v.
Proof.
  induction ws as [|w ws IH] using rev_ind; intros Hin Hall; [destruct Hin|].
  rewrite dict_replay_app.
  change (assoc g (dict_set w.1 w.2 (dict_replay ws d)) = Some v).
  destruct (decide (w.1 = g)) as [Heq|Hne].
  - rewrite <- (Hall w) by (try apply in_or_app; auto using in_eq).
    rewrite <- Heq. apply assoc_dict_set_eq.
  - rewrite assoc_dict_set_ne by exact Hne.
    apply IH.
    + apply in_app_or in Hin as [Hin|[Hin|[]]]; [exact Hin|].
      subst w. now elim Hne.
    + intros w' Hw'. apply Hall. apply in_or_app. now left.
Qed.

Lemma entries_app m a b : entries m (a ++ b) = entries m a ++ entries m b.
Proof. unfold entries. apply flat_map_app. Qed.

Lemma in_entries m l g v :
  In (g, v) (entries m l) <->
  exists space element,
    In space l /\ In element (contained_elements m space)
    /\ g = GlobalId element /\ v = entry_of m space.
Proof.
  unfold entries. rewrite in_flat_map. split.
  - intros [space [Hs Hin]]. apply in_map_iff in Hin as [el [Heq Hel]].
    inversion Heq; subst. now exists space, el.
  - intros [space [el [Hs [Hel [-> ->]]]]]. exists space. split; [exact Hs|].
    apply in_map_iff. now exists el.
Qed.

Lemma assign_elements_fold m space els acc :
  fold_left
    (AddRoomInfo.assign_element space
       (attr_or (Name space) ("Space_" ++ slice_to 8 (GlobalId space)))
       (attr_or (ObjectType space) "Generic")
       (SpaceAnalysis.find_storey space (IfcRelAggregates m))) els acc
  = dict_replay (map (fun el => (GlobalId el, entry_of m space)) els) acc.
Proof.
  revert acc. induction els as [|el els IH]; intros acc; [reflexivity|].
  simpl. rewrite IH. reflexivity.
Qed.

Lemma assign_space_closed m acc space :
  AddRoomInfo.assign_space m acc space
  = dict_replay (map (fun el => (GlobalId el, entry_of m space))
                   (contained_elements m space)) acc.
Proof.
  unfold AddRoomInfo.assign_space, contained_elements.
  revert acc.
  induction (IfcRelContainedInSpatialStructure m) as [|rel rels IH];
    intros acc; [reflexivity|].
  simpl. rewrite IH.
  destruct (entity_eqb _ space).
  - rewrite assign_elements_fold, map_app, dict_replay_app. reflexivity.
  - reflexivity.
Qed.

(** The own analysis replays every write on the empty dictionary. *)
Lemma own_analysis_closed m :
  AddRoomInfo.own_analysis m = PyDict (dict_replay (entries m (IfcSpace m)) []).
Proof.
  unfold AddRoomInfo.own_analysis. f_equal.
  generalize (@nil (string * val)).
  induction (IfcSpace m) as [|space l IH]; intros acc; [reflexivity|].
  simpl. rewrite assign_space_closed, IH.
  unfold entries at 2. simpl. fold (entries m l).
  now rewrite dict_replay_app.
Qed.

End Dict.

Section Fallbacks.

Import SpaceAnalysis Resolver.

(** C10: the fallbacks fire on an empty attribute as well as on a missing
    one.  In the analysis, the record of a space whose name is the empty
    string is named "Space_" followed by the first 8 characters of its
    GlobalId, and the record of a space whose object type is the empty
    string has type "Generic"; the own analysis of add-room-info writes
    the same name and type for the elements of such a space. *)
Theorem falsy_fallbacks (m : model) (pre post : list entity) (space : entity) :
  IfcSpace m = pre ++ space :: post ->
  exists a r,
    run m = Analysed a
    /\ nth_error (spaces a) (List.length pre) = Some r
    /\ si_id r = GlobalId space
    /\ (Name space = Some "" ->
        si_name r = ("Space_" ++ slice_to 8 (GlobalId space))%string)
    /\ (ObjectType space = Some "" -> si_type r = "Generic")
    /\ (forall element,
          In element (contained_elements m space) ->
          (forall s el, In s post -> In el (contained_elements m s) ->
                        GlobalId el <> GlobalId element) ->
          exists table entry,
            AddRoomInfo.own_analysis m = PyDict table
            /\ assoc (GlobalId element) table = Some entry
            /\ (Name space = Some "" ->
                get entry "spaceName" (PyStr "")
                = Ok (PyStr ("Space_" ++ slice_to 8 (GlobalId space))%string))
            /\ (ObjectType space = Some "" ->
                get entry "spaceType" (PyStr "") = Ok (PyStr "Generic"))).
Proof.
  intros Hsp.
  destruct (build_ok m) as [a Ha]. exists a, (record_of m space).
  unfold run. rewrite Ha. split; [reflexivity|].
  apply build_fields in Ha as (Hs & _).
  split; [|split; [reflexivity|split; [|split]]].
  - rewrite Hs, Hsp, map_app.
    rewrite nth_error_app2 by (rewrite length_map; lia).
    rewrite length_map, Nat.sub_diag. reflexivity.
  - intros Hn. simpl. now rewrite Hn.
  - intros Ht. simpl. now rewrite Ht.
  - intros element Hel Hpost.
    exists (dict_replay (entries m (IfcSpace m)) []), (entry_of m space).
    split; [apply own_analysis_closed|].
    split.
    + rewrite Hsp.
      replace (pre ++ space :: post) with (pre ++ [space] ++ post) by reflexivity.
      rewrite !entries_app, !dict_replay_app.
      rewrite dict_replay_untouched.
      * apply dict_replay_const.
        -- apply in_entries. exists space, element. repeat split; auto. now left.
        -- intros [g x] Hw _.
           apply in_entries in Hw as (sp & el & [<-|[]] & _ & _ & ->).
           reflexivity.
      * intros [g x] Hw. apply in_entries in Hw as (sp & el & Hs' & Hel' & -> & _).
        simpl. now apply (Hpost sp el).
    + split; [intros Hn | intros Ht]; unfold entry_of; simpl.
      * now rewrite Hn.
      * now rewrite Ht.
Qed.

(** C10 on the sample model: the blank space, second in the enumeration,
    has an empty name and an empty object type. *)
Lemma falsy_fallbacks_witness :
  exists a r,
    run Sample.house = Analysed a
    /\ nth_error (spaces a) 1 = Some r
    /\ si_name r = "Space_2O2Fr$t4"
    /\ si_type r = "Generic".
Proof.
  destruct (falsy_fallbacks Sample.house [Sample.room_a] [] Sample.blank eq_refl)
    as (a & r & Hrun & Hnth & _ & Hn & Ht & _).
  exists a, r. split; [exact Hrun|]. split; [exact Hnth|].
  split; [exact (Hn eq_refl) | exact (Ht eq_refl)].
Defined.

End Fallbacks.

(** ** Strings *)

Section Strings.

Local Open Scope string_scope.

Lemma prefix_spec (kw s : string) :
  String.prefix kw s = true <-> exists post, s = kw ++ post.
Proof.
  revert s. induction kw as [|a kw IH]; intros s.
  - split; [intros _; now exists s|]. now destruct s.
  - destruct s as [|b s]; simpl.
    + split; [discriminate|]. intros [post H]. discriminate H.
    + destruct (Ascii.ascii_dec a b) as [->|Hne].
      * rewrite IH. split; intros [post H]; exists post.
        -- now rewrite H.
        -- now inversion H.
      * split; [discriminate|]. intros [post H]. inversion H. congruence.
Qed.

Lemma contains_unfold (kw s : string) :
  contains kw s
  = if String.prefix kw s then true
    else match s with
         | EmptyString => false
         | String _ rest => contains kw rest
         end.
Proof. destruct s; reflexivity. Qed.

(** [contains] is the substring test. *)
Lemma contains_spec (kw s : string) :
  contains kw s = true <-> exists pre post, s = pre ++ kw ++ post.
Proof.
  induction s as [|c s IH].
  - rewrite contains_unfold. destruct (String.prefix kw "") eqn:E.
    + apply prefix_spec in E as [post H]. split; [|reflexivity].
      intros _. now exists "", post.
    + split; [discriminate|]. intros (pre & post & H).
      destruct pre; [|discriminate H].
      assert (String.prefix kw "" = true) by (apply prefix_spec; now exists post).
      congruence.
  - rewrite contains_unfold. destruct (String.prefix kw (String c s)) eqn:E.
    + apply prefix_spec in E as [post H]. split; [|reflexivity].
      intros _. now exists "", post.
    + rewrite IH. split.
      * intros (pre & post & ->). now exists (String c pre), post.
      * intros (pre & post & H). destruct pre as [|c' pre].
        -- assert (String.prefix kw (String c s) = true)
             by (apply prefix_spec; now exists post).
           congruence.
        -- inversion H. now exists pre, post.
Qed.

Lemma lower_app (a b : string) : lower (a ++ b) = lower a ++ lower b.
Proof. induction a as [|c a IH]; simpl; [reflexivity|now rewrite IH]. Qed.

Lemma lower_split (s a b : string) :
  lower s = a ++ b -> exists a' b', s = a' ++ b' /\ lower a' = a /\ lower b' = b.
Proof.
  revert s. induction a as [|c a IH]; intros s H.
  - now exists "", s.
  - destruct s as [|c' s]; [discriminate H|].
    simpl in H. inversion H as [[Hc Hs]].
    destruct (IH s Hs) as (a' & b' & -> & Ha & Hb).
    exists (String c' a'), b'. simpl. now rewrite Ha.
Qed.

(** A keyword occurs in the lowered text exactly when some stretch of the
    text lowers to the keyword. *)
Lemma contains_lower_spec (kw s : string) :
  contains kw (lower s) = true <->
  exists pre mid post, s = pre ++ mid ++ post /\ lower mid = kw.
Proof.
  rewrite contains_spec. split.
  - intros (p & q & H).
    apply lower_split in H as (pre & rest & -> & _ & Hrest).
    apply lower_split in Hrest as (mid & post & -> & Hmid & _).
    now exists pre, mid, post.
  - intros (pre & mid & post & -> & <-).
    exists (lower pre), (lower post). now rewrite !lower_app.
Qed.

Lemma str_or_empty (s : string) : str_or s "" = s.
Proof.
  unfold str_or. destruct (String.eqb s "") eqn:E; [|reflexivity].
  apply String.eqb_eq in E. now subst.
Qed.

End Strings.

(** ** Statistics and classification *)

Section Statistics.

Import SpaceAnalysis.

Lemma classify_fold (l : list space_info) (c p : list space_info) :
  fold_left classify l (c, p)
  = (c ++ List.filter is_circulation l,
     p ++ List.filter (fun s => negb (is_circulation s)) l).
Proof.
  revert c p. induction l as [|s l IH]; intros c p; simpl.
  - now rewrite !app_nil_r.
  - unfold classify at 2. simpl.
    destruct (is_circulation s); simpl; rewrite IH, <- app_assoc; reflexivity.
Qed.

(** The classification loop splits the list by [is_circulation], keeping
    the order within each part. *)
Lemma classify_all_closed (l : list space_info) :
  classify_all l
  = (List.filter is_circulation l,
     List.filter (fun s => negb (is_circulation s)) l).
Proof. unfold classify_all. now rewrite classify_fold. Qed.

Lemma filter_split_perm {A} (p : A -> bool) (l : list A) :
  Permutation l (List.filter p l ++ List.filter (fun x => negb (p x)) l).
Proof.
  induction l as [|x l IH]; simpl; [constructor|].
  destruct (p x); simpl.
  - now constructor.
  - now apply Permutation_cons_app.
Qed.

(** The keyword test of lines 163-167 in logical form. *)
Lemma is_circulation_spec (s : space_info) :
  is_circulation s = true <->
  exists kw, In kw circulation_keywords
    /\ ((exists pre mid post,
           si_name s = (pre ++ mid ++ post)%string /\ lower mid = kw)
        \/ (exists pre mid post,
              si_type s = (pre ++ mid ++ post)%string /\ lower mid = kw)).
Proof.
  unfold is_circulation. rewrite existsb_exists.
  split; intros [kw [Hkw H]]; exists kw; (split; [exact Hkw|]).
  - apply orb_true_iff in H. rewrite !str_or_empty in H.
    now rewrite <- !contains_lower_spec.
  - apply orb_true_iff. rewrite !str_or_empty.
    now rewrite !contains_lower_spec.
Qed.

End Statistics.

Section Classification.

Import SpaceAnalysis.

(** X27: the classification loop puts every space record in exactly one of
    the two lists: the records are the circulation ones followed by the
    program ones up to order, a record is circulation exactly when a
    stretch of its name or of its type lowers to one of the six keywords,
    and it is program otherwise; the two counts of the summary add up to
    the number of records.  Nothing is said of the two areas: they are
    sums of binary floating-point numbers in the script. *)
Theorem classification_partition (space_data : list space_info) :
  let circ := (classify_all space_data).1 in
  let prog := (classify_all space_data).2 in
  Permutation space_data (circ ++ prog)
  /\ (forall s, In s circ -> is_circulation s = true)
  /\ (forall s, In s prog -> is_circulation s = false)
  /\ (forall s,
        is_circulation s = true <->
        exists kw,
          In kw ["corridor"; "hallway"; "lobby"; "stair"; "elevator";
                 "circulation"]
          /\ ((exists pre mid post,
                 si_name s = (pre ++ mid ++ post)%string /\ lower mid = kw)
              \/ (exists pre mid post,
                    si_type s = (pre ++ mid ++ post)%string /\ lower mid = kw)))
  /\ (forall m esm un s,
        summarize m space_data esm un = Ok s ->
        c_count (circulation s) = List.length circ
        /\ c_count (program s) = List.length prog
        /\ (c_count (circulation s) + c_count (program s)
            = List.length space_data)%nat).
Proof.
  intros circ prog. subst circ prog.
  rewrite classify_all_closed. simpl.
  split; [apply filter_split_perm|].
  split; [intros s Hs; apply filter_In in Hs as [_ Hs]; exact Hs|].
  split; [intros s Hs; apply filter_In in Hs as [_ Hs];
          now apply negb_true_iff in Hs|].
  split; [exact is_circulation_spec|].
  intros m esm un s Hs. unfold summarize in Hs.
  destruct (avg_height_ok space_data) as [h Hh]. rewrite Hh in Hs. simpl in Hs.
  destruct (percentage_ok (sum (map si_area (classify_all space_data).1))
              (sum (map si_area space_data))) as [pc Hpc].
  rewrite Hpc in Hs. simpl in Hs.
  destruct (percentage_ok (sum (map si_area (classify_all space_data).2))
              (sum (map si_area space_data))) as [pp Hpp].
  rewrite Hpp in Hs. simpl in Hs.
  inversion Hs; subst s; simpl. clear Hs.
  rewrite classify_all_closed. simpl.
  split; [reflexivity|]. split; [reflexivity|].
  rewrite <- length_app.
  symmetry. apply Permutation_length, filter_split_perm.
Qed.

(** On two records: "Main Corridor" is circulation, "Office 1" is
    program. *)
Lemma classification_partition_witness :
  classify_all [Sample.office; Sample.corridor]
  = ([Sample.corridor], [Sample.office])
  /\ Permutation [Sample.office; Sample.corridor]
       ([Sample.corridor] ++ [Sample.office])
  /\ SpaceAnalysis.is_circulation Sample.corridor = true
  /\ SpaceAnalysis.is_circulation Sample.office = false.
Proof.
  destruct (classification_partition [Sample.office; Sample.corridor])
    as (Hperm & Hc & Hp & _).
  split; [reflexivity|]. split; [exact Hperm|].
  split; [apply Hc | apply Hp]; simpl; auto.
Defined.

End Classification.

(** ** Mapping transformer *)

Section TransformLoop.

Import Transform Resolver.

Variable walls : gset string.

Lemma get_name_of (v : val) :
  is_dict v = true -> get v "spaceName" (PyStr "") = Ok (name_of v).
Proof. destruct v; try discriminate. reflexivity. Qed.

(** One turn of the loop on an entry whose value is a dictionary when its
    key is a wall. *)
Lemma step_cases (st : state) (item : string * val) :
  (item.1 ∈ walls -> is_dict item.2 = true) ->
  step walls st item
  = Ok (if included walls item
        then {| wall_mappings := <[item.1 := name_of item.2]> (wall_mappings st);
                walls_found := S (walls_found st);
                other_elements_skipped := other_elements_skipped st |}
        else if other walls item
        then {| wall_mappings := wall_mappings st;
                walls_found := walls_found st;
                other_elements_skipped := S (other_elements_skipped st) |}
        else st).
Proof.
  intros Hd. unfold step, included, other.
  destruct (bool_decide (item.1 ∈ walls)) eqn:E; simpl; [|reflexivity].
  apply bool_decide_eq_true_1 in E.
  rewrite (get_name_of _ (Hd E)). simpl.
  now destruct (valid_name (name_of item.2)).
Qed.

(** The loop over the items: the counters count, the mapping replays the
    included entries. *)
Lemma loop_closed (its : list (string * val)) (st : state) :
  (forall it, In it its -> it.1 ∈ walls -> is_dict it.2 = true) ->
  foldM (step walls) its st
  = Ok {| wall_mappings :=
            replay (map (fun it => (it.1, name_of it.2))
                      (List.filter (included walls) its)) (wall_mappings st);
          walls_found :=
            walls_found st + List.length (List.filter (included walls) its);
          other_elements_skipped :=
            other_elements_skipped st
            + List.length (List.filter (other walls) its) |}.
Proof.
  revert st. induction its as [|it its IH]; intros st Hd.
  - simpl. rewrite !Nat.add_0_r. now destruct st.
  - cbn [foldM List.filter]. rewrite step_cases by (apply Hd; now left).
    cbn [mbind res_bind].
    rewrite IH by (intros it' Hit'; apply Hd; now right).
    destruct (included walls it) eqn:Ei; destruct (other walls it) eqn:Eo;
      cbn [wall_mappings walls_found other_elements_skipped map List.length
           fst snd];
      try (unfold included, other in Ei, Eo;
           destruct (bool_decide (it.1 ∈ walls)); simpl in Ei, Eo; discriminate);
      f_equal; f_equal; lia.
Qed.

(** Every entry is included, other or nameless, and only one of them. *)
Lemma three_way (its : list (string * val)) :
  List.length (List.filter (included walls) its)
  + List.length (List.filter (other walls) its)
  + List.length (List.filter (nameless walls) its)
  = List.length its.
Proof.
  induction its as [|it its IH]; simpl; [reflexivity|].
  unfold included at 1, other at 1, nameless at 1.
  destruct (bool_decide (it.1 ∈ walls)); simpl;
    [destruct (valid_name (name_of it.2)); simpl|]; lia.
Qed.

End TransformLoop.

Section TransformClaims.

Import Transform Resolver.

(** The wall set holds exactly the GlobalIds of the walls of the model. *)
Lemma wall_global_ids_spec (m : model) (g : string) :
  g ∈ wall_global_ids (Some m) <->
  exists wall, In wall (IfcWall m) /\ GlobalId wall = g.
Proof.
  unfold wall_global_ids.
  assert (H : forall l (acc : gset string),
             g ∈ fold_left (fun ids wall => {[GlobalId wall]} ∪ ids) l acc <->
             g ∈ acc \/ exists wall, In wall l /\ GlobalId wall = g).
  { induction l as [|w l IH]; intros acc; simpl.
    - split; [now left|]. intros [H|[w [[] _]]]. exact H.
    - rewrite IH, elem_of_union, elem_of_singleton. split.
      + intros [[->|H]|[w' [Hw' Hg]]].
        * right. exists w. auto.
        * now left.
        * right. exists w'. auto.
      + intros [H|[w' [[<-|Hw'] Hg]]].
        * left. now right.
        * left. now left.
        * right. now exists w'. }
  rewrite H. split; [intros [Hg|Hg]; [|exact Hg] | now right].
  now apply not_elem_of_empty in Hg.
Qed.

(** Replaying writes with distinct fresh keys adds one binding each. *)
Lemma replay_size {V} (ws : list (string * V)) (d : gmap string V) :
  NoDup (map fst ws) ->
  (forall w, In w ws -> d !! w.1 = None) ->
  size (replay ws d) = size d + List.length ws.
Proof.
  revert d. induction ws as [|w ws IH]; intros d Hnd Hfresh; simpl.
  - lia.
  - apply NoDup_cons in Hnd as [Hnin Hnd].
    change (size (replay ws (<[w.1 := w.2]> d)) = size d + S (List.length ws)).
    rewrite IH.
    + rewrite map_size_insert_None by (apply Hfresh; now left). lia.
    + exact Hnd.
    + intros w' Hw'. rewrite lookup_insert_ne; [apply Hfresh; now right|].
      intros Heq. apply Hnin. rewrite Heq.
      apply list_elem_of_In, in_map. exact Hw'.
Qed.

Lemma filter_keys_nodup (p : string * val -> bool) (d : list (string * val)) :
  wf_dict d ->
  NoDup (map fst (map (fun it => (it.1, name_of it.2)) (List.filter p d))).
Proof.
  unfold wf_dict. rewrite map_map. simpl.
  induction d as [|it d IH]; simpl; intros Hd; [constructor|].
  apply NoDup_cons in Hd as [Hnin Hd].
  destruct (p it); simpl; [|now apply IH].
  apply NoDup_cons. split; [|now apply IH].
  intros Hin. apply Hnin.
  apply list_elem_of_In in Hin. apply list_elem_of_In.
  apply in_map_iff in Hin as [it' [Heq Hit']].
  apply filter_In in Hit' as [Hit' _].
  rewrite <- Heq. now apply in_map.
Qed.

(** A recognised input whose wall entries are dictionaries: the result of
    the script in closed form. *)
Lemma transform_closed (top esm : list (string * val)) (ifc : option model) :
  assoc "elementSpaceMap" top = Some (PyDict esm) ->
  (forall it, In it esm -> it.1 ∈ wall_global_ids ifc -> is_dict it.2 = true) ->
  transform (PyDict top) ifc
  = Ok (report
          {| wall_mappings :=
               replay (map (fun it => (it.1, name_of it.2))
                         (List.filter (included (wall_global_ids ifc)) esm)) ∅;
             walls_found :=
               List.length (List.filter (included (wall_global_ids ifc)) esm);
             other_elements_skipped :=
               List.length (List.filter (other (wall_global_ids ifc)) esm) |}).
Proof.
  intros Hkey Hd. unfold transform, recognised.
  assert (Htruthy : truthy (PyDict top) = true)
    by (destruct top; [discriminate Hkey|reflexivity]).
  rewrite Htruthy. simpl.
  rewrite Hkey. rewrite bool_decide_eq_true_2 by eauto. simpl.
  rewrite (loop_closed _ _ _ Hd). reflexivity.
Qed.

(** A valid room name that is a string is non-empty and not "None". *)
Lemma valid_name_str (s : string) :
  valid_name (PyStr s) = true <-> s <> "" /\ s <> "None".
Proof.
  unfold valid_name. simpl.
  rewrite andb_true_iff, !negb_true_iff, !String.eqb_neq. reflexivity.
Qed.

End TransformClaims.

Section ToWallsLoop.

Import Resolver.

Variable lookup : gmap string (string * string).

Lemma to_walls_step_cases (st : Transform.state) (item : string * val) :
  (forall info, lookup !! item.1 = Some info -> info.2 = "IfcWall" ->
                is_dict item.2 = true) ->
  ToWalls.step lookup st item
  = Ok (if w_included lookup item
        then {| Transform.wall_mappings :=
                  <[w_key lookup item := name_of item.2]>
                    (Transform.wall_mappings st);
                Transform.walls_found := S (Transform.walls_found st);
                Transform.other_elements_skipped :=
                  Transform.other_elements_skipped st |}
        else if w_other lookup item
        then {| Transform.wall_mappings := Transform.wall_mappings st;
                Transform.walls_found := Transform.walls_found st;
                Transform.other_elements_skipped :=
                  S (Transform.other_elements_skipped st) |}
        else st).
Proof.
  intros Hd. unfold ToWalls.step, w_included, w_other, w_key.
  destruct (lookup !! item.1) as [info|]; [|reflexivity].
  destruct (String.eqb info.2 "IfcWall") eqn:E; simpl; [|reflexivity].
  apply String.eqb_eq in E.
  rewrite (get_name_of _ (Hd info eq_refl E)). simpl.
  now destruct (Transform.valid_name (name_of item.2)).
Qed.

Lemma to_walls_loop_closed (its : list (string * val)) (st : Transform.state) :
  (forall it, In it its ->
     forall info, lookup !! it.1 = Some info -> info.2 = "IfcWall" ->
                  is_dict it.2 = true) ->
  foldM (ToWalls.step lookup) its st
  = Ok {| Transform.wall_mappings :=
            replay (map (fun it => (w_key lookup it, name_of it.2))
                      (List.filter (w_included lookup) its))
              (Transform.wall_mappings st);
          Transform.walls_found :=
            Transform.walls_found st
            + List.length (List.filter (w_included lookup) its);
          Transform.other_elements_skipped :=
            Transform.other_elements_skipped st
            + List.length (List.filter (w_other lookup) its) |}.
Proof.
  revert st. induction its as [|it its IH]; intros st Hd.
  - simpl. rewrite !Nat.add_0_r. now destruct st.
  - cbn [foldM List.filter]. rewrite to_walls_step_cases by (apply Hd; now left).
    cbn [mbind res_bind].
    rewrite IH by (intros it' Hit'; apply Hd; now right).
    destruct (w_included lookup it) eqn:Ei; destruct (w_other lookup it) eqn:Eo;
      cbn [Transform.wall_mappings Transform.walls_found
           Transform.other_elements_skipped map List.length fst snd];
      try (unfold w_included, w_other in Ei, Eo;
           destruct (lookup !! it.1) as [info|]; [|discriminate];
           destruct (String.eqb info.2 "IfcWall"); simpl in Ei, Eo; discriminate);
      f_equal; f_equal; lia.
Qed.

Lemma to_walls_four_way (its : list (string * val)) :
  List.length (List.filter (w_included lookup) its)
  + List.length (List.filter (w_other lookup) its)
  + List.length (List.filter (w_nameless lookup) its)
  + List.length (List.filter (w_unknown lookup) its)
  = List.length its.
Proof.
  induction its as [|it its IH]; simpl; [reflexivity|].
  unfold w_included at 1, w_other at 1, w_nameless at 1, w_unknown at 1.
  destruct (lookup !! it.1) as [info|]; simpl; [|lia].
  destruct (String.eqb info.2 "IfcWall"); simpl;
    [destruct (Transform.valid_name (name_of it.2)); simpl|]; lia.
Qed.

End ToWallsLoop.

Section ToWallsClosed.

Import Resolver.

(** A recognised input whose wall entries are dictionaries: the output of
    [ToWalls] in closed form. *)
Lemma to_walls_closed (ins : ToWalls.inputs) (top esm : list (string * val)) :
  ToWalls.input ins = Some (PyDict top) ->
  assoc "elementSpaceMap" top = Some (PyDict esm) ->
  let lookup := ToWalls.element_lookup (ToWalls.elements ins) in
  (forall it, In it esm ->
     forall info, lookup !! it.1 = Some info -> info.2 = "IfcWall" ->
                  is_dict it.2 = true) ->
  ToWalls.transform ins
  = Ok (ToWalls.Mapped (Transform.report
          {| Transform.wall_mappings :=
               replay (map (fun it => (w_key lookup it, name_of it.2))
                         (List.filter (w_included lookup) esm)) ∅;
             Transform.walls_found :=
               List.length (List.filter (w_included lookup) esm);
             Transform.other_elements_skipped :=
               List.length (List.filter (w_other lookup) esm) |})).
Proof.
  intros Hin Hkey lookup Hd. unfold ToWalls.transform.
  rewrite Hin. simpl. rewrite Hkey.
  rewrite bool_decide_eq_true_2 by eauto. simpl.
  rewrite (to_walls_loop_closed _ _ _ Hd). reflexivity.
Qed.

End ToWallsClosed.

Section Counters.

Import Resolver.

Lemma replay_keeps {V} (ws : list (string * V)) (d : gmap string V) g :
  is_Some (d !! g) -> is_Some (replay ws d !! g).
Proof.
  revert d. induction ws as [|w ws IH]; intros d Hd; [exact Hd|].
  change (is_Some (replay ws (<[w.1 := w.2]> d) !! g)). apply IH.
  destruct (decide (w.1 = g)) as [<-|Hne].
  - rewrite lookup_insert_eq. eauto.
  - now rewrite lookup_insert_ne.
Qed.

Lemma replay_written {V} (ws : list (string * V)) (d : gmap string V) w :
  In w ws -> is_Some (replay ws d !! w.1).
Proof.
  revert d. induction ws as [|a ws IH]; intros d Hin; [destruct Hin|].
  change (is_Some (replay ws (<[a.1 := a.2]> d) !! w.1)).
  destruct Hin as [->|Hin]; [|now apply IH].
  apply replay_keeps. rewrite lookup_insert_eq. eauto.
Qed.

(** C3, as the code has it: [wallsFound] counts exactly the entries written
    to the output mapping (a wall with a valid room name);
    [otherElementsSkipped] counts exactly the entries whose element is not
    a wall; a wall entry whose room name is empty or "None" is left out of
    the mapping and counted by neither, so the two counters add up to the
    number of entries less those.  The lookup variant [ToWalls] counts the
    same way and also counts by neither an entry whose key its lookup does
    not know. *)
Theorem counters_account (top esm : list (string * val))
    (ifc : option model) (ins : ToWalls.inputs) :
  assoc "elementSpaceMap" top = Some (PyDict esm) ->
  wf_dict esm ->
  (forall it, In it esm -> is_dict it.2 = true) ->
  ToWalls.input ins = Some (PyDict top) ->
  let walls := Transform.wall_global_ids ifc in
  let lookup := ToWalls.element_lookup (ToWalls.elements ins) in
  (exists r c,
      Transform.transform (PyDict top) ifc = Ok r
      /\ Transform.meta r = Transform.Counted c
      /\ (forall g, is_Some (Transform.mappings r !! g) <->
                    exists v, In (g, v) esm /\ g ∈ walls
                              /\ Transform.valid_name (name_of v) = true)
      /\ Transform.wallsFound c = size (Transform.mappings r)
      /\ Transform.wallsFound c = List.length (List.filter (included walls) esm)
      /\ Transform.otherElementsSkipped c
         = List.length (List.filter (fun it => negb (bool_decide (it.1 ∈ walls))) esm)
      /\ Transform.wallsFound c + Transform.otherElementsSkipped c
         + List.length (List.filter (nameless walls) esm)
         = List.length esm)
  /\ (exists r c,
        ToWalls.transform ins = Ok (ToWalls.Mapped r)
        /\ Transform.meta r = Transform.Counted c
        /\ Transform.wallsFound c
           = List.length (List.filter (w_included lookup) esm)
        /\ Transform.otherElementsSkipped c
           = List.length (List.filter (w_other lookup) esm)
        /\ Transform.wallsFound c + Transform.otherElementsSkipped c
           + List.length (List.filter (w_nameless lookup) esm)
           + List.length (List.filter (w_unknown lookup) esm)
           = List.length esm).
Proof.
  intros Hkey Hwf Hd Hin walls lookup. split.
  - eexists. eexists.
    split; [apply transform_closed; [exact Hkey|auto]|].
    split; [reflexivity|]. fold walls. simpl.
    split; [|split; [|split; [reflexivity|split; [reflexivity|]]]].
    + intros g. split.
      * intros [v Hv]. apply replay_bound in Hv as [Hv|Hv];
          [now rewrite lookup_empty in Hv|].
        apply in_map_iff in Hv as ([g' v'] & Heq & Hit).
        apply filter_In in Hit as [Hit Hinc]. inversion Heq; subst.
        unfold included in Hinc. apply andb_true_iff in Hinc as [Hw Hn].
        apply bool_decide_eq_true_1 in Hw. now exists v'.
      * intros (v & Hit & Hw & Hn).
        apply (replay_written _ ∅ (g, name_of v)).
        apply in_map_iff. exists (g, v). split; [reflexivity|].
        apply filter_In. split; [exact Hit|].
        unfold included. simpl. rewrite Hn.
        now rewrite bool_decide_eq_true_2.
    + rewrite replay_size.
      * rewrite map_size_empty, length_map. reflexivity.
      * now apply filter_keys_nodup.
      * intros w _. apply lookup_empty.
    + apply three_way.
  - eexists. eexists.
    split; [apply (to_walls_closed ins top esm);
            [exact Hin | exact Hkey | intros it Hit ? ? ?; now apply Hd]|].
    split; [reflexivity|]. fold lookup. simpl.
    split; [reflexivity|split; [reflexivity|]].
    apply to_walls_four_way.
Qed.

(** C3 on the table whose only wall has an empty room name: nothing is
    written, nothing is counted. *)
Lemma counters_account_witness :
  exists r c,
    Transform.transform (PyDict [("elementSpaceMap", Sample.nameless)])
      (Some Sample.house) = Ok r
    /\ Transform.meta r = Transform.Counted c
    /\ Transform.wallsFound c = size (Transform.mappings r)
    /\ Transform.wallsFound c + Transform.otherElementsSkipped c
       + List.length
           (List.filter
              (nameless (Transform.wall_global_ids (Some Sample.house)))
              [("W1aaaaaaaaaaaaaaaaaaaa", PyDict [("spaceName", PyStr "")])])
       = 1.
Proof.
  destruct (counters_account
              [("elementSpaceMap", Sample.nameless)]
              [("W1aaaaaaaaaaaaaaaaaaaa", PyDict [("spaceName", PyStr "")])]
              (Some Sample.house)
              {| ToWalls.input := Some (PyDict [("elementSpaceMap", Sample.nameless)]);
                 ToWalls.elements := Sample.viewer |}
              eq_refl)
    as [(r & c & Hr & Hm & _ & Hsize & _ & _ & Htotal) _].
  - unfold wf_dict. simpl. apply NoDup_singleton.
  - intros it [<-|[]]. reflexivity.
  - reflexivity.
  - exists r, c. repeat split; assumption.
Defined.

(** C3 as the specification words it fails on that table: the one
    entry is excluded from the mapping, yet the skipped counter stays 0 and
    the two counters do not add up to the number of entries. *)
Lemma skipped_ignores_nameless_walls :
  exists r c,
    Transform.transform (PyDict [("elementSpaceMap", Sample.nameless)])
      (Some Sample.house) = Ok r
    /\ Transform.meta r = Transform.Counted c
    /\ Transform.mappings r = ∅
    /\ Transform.otherElementsSkipped c = 0
    /\ Transform.wallsFound c + Transform.otherElementsSkipped c
       <> List.length [("W1aaaaaaaaaaaaaaaaaaaa", PyDict [("spaceName", PyStr "")])].
Proof.
  exists (Transform.report Transform.init),
         {| Transform.wallsFound := 0; Transform.otherElementsSkipped := 0;
            Transform.totalMappings := 0 |}.
  split; [vm_compute; reflexivity|].
  split; [vm_compute; reflexivity|].
  split; [reflexivity|]. split; [reflexivity|]. simpl. discriminate.
Qed.

(** X21: The round trip on the lookup variant: when the lookup knows every key
    of the table and every entry it resolves to a wall carries a valid room
    name, [ToWalls] counts the wall entries as found, the other entries as
    skipped, and writes only non-empty strings other than "None". *)
Lemma to_walls_round_trip (ins : ToWalls.inputs)
    (top esm : list (string * val)) :
  ToWalls.input ins = Some (PyDict top) ->
  assoc "elementSpaceMap" top = Some (PyDict esm) ->
  let lookup := ToWalls.element_lookup (ToWalls.elements ins) in
  (forall g v, In (g, v) esm ->
     exists info, lookup !! g = Some info
       /\ (info.2 = "IfcWall" ->
           exists d s, v = PyDict d /\ assoc "spaceName" d = Some (PyStr s)
                       /\ s <> "" /\ s <> "None")) ->
  exists r c,
    ToWalls.transform ins = Ok (ToWalls.Mapped r)
    /\ Transform.meta r = Transform.Counted c
    /\ Transform.wallsFound c
       = List.length
           (List.filter
              (fun it => bool_decide (snd <$> lookup !! it.1 = Some "IfcWall")) esm)
    /\ Transform.otherElementsSkipped c
       = List.length
           (List.filter
              (fun it => negb (bool_decide (snd <$> lookup !! it.1 = Some "IfcWall")))
              esm)
    /\ (forall g v, Transform.mappings r !! g = Some v ->
          exists s, v = PyStr s /\ s <> "" /\ s <> "None").
Proof.
  intros Hin Hkey lookup Hall.
  assert (Hname : forall it, In it esm ->
            forall info, lookup !! it.1 = Some info -> info.2 = "IfcWall" ->
              is_dict it.2 = true
              /\ exists s, name_of it.2 = PyStr s /\ s <> "" /\ s <> "None").
  { intros [g v] Hit info Hl Hw. simpl in Hl.
    destruct (Hall g v Hit) as (info' & Hl' & Hv).
    rewrite Hl in Hl'. inversion Hl'; subst info'.
    destruct (Hv Hw) as (d & s & -> & Hs & H1 & H2).
    split; [reflexivity|]. exists s. unfold name_of. simpl. rewrite Hs. auto. }
  eexists. eexists.
  split; [apply (to_walls_closed ins top esm); [exact Hin | exact Hkey |]|].
  { intros it Hit info Hl Hw. now apply (Hname it Hit info). }
  fold lookup. simpl. split; [reflexivity|].
  cbn [Transform.report Transform.meta Transform.wallsFound
       Transform.otherElementsSkipped Transform.mappings
       Transform.wall_mappings Transform.walls_found
       Transform.other_elements_skipped].
  split; [|split].
  - f_equal. apply filter_ext_in. intros [g v] Hit.
    unfold w_included. simpl.
    destruct (Hall g v Hit) as (info & Hl & _). rewrite Hl. simpl.
    destruct (String.eqb info.2 "IfcWall") eqn:E.
    + apply String.eqb_eq in E.
      destruct (Hname (g, v) Hit info Hl E) as (_ & s & Hs & H1 & H2).
      simpl in Hs. rewrite Hs. rewrite E.
      rewrite bool_decide_eq_true_2 by reflexivity.
      simpl. now apply valid_name_str.
    + apply String.eqb_neq in E.
      rewrite bool_decide_eq_false_2; [reflexivity|]. congruence.
  - f_equal. apply filter_ext_in. intros [g v] Hit.
    unfold w_other. simpl.
    destruct (Hall g v Hit) as (info & Hl & _). rewrite Hl. simpl.
    destruct (String.eqb info.2 "IfcWall") eqn:E; simpl.
    + apply String.eqb_eq in E. rewrite E.
      now rewrite bool_decide_eq_true_2.
    + apply String.eqb_neq in E.
      rewrite bool_decide_eq_false_2; [reflexivity|]. congruence.
  - intros g v Hgv. apply replay_bound in Hgv as [Hgv|Hgv].
    + now rewrite lookup_empty in Hgv.
    + apply in_map_iff in Hgv as (it & Heq & Hit).
      apply filter_In in Hit as [Hit Hinc]. inversion Heq; subst. clear Heq.
      unfold w_included in Hinc.
      destruct (lookup !! it.1) as [info|] eqn:Hl; [|discriminate].
      apply andb_true_iff in Hinc as [Hw _]. apply String.eqb_eq in Hw.
      destruct (Hname it Hit info Hl Hw) as (_ & s & Hs & H1 & H2).
      now exists s.
Qed.

(** The round trip of the lookup variant on the sample table. *)
Lemma to_walls_round_trip_witness :
  exists r c,
    ToWalls.transform
      {| ToWalls.input := Some (PyDict [("elementSpaceMap", Sample.table)]);
         ToWalls.elements := Sample.viewer |} = Ok (ToWalls.Mapped r)
    /\ Transform.meta r = Transform.Counted c
    /\ Transform.wallsFound c = 1
    /\ Transform.otherElementsSkipped c = 1.
Proof.
  destruct (to_walls_round_trip
              {| ToWalls.input := Some (PyDict [("elementSpaceMap", Sample.table)]);
                 ToWalls.elements := Sample.viewer |}
              [("elementSpaceMap", Sample.table)]
              [ ("W1aaaaaaaaaaaaaaaaaaaa",
                 PyDict [("spaceName", PyStr "Room A"); ("spaceType", PyStr "Office")]);
                ("D1aaaaaaaaaaaaaaaaaaaa", PyDict [("spaceName", PyStr "Room A")]) ]
              eq_refl eq_refl) as (r & c & Hr & Hm & Hn & Hk & _).
  - intros g v [Heq|[Heq|[]]]; inversion Heq; subst.
    + exists ("W1aaaaaaaaaaaaaaaaaaaa", "IfcWall"). split; [vm_compute; reflexivity|].
      intros _.
      exists [("spaceName", PyStr "Room A"); ("spaceType", PyStr "Office")], "Room A".
      repeat split; discriminate.
    + exists ("D1aaaaaaaaaaaaaaaaaaaa", "IfcDoor"). split; [vm_compute; reflexivity|].
      intros Hw. discriminate Hw.
  - exists r, c. split; [exact Hr|]. split; [exact Hm|].
    split; [rewrite Hn | rewrite Hk]; vm_compute; reflexivity.
Defined.

(** The lookup variant on the sample table: the wall is written under its
    GlobalId, the door is skipped. *)
Example to_walls_sample :
  ToWalls.transform
    {| ToWalls.input := Some (PyDict [("elementSpaceMap", Sample.table)]);
       ToWalls.elements := Sample.viewer |}
  = Ok (ToWalls.Mapped
          (Transform.report
             {| Transform.wall_mappings := {[ "W1aaaaaaaaaaaaaaaaaaaa" := PyStr "Room A" ]};
                Transform.walls_found := 1;
                Transform.other_elements_skipped := 1 |})).
Proof. vm_compute. reflexivity. Qed.

(** The lookup variant tests the key on whatever it receives: an input
    that is [None] makes the test itself raise. *)
Example to_walls_none_input :
  ToWalls.transform {| ToWalls.input := Some PyNone; ToWalls.elements := [] |}
  = Raise TypeError.
Proof. reflexivity. Qed.

End Counters.

Section Recognition.

Import Resolver.

Lemma truthy_dict_set k v d : truthy (PyDict (dict_set k v d)) = true.
Proof. destruct d as [|[k' v'] d]; simpl; [reflexivity|]. now destruct (String.eqb k' k). Qed.

(** Line 11 never raises, and holds exactly for a dictionary that has the
    key "elementSpaceMap". *)
Lemma recognised_spec (v : val) :
  Transform.recognised v
  = Ok (match v with
        | PyDict top => bool_decide (is_Some (assoc "elementSpaceMap" top))
        | _ => false
        end).
Proof.
  destruct v as [| | | | |top]; try reflexivity.
  - unfold Transform.recognised. simpl. now destruct b.
  - unfold Transform.recognised. simpl. now destruct (negb (Z.eqb z 0)).
  - unfold Transform.recognised. simpl. now destruct (negb (String.eqb s "")).
  - unfold Transform.recognised. simpl. now destruct l.
  - unfold Transform.recognised. destruct top; reflexivity.
Qed.

(** C2, as the code has it: on an input that is not a dictionary with the
    key "elementSpaceMap", room-assignment-transform returns the fixed
    record with no mappings and [metadata.error] set, whatever the input
    was, and never raises; room-assignment-to-walls, given a dictionary
    without the key (or no input at all), returns that dictionary itself
    and adds no metadata. *)
Theorem unrecognised_input (v : val) (ifc : option model)
    (ins : ToWalls.inputs) (d : list (string * val)) :
  (forall top, v = PyDict top -> assoc "elementSpaceMap" top = None) ->
  default (PyDict []) (ToWalls.input ins) = PyDict d ->
  assoc "elementSpaceMap" d = None ->
  (exists r,
      Transform.transform v ifc = Ok r
      /\ Transform.mappings r = ∅
      /\ Transform.meta r = Transform.Error "No room assignment data found")
  /\ ToWalls.transform ins = Ok (ToWalls.PassedThrough (PyDict d)).
Proof.
  intros Hv Hins Hd. split.
  - exists Transform.not_applicable. split; [|split; reflexivity].
    unfold Transform.transform. rewrite recognised_spec.
    destruct v as [| | | | |top]; try reflexivity.
    rewrite (Hv top eq_refl).
    rewrite bool_decide_eq_false_2; [reflexivity|]. now intros [x Hx].
  - unfold ToWalls.transform. rewrite Hins. simpl. rewrite Hd.
    rewrite bool_decide_eq_false_2; [reflexivity|]. now intros [x Hx].
Qed.

(** C2 on an input that carries only a list of spaces. *)
Lemma unrecognised_input_witness :
  (exists r,
      Transform.transform (PyDict [("spaces", PyList [])]) None = Ok r
      /\ Transform.mappings r = ∅
      /\ Transform.meta r = Transform.Error "No room assignment data found")
  /\ ToWalls.transform
       {| ToWalls.input := Some (PyDict [("spaces", PyList [])]);
          ToWalls.elements := [] |}
     = Ok (ToWalls.PassedThrough (PyDict [("spaces", PyList [])])).
Proof.
  apply (unrecognised_input (PyDict [("spaces", PyList [])]) None
           {| ToWalls.input := Some (PyDict [("spaces", PyList [])]);
              ToWalls.elements := [] |}
           [("spaces", PyList [])]).
  - intros top Heq. inversion Heq. reflexivity.
  - reflexivity.
  - reflexivity.
Defined.

(** C2 as the specification words it asks for both at once.  On an
    input that carries only a list of spaces, room-assignment-transform
    answers what it answers to no input at all, so the input is not passed
    through; room-assignment-to-walls returns the input, which is not a
    mapping record and has no [metadata]. *)
Lemma not_both_passed_and_flagged :
  Transform.transform (PyDict [("spaces", PyList [])]) None
  = Transform.transform PyNone None
  /\ ToWalls.transform
       {| ToWalls.input := Some (PyDict [("spaces", PyList [])]);
          ToWalls.elements := [] |}
     = Ok (ToWalls.PassedThrough (PyDict [("spaces", PyList [])]))
  /\ (forall r,
        ToWalls.transform
          {| ToWalls.input := Some (PyDict [("spaces", PyList [])]);
             ToWalls.elements := [] |}
        <> Ok (ToWalls.Mapped r))
  /\ str_in "metadata" (PyDict [("spaces", PyList [])]) = Ok false.
Proof.
  split; [reflexivity|]. split; [reflexivity|]. split; [|reflexivity].
  intros r H. discriminate H.
Qed.

(** C4, as the code has it: add-room-info reads the table under either
    key and goes on the same way; the two transformers know the key
    "elementSpaceMap" only and treat a record that carries the table under
    "element_space_map" as one without assignment data. *)
Theorem key_spellings (rest : list (string * val)) (table : val)
    (m : model) (ifc : option model) (viewer : list ToWalls.element) :
  assoc "elementSpaceMap" rest = None ->
  assoc "element_space_map" rest = None ->
  let camel := PyDict (dict_set "elementSpaceMap" table rest) in
  let snake := PyDict (dict_set "element_space_map" table rest) in
  AddRoomInfo.read_space_assignments camel = Ok table
  /\ AddRoomInfo.read_space_assignments snake = Ok table
  /\ AddRoomInfo.run m camel = AddRoomInfo.run m snake
  /\ Transform.transform snake ifc = Ok Transform.not_applicable
  /\ ToWalls.transform {| ToWalls.input := Some snake; ToWalls.elements := viewer |}
     = Ok (ToWalls.PassedThrough snake).
Proof.
  intros Hc Hs camel snake.
  assert (Hsc : assoc "elementSpaceMap" (dict_set "element_space_map" table rest) = None)
    by (rewrite assoc_dict_set_ne by discriminate; exact Hc).
  assert (Hrc : AddRoomInfo.read_space_assignments camel = Ok table).
  { unfold AddRoomInfo.read_space_assignments, camel.
    rewrite truthy_dict_set. simpl. rewrite assoc_dict_set_eq.
    rewrite bool_decide_eq_true_2 by eauto. reflexivity. }
  assert (Hrs : AddRoomInfo.read_space_assignments snake = Ok table).
  { unfold AddRoomInfo.read_space_assignments, snake.
    rewrite truthy_dict_set. simpl. rewrite Hsc.
    rewrite bool_decide_eq_false_2 by (now intros [x Hx]). simpl.
    rewrite assoc_dict_set_eq.
    rewrite bool_decide_eq_true_2 by eauto. reflexivity. }
  split; [exact Hrc|]. split; [exact Hrs|].
  split; [unfold AddRoomInfo.run; now rewrite Hrc, Hrs|].
  split.
  - unfold Transform.transform. rewrite recognised_spec. unfold snake.
    rewrite Hsc. rewrite bool_decide_eq_false_2 by (now intros [x Hx]).
    reflexivity.
  - unfold ToWalls.transform, snake. simpl. rewrite Hsc.
    rewrite bool_decide_eq_false_2 by (now intros [x Hx]). reflexivity.
Qed.

(** C4 on the sample table, alone in its record. *)
Lemma key_spellings_witness :
  AddRoomInfo.run Sample.house (PyDict [("elementSpaceMap", Sample.table)])
  = AddRoomInfo.run Sample.house (PyDict [("element_space_map", Sample.table)])
  /\ Transform.transform (PyDict [("element_space_map", Sample.table)])
       (Some Sample.house)
     = Ok Transform.not_applicable.
Proof.
  destruct (key_spellings [] Sample.table Sample.house (Some Sample.house)
              Sample.viewer eq_refl eq_refl) as (_ & _ & Hrun & Ht & _).
  split; [exact Hrun | exact Ht].
Defined.

(** C4 as the specification words it fails for the transformer: the
    same table gives one wall mapping under "elementSpaceMap" and the
    not-applicable record under "element_space_map". *)
Lemma transform_knows_one_spelling :
  Transform.transform (PyDict [("elementSpaceMap", Sample.table)])
    (Some Sample.house)
  <> Transform.transform (PyDict [("element_space_map", Sample.table)])
       (Some Sample.house).
Proof.
  intros H.
  apply (f_equal (fun x =>
           match x with
           | Ok r => match Transform.meta r with
                     | Transform.Counted c => Transform.wallsFound c
                     | Transform.Error _ => 0
                     end
           | Raise _ => 0
           end)) in H.
  vm_compute in H. discriminate H.
Qed.

End Recognition.

(** * Further properties of the scripts *)

(** ** space-analysis-example.py *)

Section AnalysisRecords.

Import SpaceAnalysis Resolver.

(** X1: The analysis records one space per IfcSpace, in enumeration order, and
    the counters of the summary are the sizes of the collections beside
    it. *)
Theorem spaces_follow_enumeration (m : model) :
  exists a,
    run m = Analysed a
    /\ map si_id (spaces a) = map GlobalId (IfcSpace m)
    /\ total_spaces (stats a) = List.length (spaces a)
    /\ assigned_elements (stats a) = size (element_space_map a)
    /\ unassigned_elements (stats a) = List.length (unassigned a)
    /\ List.length (zones a) = total_zones (stats a).
Proof.
  destruct (build_ok m) as [a Ha]. exists a.
  unfold run. rewrite Ha. split; [reflexivity|].
  pose proof Ha as Hb. apply build_fields in Hb as (Hs & He & Hu & Hst).
  unfold summarize in Hst.
  destruct (avg_height_ok (spaces a)) as [h Hh]. rewrite Hh in Hst.
  simpl in Hst.
  destruct (percentage_ok (sum (map si_area (classify_all (spaces a)).1))
              (sum (map si_area (spaces a)))) as [pc Hpc].
  rewrite Hpc in Hst. simpl in Hst.
  destruct (percentage_ok (sum (map si_area (classify_all (spaces a)).2))
              (sum (map si_area (spaces a)))) as [pp Hpp].
  rewrite Hpp in Hst. simpl in Hst.
  inversion Hst as [Hst']. simpl.
  split; [rewrite Hs, map_map; reflexivity|].
  split; [rewrite Hs, length_map; reflexivity|].
  split; [reflexivity|]. split; [reflexivity|].
  unfold build in Ha.
  destruct (summarize m _ _ _) as [s|e]; simpl in Ha; [|discriminate Ha].
  inversion Ha; subst; simpl. apply length_map.
Qed.

(** X2: The elements of a space record are the related elements of every
    containment relation of the space, relation after relation, and
    [element_count] is their number. *)
Theorem space_elements_accumulate (m : model) (pre post : list entity)
    (space : entity) :
  IfcSpace m = pre ++ space :: post ->
  exists a r,
    run m = Analysed a
    /\ nth_error (spaces a) (List.length pre) = Some r
    /\ si_elements r
       = map element_summary
           (flat_map
              (fun rel =>
                 if Nat.eqb (eid (RelContained.RelatingStructure rel)) (eid space)
                 then RelContained.RelatedElements rel else [])
              (IfcRelContainedInSpatialStructure m))
    /\ si_element_count r = List.length (si_elements r).
Proof.
  intros Hsp.
  destruct (build_ok m) as [a Ha]. exists a, (record_of m space).
  unfold run. rewrite Ha. split; [reflexivity|].
  apply build_fields in Ha as (Hs & _).
  split; [|split].
  - rewrite Hs, Hsp, map_app.
    rewrite nth_error_app2 by (rewrite length_map; lia).
    rewrite length_map, Nat.sub_diag. reflexivity.
  - reflexivity.
  - simpl. now rewrite length_map.
Qed.

(** On the sample model the blank space holds wall 1. *)
Lemma space_elements_accumulate_witness :
  exists a r,
    run Sample.house = Analysed a
    /\ nth_error (spaces a) 1 = Some r
    /\ si_elements r = [element_summary Sample.wall_1]
    /\ si_element_count r = 1.
Proof.
  destruct (space_elements_accumulate Sample.house [Sample.room_a] []
              Sample.blank eq_refl) as (a & r & Hrun & Hnth & Hel & Hn).
  exists a, r. split; [exact Hrun|]. split; [exact Hnth|].
  split; [exact Hel|]. rewrite Hn, Hel. reflexivity.
Defined.

(** X3: A GlobalId is a key of [element_space_map] exactly when some space
    has a containment relation that relates an element with that GlobalId,
    and the value under it is the assignment of such a space. *)
Theorem map_entries_stem_from_spaces (m : model) (a : analysis) (g : string) :
  run m = Analysed a ->
  let claims (space : entity) :=
    exists rel el,
      In rel (IfcRelContainedInSpatialStructure m)
      /\ eid (RelContained.RelatingStructure rel) = eid space
      /\ In el (RelContained.RelatedElements rel)
      /\ GlobalId el = g in
  (is_Some (element_space_map a !! g)
   <-> exists space, In space (IfcSpace m) /\ claims space)
  /\ (forall asg,
        element_space_map a !! g = Some asg ->
        exists space,
          In space (IfcSpace m) /\ claims space
          /\ space_id asg = GlobalId space
          /\ space_name asg
             = attr_or (Name space) ("Space_" ++ slice_to 8 (GlobalId space))
          /\ space_type asg = attr_or (ObjectType space) "Generic"
          /\ storey asg = find_storey space (IfcRelAggregates m)).
Proof.
  intros Hrun claims. unfold run in Hrun.
  destruct (build m) as [a'|] eqn:Hb; [|discriminate].
  inversion Hrun; subst a'. clear Hrun.
  apply build_fields in Hb as (_ & He & _).
  assert (Hw : forall asg, In (g, asg) (writes m (IfcSpace m)) ->
            exists space, In space (IfcSpace m) /\ claims space
                          /\ asg = assignment_of m space).
  { intros asg Hin. apply in_writes in Hin as (space & el & Hs & Hel & Hg & ->).
    exists space. split; [exact Hs|]. split; [|reflexivity].
    apply in_contained_elements in Hel as (rel & Hrel & Heid & Hin).
    exists rel, el. auto. }
  split; [split|].
  - intros [asg Hasg]. rewrite He in Hasg.
    apply replay_bound in Hasg as [Hasg|Hasg];
      [now rewrite lookup_empty in Hasg|].
    destruct (Hw asg Hasg) as (space & Hs & Hc & _). eauto.
  - intros (space & Hs & rel & el & Hrel & Heid & Hin & Hg).
    rewrite He. subst g.
    apply (replay_written (writes m (IfcSpace m)) ∅
             (GlobalId el, assignment_of m space)).
    apply in_writes. exists space, el. repeat split; auto.
    apply in_contained_elements. eauto.
  - intros asg Hasg. rewrite He in Hasg.
    apply replay_bound in Hasg as [Hasg|Hasg];
      [now rewrite lookup_empty in Hasg|].
    destruct (Hw asg Hasg) as (space & Hs & Hc & ->).
    exists space. repeat split; auto.
Qed.

(** On the sample model door 1, which no space contains, is not a key. *)
Lemma map_entries_stem_from_spaces_witness :
  exists a,
    run Sample.house = Analysed a
    /\ ~ is_Some (element_space_map a !! GlobalId Sample.door_1).
Proof.
  destruct (build_ok Sample.house) as [a Ha].
  assert (Hrun : run Sample.house = Analysed a) by (unfold run; now rewrite Ha).
  exists a. split; [exact Hrun|].
  destruct (map_entries_stem_from_spaces Sample.house a
              (GlobalId Sample.door_1) Hrun) as [[Hdom _] _].
  intros Hsome. apply Hdom in Hsome as (space & Hs & rel & el & Hrel & Heid & Hin & Hg).
  simpl in Hs, Hrel.
  destruct Hrel as [<-|[<-|[<-|[]]]]; simpl in Hin, Heid;
    destruct Hin as [<-|[]]; simpl in Hg; try discriminate Hg.
  destruct Hs as [<-|[<-|[]]]; simpl in Heid; discriminate Heid.
Defined.

(** X4: A space whose property sets cannot be read is recorded all the same,
    with area, volume and height 0; so is a space without the quantity
    set; with the set, each quantity is the value under its key, or 0. *)
Theorem quantities_default_to_zero (m : model) (pre post : list entity)
    (space : entity) :
  IfcSpace m = pre ++ space :: post ->
  exists a r,
    run m = Analysed a
    /\ nth_error (spaces a) (List.length pre) = Some r
    /\ si_id r = GlobalId space
    /\ (forall e, get_psets m space = Raise e ->
          si_area r = 0%Q /\ si_volume r = 0%Q /\ si_height r = 0%Q)
    /\ (forall psets, get_psets m space = Ok psets ->
          psets !! "Qto_SpaceBaseQuantities" = None ->
          si_area r = 0%Q /\ si_volume r = 0%Q /\ si_height r = 0%Q)
    /\ (forall psets quantities, get_psets m space = Ok psets ->
          psets !! "Qto_SpaceBaseQuantities" = Some quantities ->
          si_area r = default 0%Q (quantities !! "NetFloorArea")
          /\ si_volume r = default 0%Q (quantities !! "NetVolume")
          /\ si_height r = default 0%Q (quantities !! "Height")).
Proof.
  intros Hsp.
  destruct (build_ok m) as [a Ha]. exists a, (record_of m space).
  unfold run. rewrite Ha. split; [reflexivity|].
  apply build_fields in Ha as (Hs & _).
  split; [|split; [reflexivity|]].
  - rewrite Hs, Hsp, map_app.
    rewrite nth_error_app2 by (rewrite length_map; lia).
    rewrite length_map, Nat.sub_diag. reflexivity.
  - simpl. unfold quantity. split; [|split].
    + intros e He. rewrite He. auto.
    + intros psets Hp Hq. rewrite Hp, Hq. auto.
    + intros psets q Hp Hq. rewrite Hp, Hq. auto.
Qed.

(** On the sample model the property sets of the blank space cannot be
    read. *)
Lemma quantities_default_to_zero_witness :
  exists a r,
    run Sample.house = Analysed a
    /\ nth_error (spaces a) 1 = Some r
    /\ si_area r = 0%Q /\ si_volume r = 0%Q /\ si_height r = 0%Q.
Proof.
  destruct (quantities_default_to_zero Sample.house [Sample.room_a] []
              Sample.blank eq_refl) as (a & r & Hrun & Hnth & _ & Hraise & _).
  exists a, r. split; [exact Hrun|]. split; [exact Hnth|].
  apply (Hraise AttributeError). reflexivity.
Defined.

End AnalysisRecords.

Section AnalysisSummary.

Import SpaceAnalysis Resolver.

(** What a summary that was computed consists of. *)
Lemma summarize_inv m sd esm un s :
  summarize m sd esm un = Ok s ->
  exists h pc pp,
    avg_height sd = Ok h
    /\ percentage (sum (map si_area (classify_all sd).1)) (sum (map si_area sd))
       = Ok pc
    /\ percentage (sum (map si_area (classify_all sd).2)) (sum (map si_area sd))
       = Ok pp
    /\ average_height s = round h 2
    /\ space_types s = fold_left count_type sd ∅
    /\ c_percentage (circulation s) = pc
    /\ c_percentage (program s) = pp.
Proof.
  intros Hs. unfold summarize in Hs.
  destruct (avg_height_ok sd) as [h Hh]. rewrite Hh in Hs. simpl in Hs.
  destruct (percentage_ok (sum (map si_area (classify_all sd).1))
              (sum (map si_area sd))) as [pc Hpc].
  rewrite Hpc in Hs. simpl in Hs.
  destruct (percentage_ok (sum (map si_area (classify_all sd).2))
              (sum (map si_area sd))) as [pp Hpp].
  rewrite Hpp in Hs. simpl in Hs.
  inversion Hs; subst s; simpl. exists h, pc, pp. repeat split; auto.
Qed.

Lemma count_types_closed (sd : list space_info) (t : string) :
  fold_left count_type sd ∅ !! t
  = match List.filter (fun r => String.eqb (si_type r) t) sd with
    | [] => None
    | g => Some {| ts_count := List.length g;
                   ts_total_area := sum (map si_area g);
                   ts_spaces := map si_name g |}
    end.
Proof.
  induction sd as [|x sd IH] using rev_ind; [apply lookup_empty|].
  rewrite fold_left_app, List.filter_app. simpl.
  unfold count_type at 1.
  destruct (String.eqb (si_type x) t) eqn:E.
  - apply String.eqb_eq in E. rewrite E, lookup_insert_eq, IH.
    destruct (List.filter _ sd) as [|y g]; [reflexivity|].
    simpl. f_equal. f_equal.
    + rewrite length_app. simpl. lia.
    + unfold sum. simpl. rewrite map_app, fold_left_app. reflexivity.
    + now rewrite map_app.
  - apply String.eqb_neq in E.
    rewrite lookup_insert_ne by exact E. now rewrite IH, app_nil_r.
Qed.

(** X5: [space_types] groups the space records by their type: a type is a key
    exactly when some record has it, and its entry holds the number of those
    records, the sum of their areas and their names in order. *)
Theorem space_types_group_by_type (m : model) (t : string) :
  exists a,
    run m = Analysed a
    /\ space_types (stats a) !! t
       = match List.filter (fun r => String.eqb (si_type r) t) (spaces a) with
         | [] => None
         | g => Some {| ts_count := List.length g;
                        ts_total_area := sum (map si_area g);
                        ts_spaces := map si_name g |}
         end.
Proof.
  destruct (build_ok m) as [a Ha]. exists a.
  unfold run. rewrite Ha. split; [reflexivity|].
  apply build_fields in Ha as (_ & _ & _ & Hst).
  apply summarize_inv in Hst as (h & pc & pp & _ & _ & _ & _ & -> & _).
  apply count_types_closed.
Qed.

Lemma zone_members_fold (zone : entity) (rels : list RelAssignsToGroup.t)
    (acc : list (string * string)) :
  fold_left (zone_members zone) rels acc
  = acc ++ map (fun obj => (GlobalId obj, attr_or (Name obj) ""))
             (List.filter (fun obj => String.eqb (ifc_class obj) "IfcSpace")
                (flat_map
                   (fun rel =>
                      if Nat.eqb (eid (RelAssignsToGroup.RelatingGroup rel))
                           (eid zone)
                      then RelAssignsToGroup.RelatedObjects rel else [])
                   rels)).
Proof.
  revert acc. induction rels as [|rel rels IH]; intros acc; simpl.
  - now rewrite app_nil_r.
  - rewrite IH. unfold zone_members. unfold entity_eqb.
    destruct (Nat.eqb _ (eid zone)); [|reflexivity].
    rewrite List.filter_app, map_app, app_assoc. f_equal.
    generalize (RelAssignsToGroup.RelatedObjects rel) acc.
    intros objs. induction objs as [|obj objs IHo]; intros acc'; simpl.
    + now rewrite app_nil_r.
    + rewrite IHo. unfold is_a.
      destruct (String.eqb (ifc_class obj) "IfcSpace"); simpl;
        [now rewrite <- app_assoc | reflexivity].
Qed.

(** X7: The analysis records one zone per IfcZone, in order; the members of a
    zone record are the related objects of class IfcSpace of every group
    assignment whose group is the zone, other members being left out; the
    name of a zone falls back to "Zone_" and 8 characters of its
    GlobalId. *)
Theorem zone_members_are_spaces (m : model) (pre post : list entity)
    (zone : entity) :
  IfcZone m = pre ++ zone :: post ->
  exists a z,
    run m = Analysed a
    /\ nth_error (zones a) (List.length pre) = Some z
    /\ z_id z = GlobalId zone
    /\ z_name z = attr_or (Name zone) ("Zone_" ++ slice_to 8 (GlobalId zone))
    /\ z_spaces z
       = map (fun obj => (GlobalId obj, attr_or (Name obj) ""))
           (List.filter (fun obj => String.eqb (ifc_class obj) "IfcSpace")
              (flat_map
                 (fun rel =>
                    if Nat.eqb (eid (RelAssignsToGroup.RelatingGroup rel))
                         (eid zone)
                    then RelAssignsToGroup.RelatedObjects rel else [])
                 (IfcRelAssignsToGroup m))).
Proof.
  intros Hz.
  destruct (build_ok m) as [a Ha]. exists a, (process_zone m zone).
  unfold run. rewrite Ha. split; [reflexivity|].
  split; [|split; [reflexivity|split; [reflexivity|]]].
  - unfold build in Ha.
    destruct (summarize m _ _ _) as [s|e]; simpl in Ha; [|discriminate Ha].
    inversion Ha; subst; simpl. rewrite Hz, map_app.
    rewrite nth_error_app2 by (rewrite length_map; lia).
    rewrite length_map, Nat.sub_diag. reflexivity.
  - simpl. now rewrite zone_members_fold.
Qed.

(** On the zoned sample the zone has no name, and wall 1 is not among its
    members. *)
Lemma zone_members_are_spaces_witness :
  exists a z,
    run Sample2.zoned = Analysed a
    /\ nth_error (zones a) 0 = Some z
    /\ z_name z = "Zone_Z1aaaaaa"
    /\ z_spaces z = [(GlobalId Sample.room_a, "Room A"); (GlobalId Sample.blank, "")].
Proof.
  destruct (zone_members_are_spaces Sample2.zoned [] [] Sample2.zone_east eq_refl)
    as (a & z & Hrun & Hnth & _ & Hname & Hsp).
  exists a, z. split; [exact Hrun|]. split; [exact Hnth|].
  split; [exact Hname | exact Hsp].
Defined.

End AnalysisSummary.

(** ** add-room-info-example.py *)

Section RoomInfoTable.

Import SpaceAnalysis Resolver Views.

(** X8: Reading the table never raises; "elementSpaceMap" is looked at first
    and wins when both keys are present; an input that is not a dictionary
    or has neither key gives [None]. *)
Theorem read_prefers_camel_key (input_data : val) :
  AddRoomInfo.read_space_assignments input_data
  = Ok (match input_data with
        | PyDict d =>
            match assoc "elementSpaceMap" d, assoc "element_space_map" d with
            | Some table, _ => table
            | None, Some table => table
            | None, None => PyNone
            end
        | _ => PyNone
        end).
Proof.
  unfold AddRoomInfo.read_space_assignments.
  destruct input_data as [| b | z | s | l | d]; try reflexivity.
  - simpl. now destruct b.
  - simpl. now destruct (negb (Z.eqb z 0)).
  - simpl. now destruct (negb (String.eqb s "")).
  - simpl. destruct l; reflexivity.
  - destruct d as [|kv d]; [reflexivity|].
    change (truthy (PyDict (kv :: d))) with true.
    generalize (kv :: d). intros dd. simpl.
    destruct (assoc "elementSpaceMap" dd) as [t|] eqn:Ec.
    + rewrite bool_decide_eq_true_2 by eauto. reflexivity.
    + rewrite bool_decide_eq_false_2 by (now intros [x Hx]). simpl.
      destruct (assoc "element_space_map" dd) as [t|] eqn:Es.
      * rewrite bool_decide_eq_true_2 by eauto. reflexivity.
      * rewrite bool_decide_eq_false_2 by (now intros [x Hx]). reflexivity.
Qed.

(** The two tables are built by the same writes: the simulation between an
    insertion-ordered dictionary and a map under parallel writes. *)
Lemma parallel_replay (ws : list (string * assignment))
    (d : list (string * val)) (e : gmap string assignment) :
  wf_dict d ->
  (forall g, assoc g d = as_entry <$> e !! g) ->
  List.length d = size e ->
  let d' := dict_replay (map (fun w => (w.1, as_entry w.2)) ws) d in
  let e' := replay ws e in
  wf_dict d'
  /\ (forall g, assoc g d' = as_entry <$> e' !! g)
  /\ List.length d' = size e'.
Proof.
  revert d e. induction ws as [|[k x] ws IH]; intros d e Hwf Hsim Hlen; simpl.
  - auto.
  - apply IH.
    + now apply dict_set_wf.
    + intros g. simpl. destruct (decide (k = g)) as [->|Hne].
      * now rewrite assoc_dict_set_eq, lookup_insert_eq.
      * rewrite assoc_dict_set_ne, lookup_insert_ne by exact Hne. apply Hsim.
    + simpl. destruct (e !! k) as [y|] eqn:Ek.
      * rewrite map_size_insert_Some by eauto.
        rewrite <- Hlen. clear IH Hlen.
        assert (Hk : is_Some (assoc k d)) by (rewrite Hsim, Ek; simpl; eauto).
        clear Hsim. induction d as [|[k' v'] d IHd]; simpl.
        -- destruct Hk as [? Hk]. discriminate Hk.
        -- simpl in Hk. destruct (String.eqb k' k); simpl; [reflexivity|].
           f_equal. apply IHd; [|exact Hk].
           unfold wf_dict in *. simpl in Hwf. now apply NoDup_cons in Hwf.
      * rewrite map_size_insert_None by exact Ek.
        rewrite dict_set_fresh by (rewrite Hsim, Ek; reflexivity).
        rewrite length_app. simpl. lia.
Qed.

Lemma entries_as_writes m l :
  entries m l = map (fun w => (w.1, as_entry w.2)) (writes m l).
Proof.
  unfold entries, writes. induction l as [|space l IH]; simpl; [reflexivity|].
  rewrite IH, map_app, map_map. reflexivity.
Qed.

(** The table of the own analysis against the replay of the writes of the
    space loop. *)
Lemma own_table_simulates (m : model) :
  exists table,
    AddRoomInfo.own_analysis m = PyDict table
    /\ wf_dict table
    /\ (forall g, assoc g table
                  = as_entry <$> replay (writes m (IfcSpace m)) ∅ !! g)
    /\ List.length table = size (replay (writes m (IfcSpace m)) ∅).
Proof.
  exists (dict_replay (entries m (IfcSpace m)) []).
  split; [apply own_analysis_closed|].
  rewrite entries_as_writes.
  apply (parallel_replay (writes m (IfcSpace m)) [] ∅).
  - constructor.
  - intros g. now rewrite lookup_empty.
  - now rewrite map_size_empty.
Qed.

(** X9: The own analysis of add-room-info builds the table the space analysis
    builds: both have the same keys, under each key the same space name,
    type, id and storey, and as many entries; the keys of the table are
    pairwise distinct. *)
Theorem own_analysis_agrees (m : model) :
  exists a table,
    run m = Analysed a
    /\ AddRoomInfo.own_analysis m = PyDict table
    /\ wf_dict table
    /\ (forall g, assoc g table = as_entry <$> element_space_map a !! g)
    /\ List.length table = size (element_space_map a).
Proof.
  destruct (build_ok m) as [a Ha].
  destruct (own_table_simulates m) as (table & Hown & Hwf & Hsim & Hlen).
  exists a, table.
  unfold run. rewrite Ha. split; [reflexivity|].
  apply build_fields in Ha as (_ & -> & _).
  split; [exact Hown|]. split; [exact Hwf|]. split; [exact Hsim | exact Hlen].
Qed.

End RoomInfoTable.

Section Loops.

Context {S A : Type} (f : S -> A -> res S).

Lemma foldM_app (l1 l2 : list A) (s : S) :
  foldM f (l1 ++ l2) s = s' ← foldM f l1 s; foldM f l2 s'.
Proof.
  revert s. induction l1 as [|x l1 IH]; intros s; simpl; [reflexivity|].
  destruct (f s x) as [s'|e]; simpl; [apply IH | reflexivity].
Qed.

(** A loop whose body never raises on the items at hand returns. *)
Lemma foldM_returns (l : list A) (s : S) :
  (forall s x, In x l -> exists s', f s x = Ok s') ->
  exists s', foldM f l s = Ok s'.
Proof.
  revert s. induction l as [|x l IH]; intros s Hok; simpl; [eauto|].
  destruct (Hok s x (or_introl eq_refl)) as [s' ->]. simpl.
  apply IH. intros s0 x0 Hx0. apply Hok. now right.
Qed.

(** A loop raises when its body raises on some item whatever the state. *)
Lemma foldM_raises (l : list A) (s : S) (x : A) :
  In x l -> (forall s, exists e, f s x = Raise e) ->
  exists e, foldM f l s = Raise e.
Proof.
  revert s. induction l as [|y l IH]; intros s Hin Hx; [destruct Hin|].
  simpl. destruct (f s y) as [s'|e] eqn:E; simpl; [|eauto].
  destruct Hin as [->|Hin]; [|now apply IH].
  destruct (Hx s) as [e He]. congruence.
Qed.

End Loops.

Section RoomInfoLoop.

Import Resolver Views.

Lemma update_element_cases (m : model) (st : AddRoomInfo.progress)
    (item : string * val) :
  if updatable m item
  then exists d element,
         AddRoomInfo.update_element m st item
         = {| AddRoomInfo.elements_updated := Datatypes.S (AddRoomInfo.elements_updated st);
              AddRoomInfo.elements_skipped := AddRoomInfo.elements_skipped st;
              AddRoomInfo.details := AddRoomInfo.details st ++ [d] |}
         /\ by_guid m item.1 = Some element
         /\ AddRoomInfo.d_id d = GlobalId element
         /\ AddRoomInfo.d_type d = ifc_class element
         /\ AddRoomInfo.d_name d = attr_or (Name element) ""
         /\ get item.2 "spaceName" (PyStr "") = Ok (AddRoomInfo.d_space_name d)
  else AddRoomInfo.update_element m st item
       = {| AddRoomInfo.elements_updated := AddRoomInfo.elements_updated st;
            AddRoomInfo.elements_skipped := Datatypes.S (AddRoomInfo.elements_skipped st);
            AddRoomInfo.details := AddRoomInfo.details st |}.
Proof.
  unfold updatable, AddRoomInfo.update_element.
  destruct (by_guid m item.1) as [element|]; [|reflexivity].
  destruct item.2 as [| | | | |d]; try reflexivity.
  simpl. eexists. exists element. split; [reflexivity|]. simpl. auto.
Qed.

(** The update loop in closed form, as far as the counters go. *)
Lemma update_fold (m : model) (its : list (string * val))
    (st : AddRoomInfo.progress) :
  let st' := fold_left (AddRoomInfo.update_element m) its st in
  AddRoomInfo.elements_updated st'
  = AddRoomInfo.elements_updated st + List.length (List.filter (updatable m) its)
  /\ AddRoomInfo.elements_skipped st'
     = AddRoomInfo.elements_skipped st
       + List.length (List.filter (fun it => negb (updatable m it)) its)
  /\ List.length (AddRoomInfo.details st')
     = List.length (AddRoomInfo.details st)
       + List.length (List.filter (updatable m) its)
  /\ (forall d, In d (AddRoomInfo.details st') ->
        In d (AddRoomInfo.details st)
        \/ exists k v element,
             In (k, v) its /\ by_guid m k = Some element
             /\ AddRoomInfo.d_id d = GlobalId element
             /\ AddRoomInfo.d_type d = ifc_class element
             /\ AddRoomInfo.d_name d = attr_or (Name element) ""
             /\ get v "spaceName" (PyStr "") = Ok (AddRoomInfo.d_space_name d)).
Proof.
  revert st. induction its as [|it its IH]; intros st; simpl.
  - repeat split; try lia. auto.
  - pose proof (update_element_cases m st it) as Hc.
    destruct (IH (AddRoomInfo.update_element m st it)) as (H1 & H2 & H3 & H4).
    destruct (updatable m it) eqn:Eu; simpl.
    + destruct Hc as (d & element & Heq & Hg & Hid & Hty & Hnm & Hsn).
      rewrite Heq in H1, H2, H3, H4 |- *. simpl in H1, H2, H3, H4.
      rewrite length_app in H3. simpl in H3.
      repeat split; try lia.
      intros d' Hd'. apply H4 in Hd' as [Hd'|Hd'].
      * apply in_app_or in Hd' as [Hd'|[<-|[]]]; [now left|].
        right. exists it.1, it.2, element. destruct it. simpl in *. auto 10.
      * right. destruct Hd' as (k & v & el & Hin & Hrest).
        exists k, v, el. auto.
    + rewrite Hc in H1, H2, H3, H4 |- *. simpl in H1, H2, H3, H4.
      repeat split; try lia.
      intros d' Hd'. apply H4 in Hd' as [Hd'|Hd']; [now left|].
      right. destruct Hd' as (k & v & el & Hin & Hrest).
      exists k, v, el. auto.
Qed.

Lemma filter_complement_length {X} (p : X -> bool) (l : list X) :
  List.length (List.filter p l)
  + List.length (List.filter (fun x => negb (p x)) l)
  = List.length l.
Proof.
  induction l as [|x l IH]; simpl; [reflexivity|].
  destruct (p x); simpl; lia.
Qed.

(** What the update loop walked when it returned. *)
Lemma update_all_inv (m : model) (space_assignments : val)
    (p : AddRoomInfo.progress) :
  AddRoomInfo.update_all m space_assignments = Ok p ->
  exists its,
    AddRoomInfoReport.table_of m space_assignments = PyDict its
    /\ p = fold_left (AddRoomInfo.update_element m) its
             {| AddRoomInfo.elements_updated := 0;
                AddRoomInfo.elements_skipped := 0;
                AddRoomInfo.details := [] |}.
Proof.
  unfold AddRoomInfo.update_all, AddRoomInfoReport.table_of. intros Hp.
  destruct (if truthy space_assignments then space_assignments
            else AddRoomInfo.own_analysis m) as [| | | | |its];
    try discriminate Hp.
  simpl in Hp. inversion Hp. now exists its.
Qed.

(** X10: The update loop accounts for every entry of its table: an entry whose
    GlobalId the model knows and whose value is a dictionary becomes one
    detail, carrying the element's id and the entry's space name; every
    other entry is counted as skipped; nothing else is counted. *)
Theorem update_accounts_for_every_entry (m : model) (space_assignments : val)
    (p : AddRoomInfo.progress) :
  AddRoomInfo.update_all m space_assignments = Ok p ->
  exists its,
    AddRoomInfoReport.table_of m space_assignments = PyDict its
    /\ AddRoomInfo.elements_updated p = List.length (List.filter (updatable m) its)
    /\ AddRoomInfo.elements_updated p + AddRoomInfo.elements_skipped p
       = List.length its
    /\ List.length (AddRoomInfo.details p) = AddRoomInfo.elements_updated p
    /\ (forall d, In d (AddRoomInfo.details p) ->
          exists k v element,
            In (k, v) its /\ by_guid m k = Some element
            /\ AddRoomInfo.d_id d = GlobalId element
            /\ get v "spaceName" (PyStr "") = Ok (AddRoomInfo.d_space_name d)).
Proof.
  intros Hp. apply update_all_inv in Hp as (its & Ht & ->).
  exists its. split; [exact Ht|].
  destruct (update_fold m its
              {| AddRoomInfo.elements_updated := 0;
                 AddRoomInfo.elements_skipped := 0;
                 AddRoomInfo.details := [] |}) as (H1 & H2 & H3 & H4).
  simpl in H1, H2, H3, H4.
  pose proof (filter_complement_length (updatable m) its) as Hc.
  repeat split; try lia.
  intros d Hd. apply H4 in Hd as [[]|Hd].
  destruct Hd as (k & v & el & Hin & Hg & Hid & _ & _ & Hsn).
  exists k, v, el. auto.
Qed.

(** On the sample table the model knows wall 1 only: the door entry is
    skipped. *)
Lemma update_accounts_for_every_entry_witness :
  exists p,
    AddRoomInfo.update_all Sample.house Sample.table = Ok p
    /\ AddRoomInfo.elements_updated p = 1
    /\ AddRoomInfo.elements_skipped p = 1
    /\ List.length (AddRoomInfo.details p) = 1.
Proof.
  eexists. split; [reflexivity|].
  destruct (update_accounts_for_every_entry Sample.house Sample.table _ eq_refl)
    as (its & Ht & Hu & Hs & Hd & _).
  inversion Ht; subst its. clear Ht.
  split; [exact Hu|]. split; [|rewrite Hd; exact Hu].
  rewrite Hu in Hs. simpl in Hs. simpl. lia.
Defined.

End RoomInfoLoop.

Section RoomInfoReport.

Import Resolver Views AddRoomInfoReport.

Lemma union_singleton_size (h : hkey) (acc : gset hkey) :
  size ({[h]} ∪ acc) <= Datatypes.S (size acc).
Proof.
  rewrite size_union_alt, size_singleton.
  assert (Hle : size (acc ∖ {[h]}) <= size acc).
  { apply subseteq_size. apply subseteq_difference_l. reflexivity. }
  lia.
Qed.

Lemma collect_name_size acc s acc' :
  collect_name acc s = Ok acc' -> size acc' <= Datatypes.S (size acc).
Proof.
  unfold collect_name. destruct (get s "spaceName" (PyStr "")) as [v|]; simpl;
    [|discriminate].
  destruct (hash_key v) as [h|]; simpl; [|discriminate].
  intros H. inversion H. apply union_singleton_size.
Qed.

Lemma collect_storey_size acc s acc' :
  collect_storey acc s = Ok acc' -> size acc' <= Datatypes.S (size acc).
Proof.
  unfold collect_storey. destruct (get s "storey" PyNone) as [c|]; simpl;
    [|discriminate].
  destruct (truthy c); [|intros H; inversion H; lia].
  destruct (get s "storey" (PyStr "")) as [v|]; simpl; [|discriminate].
  destruct (hash_key v) as [h|]; simpl; [|discriminate].
  intros H. inversion H. apply union_singleton_size.
Qed.

(** A set collected over a list has at most one member per item. *)
Lemma collected_size (step : gset hkey -> val -> res (gset hkey))
    (l : list val) (acc acc' : gset hkey) :
  (forall a s a', step a s = Ok a' -> size a' <= Datatypes.S (size a)) ->
  foldM step l acc = Ok acc' -> size acc' <= size acc + List.length l.
Proof.
  intros Hstep. revert acc. induction l as [|s l IH]; intros acc H; simpl in H.
  - inversion H. simpl. lia.
  - destruct (step acc s) as [a|] eqn:E; simpl in H; [|discriminate H].
    apply IH in H. apply Hstep in E. simpl. lia.
Qed.

(** The grouping loop in closed form: the group under a key holds the
    details whose space name hashes to it, in order. *)
Lemma groups_closed (ds : list AddRoomInfo.detail)
    (g : gmap hkey (list (string * string * string))) :
  foldM group_detail ds ∅ = Ok g ->
  forall h,
    g !! h = match List.filter (grouped_under h) ds with
             | [] => None
             | l => Some (map triple l)
             end.
Proof.
  revert g. induction ds as [|x ds IH] using rev_ind; intros g Hg h.
  - inversion Hg. apply lookup_empty.
  - rewrite foldM_app in Hg.
    destruct (foldM group_detail ds ∅) as [g0|] eqn:E0; simpl in Hg;
      [|discriminate Hg].
    unfold group_detail in Hg.
    destruct (hash_key (AddRoomInfo.d_space_name x)) as [hx|] eqn:Ex;
      simpl in Hg; [|discriminate Hg].
    inversion Hg; subst g. clear Hg.
    rewrite List.filter_app. simpl. unfold grouped_under at 2. rewrite Ex.
    destruct (decide (hx = h)) as [->|Hne].
    + rewrite bool_decide_eq_true_2 by reflexivity.
      rewrite lookup_insert_eq, (IH g0 eq_refl h).
      destruct (List.filter (grouped_under h) ds) as [|y l]; [reflexivity|].
      simpl. now rewrite map_app.
    + rewrite bool_decide_eq_false_2 by exact Hne.
      rewrite lookup_insert_ne by exact Hne.
      now rewrite (IH g0 eq_refl h), app_nil_r.
Qed.

(** What a report that was computed consists of. *)
Lemma finish_inv (table : val) (p : AddRoomInfo.progress) (r : report) :
  finish table p = Ok r ->
  exists its names storeys,
    table = PyDict its
    /\ foldM collect_name (map snd its) ∅ = Ok names
    /\ foldM collect_storey (map snd its) ∅ = Ok storeys
    /\ foldM group_detail (AddRoomInfo.details p) ∅ = Ok (elements_by_space r)
    /\ elements_updated r = AddRoomInfo.elements_updated p
    /\ elements_skipped r = AddRoomInfo.elements_skipped p
    /\ details r = AddRoomInfo.details p
    /\ stats r = {| total_processed := List.length its;
                    successfully_updated := AddRoomInfo.elements_updated p;
                    skipped := AddRoomInfo.elements_skipped p;
                    spaces_found := size names;
                    storeys_found := size storeys |}.
Proof.
  unfold finish. intros H.
  destruct table as [| | | | |its]; try discriminate H.
  simpl in H.
  destruct (foldM collect_name (map snd its) ∅) as [names|] eqn:En;
    simpl in H; [|discriminate H].
  destruct (foldM collect_storey (map snd its) ∅) as [storeys|] eqn:Es;
    simpl in H; [|discriminate H].
  destruct (foldM group_detail (AddRoomInfo.details p) ∅) as [groups|] eqn:Eg;
    simpl in H; [|discriminate H].
  inversion H; subst r; simpl. exists its, names, storeys. auto 10.
Qed.

(** X11: A report of the script is consistent: every entry of the table is
    either updated or skipped, there is one detail per updated element, the
    numbers of distinct space names and storeys do not exceed the number of
    entries, and [elements_by_space] files every detail under its space
    name, in order. *)
Theorem report_is_consistent (m : model) (input_data : val) (r : report) :
  script m input_data = Done r ->
  total_processed (stats r) = elements_updated r + elements_skipped r
  /\ successfully_updated (stats r) = elements_updated r
  /\ skipped (stats r) = elements_skipped r
  /\ List.length (details r) = elements_updated r
  /\ spaces_found (stats r) <= total_processed (stats r)
  /\ storeys_found (stats r) <= total_processed (stats r)
  /\ (forall h,
        elements_by_space r !! h
        = match List.filter (grouped_under h) (details r) with
          | [] => None
          | l => Some (map triple l)
          end).
Proof.
  unfold script. intros H.
  destruct (AddRoomInfo.read_space_assignments input_data) as [sa|];
    simpl in H; [|discriminate H].
  destruct (AddRoomInfo.update_all m sa) as [p|] eqn:Ep; simpl in H;
    [|discriminate H].
  destruct (finish (table_of m sa) p) as [r'|] eqn:Ef; [|discriminate H].
  inversion H; subst r'. clear H.
  apply update_all_inv in Ep as (its & Ht & ->).
  destruct (update_fold m its
              {| AddRoomInfo.elements_updated := 0;
                 AddRoomInfo.elements_skipped := 0;
                 AddRoomInfo.details := [] |}) as (Hu & Hk & Hlen & _).
  simpl in Hu, Hk, Hlen.
  pose proof (filter_complement_length (updatable m) its) as Hsum.
  apply finish_inv in Ef
    as (its' & names & storeys & Ht' & Hn & Hs & Hg & -> & -> & -> & ->).
  rewrite Ht in Ht'. inversion Ht'; subst its'. simpl.
  apply (collected_size _ _ _ _ collect_name_size) in Hn.
  apply (collected_size _ _ _ _ collect_storey_size) in Hs.
  rewrite length_map in Hn, Hs. rewrite size_empty in Hn, Hs.
  repeat split; try lia.
  now apply groups_closed.
Qed.

(** On the sample table: one element updated, one skipped, one space
    name. *)
Lemma report_is_consistent_witness :
  exists r,
    script Sample.house (PyDict [("elementSpaceMap", Sample.table)]) = Done r
    /\ total_processed (stats r) = elements_updated r + elements_skipped r
    /\ spaces_found (stats r) <= total_processed (stats r).
Proof.
  assert (H : exists r,
             script Sample.house (PyDict [("elementSpaceMap", Sample.table)])
             = Done r).
  { eexists. vm_compute. reflexivity. }
  destruct H as [r Hr]. exists r. split; [exact Hr|].
  destruct (report_is_consistent _ _ _ Hr) as (H1 & _ & _ & _ & H5 & _).
  split; assumption.
Defined.

(** X12: One entry whose value is not a dictionary makes the whole script end
    in the error record: the update loop skips the entry, but the summary
    reads every value again, outside the inner handler. *)
Theorem one_bad_entry_fails_the_script (m : model) (input_data : val)
    (its : list (string * val)) (k : string) (v : val) :
  AddRoomInfo.read_space_assignments input_data = Ok (PyDict its) ->
  In (k, v) its ->
  is_dict v = false ->
  exists p e,
    AddRoomInfo.update_all m (PyDict its) = Ok p
    /\ script m input_data = Failed e.
Proof.
  intros Hread Hin Hv.
  assert (Htruthy : truthy (PyDict its) = true)
    by (destruct its; [destruct Hin | reflexivity]).
  assert (Hup : exists p, AddRoomInfo.update_all m (PyDict its) = Ok p).
  { unfold AddRoomInfo.update_all. rewrite Htruthy. simpl. eauto. }
  destruct Hup as [p Hp]. exists p.
  destruct (foldM_raises collect_name (map snd its) ∅ v) as [e He].
  { apply in_map_iff. now exists (k, v). }
  { intros acc. unfold collect_name.
    destruct v; try discriminate Hv; simpl; eauto. }
  exists e. split; [exact Hp|].
  unfold script. rewrite Hread. simpl. rewrite Hp. simpl.
  unfold table_of. rewrite Htruthy. unfold finish. simpl. rewrite He.
  reflexivity.
Qed.

(** On a table whose door entry is a bare string. *)
Lemma one_bad_entry_fails_the_script_witness :
  exists p e,
    AddRoomInfo.update_all Sample.house (PyDict Sample2.broken) = Ok p
    /\ script Sample.house (PyDict [("elementSpaceMap", PyDict Sample2.broken)])
       = Failed e.
Proof.
  apply (one_bad_entry_fails_the_script Sample.house
           (PyDict [("elementSpaceMap", PyDict Sample2.broken)])
           Sample2.broken "D1aaaaaaaaaaaaaaaaaaaa" (PyStr "Room A")).
  - reflexivity.
  - simpl. auto.
  - reflexivity.
Defined.

End RoomInfoReport.

Section RoomInfoOwnAnalysis.

Import Resolver Views AddRoomInfoReport.

Lemma in_wf_assoc (d : list (string * val)) (k : string) (v : val) :
  wf_dict d -> In (k, v) d -> assoc k d = Some v.
Proof.
  unfold wf_dict. induction d as [|[k' v'] d IH]; simpl; intros Hwf Hin;
    [destruct Hin|].
  apply NoDup_cons in Hwf as [Hnin Hwf].
  destruct Hin as [Heq|Hin].
  - inversion Heq; subst. now rewrite String.eqb_refl.
  - destruct (String.eqb k' k) eqn:E; [|now apply IH].
    apply String.eqb_eq in E. subst k'. exfalso. apply Hnin.
    apply list_elem_of_In. apply (in_map fst) in Hin. exact Hin.
Qed.

Lemma table_of_own (m : model) :
  table_of m (AddRoomInfo.own_analysis m) = AddRoomInfo.own_analysis m.
Proof. unfold table_of. now destruct (truthy _). Qed.

Lemma update_all_own (m : model) (sa : val) :
  truthy sa = false ->
  AddRoomInfo.update_all m sa
  = AddRoomInfo.update_all m (AddRoomInfo.own_analysis m).
Proof.
  intros Hf. unfold AddRoomInfo.update_all. rewrite Hf.
  now destruct (truthy (AddRoomInfo.own_analysis m)).
Qed.

(** X13: When no table is read, or the one read is empty, the script analyses
    the model itself and never fails: it ends in a report that processes
    as many entries as the space analysis assigns elements, and it is the
    run the script makes when handed its own analysis as input. *)
Theorem own_analysis_is_used (m : model) (input_data sa : val) :
  AddRoomInfo.read_space_assignments input_data = Ok sa ->
  truthy sa = false ->
  exists r a,
    script m input_data = Done r
    /\ SpaceAnalysis.run m = SpaceAnalysis.Analysed a
    /\ total_processed (stats r) = size (SpaceAnalysis.element_space_map a)
    /\ script m input_data
       = script m (PyDict [("elementSpaceMap", AddRoomInfo.own_analysis m)]).
Proof.
  intros Hread Hfalsy.
  destruct (build_ok m) as [a Ha].
  assert (Hrun : SpaceAnalysis.run m = SpaceAnalysis.Analysed a)
    by (unfold SpaceAnalysis.run; now rewrite Ha).
  apply build_fields in Ha as (_ & Hesm & _).
  destruct (own_table_simulates m) as (table & Hown & Hwf & Hsim & Hlen).
  rewrite <- Hesm in Hsim, Hlen.
  assert (Hshape : forall k v, In (k, v) table -> exists asg, v = as_entry asg).
  { intros k v Hin. apply (in_wf_assoc _ _ _ Hwf) in Hin.
    rewrite Hsim in Hin. destruct (SpaceAnalysis.element_space_map a !! k) as [asg|];
      [|discriminate Hin]. inversion Hin. eauto. }
  assert (Hsame : script m input_data
                  = script m (PyDict [("elementSpaceMap", AddRoomInfo.own_analysis m)])).
  { unfold script. rewrite Hread. simpl.
    replace (AddRoomInfo.read_space_assignments
               (PyDict [("elementSpaceMap", AddRoomInfo.own_analysis m)]))
      with (@Ok val (AddRoomInfo.own_analysis m)) by reflexivity.
    simpl. rewrite (update_all_own m sa Hfalsy), table_of_own.
    unfold table_of. now rewrite Hfalsy. }
  set (p := fold_left (AddRoomInfo.update_element m) table
              {| AddRoomInfo.elements_updated := 0;
                 AddRoomInfo.elements_skipped := 0;
                 AddRoomInfo.details := [] |}).
  assert (Hup : AddRoomInfo.update_all m sa = Ok p).
  { unfold AddRoomInfo.update_all. rewrite Hfalsy, Hown. reflexivity. }
  destruct (foldM_returns collect_name (map snd table) ∅) as [names Hn].
  { intros acc v Hv. apply in_map_iff in Hv as ([k v'] & <- & Hin).
    destruct (Hshape k v' Hin) as [asg ->]. simpl. eauto. }
  destruct (foldM_returns collect_storey (map snd table) ∅) as [storeys Hs].
  { intros acc v Hv. apply in_map_iff in Hv as ([k v'] & <- & Hin).
    destruct (Hshape k v' Hin) as [asg ->]. unfold collect_storey, as_entry.
    simpl. destruct (SpaceAnalysis.storey asg) as [s|]; simpl; [|eauto].
    destruct (negb (String.eqb s "")); simpl; eauto. }
  destruct (foldM_returns group_detail (AddRoomInfo.details p) ∅) as [groups Hg].
  { intros acc d Hd.
    destruct (update_fold m table
                {| AddRoomInfo.elements_updated := 0;
                   AddRoomInfo.elements_skipped := 0;
                   AddRoomInfo.details := [] |}) as (_ & _ & _ & H4).
    apply H4 in Hd as [[]|(k & v & el & Hin & _ & _ & _ & _ & Hsn)].
    destruct (Hshape k v Hin) as [asg ->]. simpl in Hsn.
    inversion Hsn as [Hsn']. unfold group_detail. rewrite <- Hsn'. simpl. eauto. }
  eexists. exists a.
  split; [|split; [exact Hrun|split; [|exact Hsame]]].
  - unfold script. rewrite Hread. simpl. rewrite Hup. simpl.
    unfold table_of. rewrite Hfalsy, Hown. unfold finish. simpl.
    rewrite Hn. simpl. rewrite Hs. simpl. rewrite Hg. simpl. reflexivity.
  - simpl. exact Hlen.
Qed.

(** Without input, on the sample model: wall 1 is the one entry. *)
Lemma own_analysis_is_used_witness :
  exists r a,
    script Sample.house PyNone = Done r
    /\ SpaceAnalysis.run Sample.house = SpaceAnalysis.Analysed a
    /\ total_processed (stats r) = size (SpaceAnalysis.element_space_map a).
Proof.
  destruct (own_analysis_is_used Sample.house PyNone PyNone eq_refl eq_refl)
    as (r & a & Hr & Ha & Ht & _).
  exists r, a. auto.
Defined.

End RoomInfoOwnAnalysis.

(** ** room-assignment-transform.py *)

Section TransformMore.

Import Transform Resolver.

(** With pairwise distinct keys, a replay binds exactly what was written. *)
Lemma replay_distinct {V} (ws : list (string * V)) (g : string) (x : V) :
  NoDup (map fst ws) ->
  (replay ws ∅ !! g = Some x <-> In (g, x) ws).
Proof.
  intros Hnd. split.
  - intros H. apply replay_bound in H as [H|H]; [|exact H].
    now rewrite lookup_empty in H.
  - intros Hin. apply replay_const; [exact Hin|].
    intros [k y] Hw Hk. simpl in Hk. subst k. simpl.
    clear -Hnd Hin Hw. induction ws as [|[k z] ws IH]; [destruct Hin|].
    simpl in Hnd. apply NoDup_cons in Hnd as [Hnin Hnd].
    assert (Hfresh : forall v, In (k, v) ws -> False).
    { intros v Hv. apply Hnin. apply list_elem_of_In.
      apply (in_map fst) in Hv. exact Hv. }
    destruct Hin as [Hin|Hin]; destruct Hw as [Hw|Hw].
    + congruence.
    + inversion Hin; subst. exfalso. eauto.
    + inversion Hw; subst. exfalso. eauto.
    + now apply IH.
Qed.

(** X14: The output mapping holds, under the GlobalId of a wall, the room name
    the table gives for it, and nothing else: a key is bound to [x] exactly
    when the table has an entry for it, the key is a wall of the model, and
    the entry's [spaceName] is [x], a valid name. *)
Theorem mapping_holds_the_room_names (top esm : list (string * val))
    (ifc : option model) :
  assoc "elementSpaceMap" top = Some (PyDict esm) ->
  wf_dict esm ->
  (forall it, In it esm -> it.1 ∈ wall_global_ids ifc -> is_dict it.2 = true) ->
  exists r,
    transform (PyDict top) ifc = Ok r
    /\ forall g x,
         mappings r !! g = Some x
         <-> exists v, In (g, v) esm /\ g ∈ wall_global_ids ifc
                       /\ get v "spaceName" (PyStr "") = Ok x
                       /\ valid_name x = true.
Proof.
  intros Hkey Hwf Hd. eexists.
  split; [apply transform_closed; [exact Hkey | exact Hd]|].
  intros g x. simpl.
  rewrite replay_distinct by now apply filter_keys_nodup.
  rewrite in_map_iff. split.
  - intros ([g' v] & Heq & Hin). inversion Heq; subst. clear Heq.
    apply filter_In in Hin as [Hin Hinc].
    unfold included in Hinc. apply andb_true_iff in Hinc as [Hw Hn].
    apply bool_decide_eq_true_1 in Hw. simpl in *.
    exists v. repeat split; auto.
    apply get_name_of. now apply (Hd (g, v)).
  - intros (v & Hin & Hw & Hget & Hvalid).
    rewrite (get_name_of v (Hd (g, v) Hin Hw)) in Hget. inversion Hget as [Hx].
    exists (g, v). split; [reflexivity|].
    apply filter_In. split; [exact Hin|].
    unfold included. simpl. rewrite Hx, Hvalid.
    now rewrite bool_decide_eq_true_2.
Qed.

(** On the sample table wall 1 is mapped to "Room A". *)
Lemma mapping_holds_the_room_names_witness :
  exists r,
    transform (PyDict [("elementSpaceMap", Sample.table)]) (Some Sample.house)
    = Ok r
    /\ mappings r !! "W1aaaaaaaaaaaaaaaaaaaa" = Some (PyStr "Room A").
Proof.
  destruct (mapping_holds_the_room_names
              [("elementSpaceMap", Sample.table)]
              [ ("W1aaaaaaaaaaaaaaaaaaaa",
                 PyDict [("spaceName", PyStr "Room A"); ("spaceType", PyStr "Office")]);
                ("D1aaaaaaaaaaaaaaaaaaaa", PyDict [("spaceName", PyStr "Room A")]) ]
              (Some Sample.house) eq_refl) as (r & Hr & Hmap).
  - unfold wf_dict. simpl. apply NoDup_cons. split.
    + intros Hin. apply list_elem_of_In in Hin. destruct Hin as [Hin|[]].
      discriminate Hin.
    + apply NoDup_singleton.
  - intros it [<-|[<-|[]]] _; reflexivity.
  - exists r. split; [exact Hr|]. apply Hmap.
    exists (PyDict [("spaceName", PyStr "Room A"); ("spaceType", PyStr "Office")]).
    split; [simpl; auto|]. split; [vm_compute; reflexivity|].
    split; reflexivity.
Defined.

(** X15: When no key of the table is a wall of the model (in particular when
    there is no model), every entry is skipped whatever its value is, and
    the mapping is empty. *)
Theorem no_walls_all_skipped (top esm : list (string * val))
    (ifc : option model) :
  assoc "elementSpaceMap" top = Some (PyDict esm) ->
  (forall g v, In (g, v) esm -> g ∉ wall_global_ids ifc) ->
  transform (PyDict top) ifc
  = Ok {| mappings := ∅;
          meta := Counted {| wallsFound := 0;
                             otherElementsSkipped := List.length esm;
                             totalMappings := 0 |} |}.
Proof.
  intros Hkey Hnone.
  rewrite (transform_closed top esm ifc Hkey).
  - assert (Hinc : List.filter (included (wall_global_ids ifc)) esm = []).
    { clear Hkey. induction esm as [|[g v] l IH]; [reflexivity|]. simpl.
      unfold included at 1. simpl.
      rewrite bool_decide_eq_false_2 by (apply (Hnone g v); now left).
      simpl. apply IH. intros g' v' Hin. apply (Hnone g' v'). now right. }
    assert (Hoth : List.filter (other (wall_global_ids ifc)) esm = esm).
    { clear Hkey Hinc. induction esm as [|[g v] l IH]; [reflexivity|]. simpl.
      unfold other at 1. simpl.
      rewrite bool_decide_eq_false_2 by (apply (Hnone g v); now left).
      simpl. f_equal. apply IH. intros g' v' Hin. apply (Hnone g' v'). now right. }
    rewrite Hinc, Hoth. reflexivity.
  - intros [g v] Hin Hw. exfalso. now apply (Hnone g v).
Qed.

(** Without a model, on the sample table. *)
Lemma no_walls_all_skipped_witness :
  transform (PyDict [("elementSpaceMap", Sample.table)]) None
  = Ok {| mappings := ∅;
          meta := Counted {| wallsFound := 0; otherElementsSkipped := 2;
                             totalMappings := 0 |} |}.
Proof.
  apply (no_walls_all_skipped [("elementSpaceMap", Sample.table)] _ None eq_refl).
  intros g v _. apply not_elem_of_empty.
Defined.

(** X16: A recognised input makes the script raise exactly when the table is
    not a dictionary or some wall entry of it is not one. *)
Theorem transform_raises_iff (top : list (string * val)) (table : val)
    (ifc : option model) :
  assoc "elementSpaceMap" top = Some table ->
  (raises (transform (PyDict top) ifc)
   <-> is_dict table = false
       \/ exists esm g v,
            table = PyDict esm /\ In (g, v) esm
            /\ g ∈ wall_global_ids ifc /\ is_dict v = false).
Proof.
  intros Hkey.
  assert (Hrec : recognised (PyDict top) = Ok true).
  { rewrite recognised_spec, Hkey. now rewrite bool_decide_eq_true_2 by eauto. }
  assert (Hhead : transform (PyDict top) ifc
                  = (_ ← len table;
                     its ← items table;
                     st ← foldM (step (wall_global_ids ifc)) its init;
                     Ok (report st))).
  { unfold transform. rewrite Hrec. simpl. now rewrite Hkey. }
  rewrite Hhead. clear Hhead Hrec Hkey.
  destruct table as [| b | z | s | l | esm]; simpl;
    try (split; [intros _; now left | intros _; exact I]).
  set (walls := wall_global_ids ifc).
  set (bad := fun it : string * val =>
                bool_decide (it.1 ∈ walls) && negb (is_dict it.2)).
  split.
  - intros Hr. right. destruct (existsb bad esm) eqn:E.
    + apply existsb_exists in E as ([g v] & Hin & Hb).
      unfold bad in Hb. simpl in Hb. apply andb_true_iff in Hb as [Hw Hv].
      apply bool_decide_eq_true_1 in Hw. apply negb_true_iff in Hv.
      exists esm, g, v. auto.
    + exfalso. rewrite loop_closed in Hr; [exact Hr|].
      intros it Hit Hw. destruct (is_dict it.2) eqn:Ed; [reflexivity|].
      assert (Hex : existsb bad esm = true).
      { apply existsb_exists. exists it. split; [exact Hit|].
        unfold bad. rewrite Ed. now rewrite bool_decide_eq_true_2. }
      congruence.
  - intros [Hf | (esm' & g & v & Heq & Hin & Hw & Hv)]; [discriminate Hf|].
    inversion Heq; subst esm'.
    destruct (foldM_raises (step walls) esm init (g, v) Hin) as [e He].
    { intros s. unfold step. simpl. rewrite bool_decide_eq_true_2 by exact Hw.
      destruct v; try discriminate Hv; simpl; eauto. }
    rewrite He. exact I.
Qed.

(** On a table that is a list, and on the table whose door entry is a bare
    string, the door being no wall: the first raises, the second does
    not. *)
Lemma transform_raises_iff_witness :
  raises (transform (PyDict [("elementSpaceMap", PyList [])]) None)
  /\ ~ raises (transform (PyDict [("elementSpaceMap", PyDict Sample2.broken)])
                (Some Sample.house)).
Proof.
  split.
  - apply (transform_raises_iff [("elementSpaceMap", PyList [])] (PyList []) None
             eq_refl).
    left. reflexivity.
  - intros Hr.
    apply (transform_raises_iff [("elementSpaceMap", PyDict Sample2.broken)]
             (PyDict Sample2.broken) (Some Sample.house) eq_refl) in Hr.
    destruct Hr as [Hf | (esm & g & v & Heq & Hin & Hw & Hv)]; [discriminate Hf|].
    inversion Heq; subst esm.
    destruct Hin as [Hin|[Hin|[]]]; inversion Hin; subst; [discriminate Hv|].
    revert Hw. vm_compute. intros [=].
Defined.

End TransformMore.

Section TransformOrder.

Import Transform Resolver.

Lemma filter_length_perm {X} (p : X -> bool) (l l' : list X) :
  Permutation l l' ->
  List.length (List.filter p l) = List.length (List.filter p l').
Proof.
  induction 1 as [|x l l' _ IH|x y l|l1 l2 l3 _ IH1 _ IH2]; simpl.
  - reflexivity.
  - destruct (p x); simpl; lia.
  - destruct (p x), (p y); reflexivity.
  - lia.
Qed.

(** X17: The result does not depend on the order in which the table lists its
    entries. *)
Theorem transform_ignores_item_order (top top' esm esm' : list (string * val))
    (ifc : option model) :
  assoc "elementSpaceMap" top = Some (PyDict esm) ->
  assoc "elementSpaceMap" top' = Some (PyDict esm') ->
  Permutation esm esm' ->
  wf_dict esm ->
  (forall it, In it esm -> it.1 ∈ wall_global_ids ifc -> is_dict it.2 = true) ->
  transform (PyDict top) ifc = transform (PyDict top') ifc.
Proof.
  intros Hkey Hkey' Hperm Hwf Hd.
  assert (Hwf' : wf_dict esm').
  { unfold wf_dict in *.
    assert (Hp : map fst esm ≡ₚ map fst esm') by now apply Permutation_map.
    now rewrite <- Hp. }
  assert (Hd' : forall it, In it esm' -> it.1 ∈ wall_global_ids ifc ->
                           is_dict it.2 = true).
  { intros it Hit. apply Hd. eapply Permutation_in; [|exact Hit].
    now apply Permutation_sym. }
  rewrite (transform_closed top esm ifc Hkey Hd).
  rewrite (transform_closed top' esm' ifc Hkey' Hd').
  f_equal. unfold report. simpl.
  assert (Hmap :
    replay (map (fun it => (it.1, name_of it.2))
              (List.filter (included (wall_global_ids ifc)) esm)) ∅
    = replay (map (fun it => (it.1, name_of it.2))
                (List.filter (included (wall_global_ids ifc)) esm')) ∅).
  { apply map_eq. intros g. apply option_eq. intros x.
    rewrite !replay_distinct by now apply filter_keys_nodup.
    rewrite !in_map_iff.
    split; intros (it & Heq & Hit); exists it; (split; [exact Heq|]);
      apply filter_In in Hit as [Hit Hp]; apply filter_In; (split; [|exact Hp]).
    - eapply Permutation_in; [exact Hperm | exact Hit].
    - eapply Permutation_in; [apply Permutation_sym; exact Hperm | exact Hit]. }
  rewrite Hmap.
  rewrite (filter_length_perm (included _) _ _ Hperm).
  rewrite (filter_length_perm (other _) _ _ Hperm).
  reflexivity.
Qed.

(** The sample table read door first. *)
Lemma transform_ignores_item_order_witness :
  transform (PyDict [("elementSpaceMap", PyDict Sample2.entries)])
    (Some Sample.house)
  = transform (PyDict [("elementSpaceMap", PyDict Sample2.entries_rev)])
      (Some Sample.house).
Proof.
  apply (transform_ignores_item_order
           [("elementSpaceMap", PyDict Sample2.entries)]
           [("elementSpaceMap", PyDict Sample2.entries_rev)]
           Sample2.entries Sample2.entries_rev
           (Some Sample.house) eq_refl eq_refl).
  - apply perm_swap.
  - unfold wf_dict. simpl. apply NoDup_cons. split.
    + intros Hin. apply list_elem_of_In in Hin. destruct Hin as [Hin|[]].
      discriminate Hin.
    + apply NoDup_singleton.
  - intros it [<-|[<-|[]]] _; reflexivity.
Defined.

End TransformOrder.

(** ** room-assignment-to-walls.py *)

Section ToWallsMore.

Import Resolver.

(** An element the lookup takes up: it has an id and a GlobalId. *)
Lemma add_lookup_cases (lookup : gmap string (string * string))
    (elem : ToWalls.element) :
  ToWalls.add_lookup lookup elem
  = match ToWalls.el_id elem, ToWalls.el_global_id elem with
    | Some i, Some g =>
        if negb (String.eqb i "") && negb (String.eqb g "")
        then <[i := (g, default "" (ToWalls.el_type elem))]> lookup
        else lookup
    | _, _ => lookup
    end.
Proof.
  unfold ToWalls.add_lookup.
  destruct (ToWalls.el_id elem) as [i|], (ToWalls.el_global_id elem) as [g|];
    simpl; try reflexivity.
  now destruct (negb (String.eqb i "")).
Qed.

(** X18: The element lookup never has the empty id as a key and never gives an
    empty GlobalId; every entry comes from an element of the list with
    that id, GlobalId and type; and of several elements with one id the
    last one decides. *)
Theorem element_lookup_spec (elems : list ToWalls.element) :
  let lookup := ToWalls.element_lookup elems in
  lookup !! "" = None
  /\ (forall i g t, lookup !! i = Some (g, t) ->
        g <> ""
        /\ exists elem, In elem elems
             /\ ToWalls.el_id elem = Some i
             /\ ToWalls.el_global_id elem = Some g
             /\ default "" (ToWalls.el_type elem) = t)
  /\ (forall pre elem post i g,
        elems = pre ++ elem :: post ->
        ToWalls.el_id elem = Some i -> i <> "" ->
        ToWalls.el_global_id elem = Some g -> g <> "" ->
        (forall e, In e post -> ToWalls.el_id e = Some i ->
                   ToWalls.el_global_id e = None
                   \/ ToWalls.el_global_id e = Some "") ->
        lookup !! i = Some (g, default "" (ToWalls.el_type elem))).
Proof.
  intros lookup. subst lookup. unfold ToWalls.element_lookup.
  assert (Hinv : forall l (acc : gmap string (string * string)),
    acc !! "" = None ->
    (forall i g t, acc !! i = Some (g, t) -> g <> "") ->
    fold_left ToWalls.add_lookup l acc !! "" = None
    /\ (forall i g t, fold_left ToWalls.add_lookup l acc !! i = Some (g, t) ->
          g <> ""
          /\ (acc !! i = Some (g, t)
              \/ exists elem, In elem l
                   /\ ToWalls.el_id elem = Some i
                   /\ ToWalls.el_global_id elem = Some g
                   /\ default "" (ToWalls.el_type elem) = t))).
  { induction l as [|e l IH]; intros acc H0 Hg; simpl.
    - split; [exact H0|]. intros i g t H. split; [now apply (Hg i g t)|now left].
    - rewrite add_lookup_cases.
      destruct (ToWalls.el_id e) as [ei|] eqn:Ei;
        [destruct (ToWalls.el_global_id e) as [eg|] eqn:Eg|].
      + destruct (negb (String.eqb ei "") && negb (String.eqb eg "")) eqn:Eb.
        * apply andb_true_iff in Eb as [Hi Hgn].
          apply negb_true_iff, String.eqb_neq in Hi.
          apply negb_true_iff, String.eqb_neq in Hgn.
          destruct (IH (<[ei := (eg, default "" (ToWalls.el_type e))]> acc))
            as [IH0 IHs].
          { now rewrite lookup_insert_ne. }
          { intros i g t. destruct (decide (ei = i)) as [->|Hne].
            - rewrite lookup_insert_eq. intros H. inversion H. now subst.
            - rewrite lookup_insert_ne by exact Hne. apply Hg. }
          split; [exact IH0|]. intros i g t H.
          destruct (IHs i g t H) as [Hgne [Hacc|(el & Hin & Hrest)]].
          -- split; [exact Hgne|].
             destruct (decide (ei = i)) as [->|Hne].
             ++ rewrite lookup_insert_eq in Hacc. inversion Hacc; subst.
                right. exists e. split; [now left|]. auto.
             ++ rewrite lookup_insert_ne in Hacc by exact Hne. now left.
          -- split; [exact Hgne|]. right. exists el. split; [now right|auto].
        * destruct (IH acc H0 Hg) as [IH0 IHs]. split; [exact IH0|].
          intros i g t H. destruct (IHs i g t H) as [Hgne [Hacc|(el & Hin & Hrest)]];
            (split; [exact Hgne|]); [now left|].
          right. exists el. split; [now right|auto].
      + destruct (IH acc H0 Hg) as [IH0 IHs]. split; [exact IH0|].
        intros i g t H. destruct (IHs i g t H) as [Hgne [Hacc|(el & Hin & Hrest)]];
          (split; [exact Hgne|]); [now left|].
        right. exists el. split; [now right|auto].
      + destruct (IH acc H0 Hg) as [IH0 IHs]. split; [exact IH0|].
        intros i g t H. destruct (IHs i g t H) as [Hgne [Hacc|(el & Hin & Hrest)]];
          (split; [exact Hgne|]); [now left|].
        right. exists el. split; [now right|auto]. }
  destruct (Hinv elems ∅ (lookup_empty _)) as [H0 Hs].
  { intros i g t H. now rewrite lookup_empty in H. }
  split; [exact H0|]. split.
  - intros i g t H. destruct (Hs i g t H) as [Hgne [Hacc|Hel]].
    + now rewrite lookup_empty in Hacc.
    + auto.
  - intros pre elem post i g -> Hi Hine Hg Hgne Hpost.
    rewrite fold_left_app. simpl. rewrite (add_lookup_cases _ elem), Hi, Hg.
    apply String.eqb_neq in Hine. apply String.eqb_neq in Hgne.
    rewrite Hine, Hgne. simpl.
    generalize (fold_left ToWalls.add_lookup pre ∅). intros acc.
    assert (Hkeep : forall l (a : gmap string (string * string)) x,
              (forall e, In e l -> ToWalls.el_id e = Some i ->
                         ToWalls.el_global_id e = None
                         \/ ToWalls.el_global_id e = Some "") ->
              a !! i = Some x ->
              fold_left ToWalls.add_lookup l a !! i = Some x).
    { induction l as [|e l IH]; intros a x Hl Ha; [exact Ha|]. simpl.
      apply IH; [intros e' He'; apply Hl; now right|].
      rewrite add_lookup_cases.
      destruct (ToWalls.el_id e) as [ei|] eqn:Ei; [|exact Ha].
      destruct (ToWalls.el_global_id e) as [eg|] eqn:Eg; [|exact Ha].
      destruct (negb (String.eqb ei "") && negb (String.eqb eg "")) eqn:Eb;
        [|exact Ha].
      destruct (decide (ei = i)) as [->|Hne].
      - destruct (Hl e (or_introl eq_refl) Ei) as [Hn|Hn]; rewrite Eg in Hn.
        + discriminate Hn.
        + inversion Hn; subst. simpl in Eb. now rewrite andb_false_r in Eb.
      - now rewrite lookup_insert_ne. }
    apply Hkeep; [exact Hpost|]. apply lookup_insert_eq.
Qed.

(** On the sample viewer list the wall is found under its id. *)
Lemma element_lookup_spec_witness :
  ToWalls.element_lookup Sample.viewer !! "W1aaaaaaaaaaaaaaaaaaaa"
  = Some ("W1aaaaaaaaaaaaaaaaaaaa", "IfcWall").
Proof.
  destruct (element_lookup_spec Sample.viewer) as (_ & _ & Hlast).
  apply (Hlast []
           {| ToWalls.el_id := Some "W1aaaaaaaaaaaaaaaaaaaa";
              ToWalls.el_global_id := Some "W1aaaaaaaaaaaaaaaaaaaa";
              ToWalls.el_type := Some "IfcWall" |}
           [ {| ToWalls.el_id := Some "D1aaaaaaaaaaaaaaaaaaaa";
                ToWalls.el_global_id := Some "D1aaaaaaaaaaaaaaaaaaaa";
                ToWalls.el_type := Some "IfcDoor" |} ]).
  - reflexivity.
  - reflexivity.
  - discriminate.
  - reflexivity.
  - discriminate.
  - intros e [<-|[]] He. discriminate He.
Defined.

End ToWallsMore.

Section TransformersCompared.

Import Resolver.

(** A property of the state that every turn keeps holds after the loop. *)
Lemma foldM_invariant {S A : Type} (f : S -> A -> res S) (P : S -> Prop)
    (l : list A) (s s' : S) :
  P s ->
  (forall s x s', P s -> f s x = Ok s' -> P s') ->
  foldM f l s = Ok s' -> P s'.
Proof.
  intros Hs Hstep. revert s Hs. induction l as [|x l IH]; intros s Hs H.
  - inversion H. now subst.
  - simpl in H. destruct (f s x) as [s1|] eqn:E; simpl in H; [|discriminate H].
    apply (IH s1); [|exact H]. now apply (Hstep s x).
Qed.

Lemma insert_size_le {V} (m : gmap string V) (k : string) (v : V) :
  size (<[k := v]> m) <= Datatypes.S (size m).
Proof.
  destruct (m !! k) as [x|] eqn:E.
  - rewrite map_size_insert_Some by eauto. lia.
  - rewrite map_size_insert_None by exact E. lia.
Qed.

(** X19: Neither transformer reports more mappings than walls found.  The
    lookup variant can report fewer: two element ids that carry one
    GlobalId are both counted as found and share one mapping. *)
Theorem mappings_never_exceed_found (input_data : val) (ifc : option model)
    (ins : ToWalls.inputs) :
  (forall r c,
      Transform.transform input_data ifc = Ok r ->
      Transform.meta r = Transform.Counted c ->
      Transform.totalMappings c = size (Transform.mappings r)
      /\ Transform.totalMappings c <= Transform.wallsFound c)
  /\ (forall r c,
        ToWalls.transform ins = Ok (ToWalls.Mapped r) ->
        Transform.meta r = Transform.Counted c ->
        Transform.totalMappings c = size (Transform.mappings r)
        /\ Transform.totalMappings c <= Transform.wallsFound c).
Proof.
  set (P := fun st : Transform.state =>
              size (Transform.wall_mappings st) <= Transform.walls_found st).
  assert (HP0 : P Transform.init) by (unfold P; simpl; rewrite map_size_empty; lia).
  split; intros r c Hr Hm.
  - unfold Transform.transform in Hr.
    destruct (Transform.recognised input_data) as [[|]|]; simpl in Hr;
      try discriminate Hr.
    + destruct (getitem input_data "elementSpaceMap") as [t|]; simpl in Hr;
        [|discriminate Hr].
      destruct (len t) as [n|]; simpl in Hr; [|discriminate Hr].
      destruct (items t) as [its|]; simpl in Hr; [|discriminate Hr].
      destruct (foldM _ its Transform.init) as [st|] eqn:E; simpl in Hr;
        [|discriminate Hr].
      inversion Hr; subst r. simpl in Hm. inversion Hm; subst c. simpl.
      split; [reflexivity|].
      apply (foldM_invariant _ P _ _ _ HP0) in E; [exact E|].
      intros s x s' Hs Hstep. unfold Transform.step in Hstep.
      destruct (bool_decide _).
      * destruct (get x.2 "spaceName" (PyStr "")) as [nm|]; simpl in Hstep;
          [|discriminate Hstep].
        destruct (Transform.valid_name nm); inversion Hstep; subst; [|exact Hs].
        unfold P in *. simpl.
        pose proof (insert_size_le (Transform.wall_mappings s) x.1 nm). lia.
      * inversion Hstep; subst. exact Hs.
    + inversion Hr; subst r. discriminate Hm.
  - unfold ToWalls.transform in Hr.
    destruct (str_in _ _) as [[|]|]; simpl in Hr; try discriminate Hr.
    destruct (getitem _ "elementSpaceMap") as [t|]; simpl in Hr;
      [|discriminate Hr].
    destruct (items t) as [its|]; simpl in Hr; [|discriminate Hr].
    destruct (foldM _ its Transform.init) as [st|] eqn:E; simpl in Hr;
      [|discriminate Hr].
    inversion Hr; subst r. simpl in Hm. inversion Hm; subst c. simpl.
    split; [reflexivity|].
    apply (foldM_invariant _ P _ _ _ HP0) in E; [exact E|].
    intros s x s' Hs Hstep. unfold ToWalls.step in Hstep.
    destruct (_ !! x.1) as [info|]; [|inversion Hstep; subst; exact Hs].
    destruct (String.eqb info.2 "IfcWall").
    + destruct (get x.2 "spaceName" (PyStr "")) as [nm|]; simpl in Hstep;
        [|discriminate Hstep].
      destruct (Transform.valid_name nm); inversion Hstep; subst; [|exact Hs].
      unfold P in *. simpl.
      pose proof (insert_size_le (Transform.wall_mappings s) info.1 nm). lia.
    + inversion Hstep; subst. exact Hs.
Qed.

(** Two ids, one GlobalId: two walls found, one mapping, the later room. *)
Lemma mappings_never_exceed_found_witness :
  exists r c,
    ToWalls.transform
      {| ToWalls.input := Some Sample2.twin_table;
         ToWalls.elements := Sample2.twins |} = Ok (ToWalls.Mapped r)
    /\ Transform.meta r = Transform.Counted c
    /\ Transform.wallsFound c = 2
    /\ Transform.totalMappings c = 1
    /\ Transform.mappings r !! "W1aaaaaaaaaaaaaaaaaaaa" = Some (PyStr "Room B")
    /\ Transform.totalMappings c <= Transform.wallsFound c.
Proof.
  eexists. eexists.
  split; [vm_compute; reflexivity|].
  split; [reflexivity|].
  split; [reflexivity|]. split; [reflexivity|]. split; [reflexivity|].
  apply (proj2 (mappings_never_exceed_found PyNone None
                  {| ToWalls.input := Some Sample2.twin_table;
                     ToWalls.elements := Sample2.twins |}) _ _ eq_refl eq_refl).
Defined.

(** X20: The two transformers agree: when the lookup of the second resolves
    every key of the table to itself as GlobalId, with the type IfcWall
    exactly for the walls of the model, both give the same mapping and the
    same counters. *)
Theorem transformers_agree (top esm : list (string * val))
    (ifc : option model) (ins : ToWalls.inputs) :
  assoc "elementSpaceMap" top = Some (PyDict esm) ->
  ToWalls.input ins = Some (PyDict top) ->
  (forall g v, In (g, v) esm ->
     (exists t, ToWalls.element_lookup (ToWalls.elements ins) !! g = Some (g, t)
                /\ (t = "IfcWall" <-> g ∈ Transform.wall_global_ids ifc))
     /\ (g ∈ Transform.wall_global_ids ifc -> is_dict v = true)) ->
  exists r,
    Transform.transform (PyDict top) ifc = Ok r
    /\ ToWalls.transform ins = Ok (ToWalls.Mapped r).
Proof.
  intros Hkey Hin Hres.
  set (walls := Transform.wall_global_ids ifc) in *.
  set (lookup := ToWalls.element_lookup (ToWalls.elements ins)) in *.
  eexists. split.
  - apply transform_closed; [exact Hkey|].
    intros [g v] Hit Hw. now apply (Hres g v Hit).
  - rewrite (to_walls_closed ins top esm Hin Hkey).
    + fold lookup. fold walls.
      assert (Hinc : forall it, In it esm ->
                w_included lookup it = included walls it
                /\ w_other lookup it = other walls it
                /\ w_key lookup it = it.1).
      { intros [g v] Hit. destruct (Hres g v Hit) as [(t & Hl & Ht) _].
        unfold w_included, w_other, w_key, included, other. simpl. rewrite Hl.
        simpl. destruct (String.eqb t "IfcWall") eqn:E.
        - apply String.eqb_eq in E. apply Ht in E.
          now rewrite bool_decide_eq_true_2.
        - apply String.eqb_neq in E.
          rewrite bool_decide_eq_false_2 by (intros Hw; apply E, Ht, Hw).
          auto. }
      rewrite (filter_ext_in (w_included lookup) (included walls))
        by (intros it Hit; apply (Hinc it Hit)).
      rewrite (filter_ext_in (w_other lookup) (other walls))
        by (intros it Hit; apply (Hinc it Hit)).
      assert (Hmap :
        map (fun it => (w_key lookup it, name_of it.2))
          (List.filter (included walls) esm)
        = map (fun it => (it.1, name_of it.2))
            (List.filter (included walls) esm)).
      { apply map_ext_in. intros it Hit. apply filter_In in Hit as [Hit _].
        f_equal. apply (Hinc it Hit). }
      rewrite Hmap. reflexivity.
    + intros [g v] Hit info Hl Hw. simpl in *.
      destruct (Hres g v Hit) as [(t & Hl' & Ht) Hd].
      unfold lookup in Hl'. rewrite Hl in Hl'. inversion Hl'; subst info.
      apply Hd, Ht, Hw.
Qed.

(** On the sample table, model and viewer list. *)
Lemma transformers_agree_witness :
  exists r,
    Transform.transform (PyDict [("elementSpaceMap", PyDict Sample2.entries)])
      (Some Sample.house) = Ok r
    /\ ToWalls.transform
         {| ToWalls.input := Some (PyDict [("elementSpaceMap", PyDict Sample2.entries)]);
            ToWalls.elements := Sample.viewer |}
       = Ok (ToWalls.Mapped r).
Proof.
  apply (transformers_agree
           [("elementSpaceMap", PyDict Sample2.entries)] Sample2.entries
           (Some Sample.house)
           {| ToWalls.input := Some (PyDict [("elementSpaceMap", PyDict Sample2.entries)]);
              ToWalls.elements := Sample.viewer |} eq_refl eq_refl).
  intros g v [Heq|[Heq|[]]]; inversion Heq; subst; (split; [|reflexivity]).
  - exists "IfcWall". split; [vm_compute; reflexivity|].
    split; [intros _; vm_compute; reflexivity | reflexivity].
  - exists "IfcDoor". split; [vm_compute; reflexivity|].
    split; [discriminate | vm_compute; intros [=]].
Defined.

End TransformersCompared.

(** ** The round trip of the two transformers *)

Section RoundTrip.

Import Resolver.

(** When the lookup knows every key of the table and every entry it
    resolves to a wall carries a valid room name, the lookup variant writes
    the entries resolved to a wall and skips all the others. *)
Lemma to_walls_resolved (lookup : gmap string (string * string))
    (esm : list (string * val)) :
  (forall g v, In (g, v) esm ->
     exists info, lookup !! g = Some info
       /\ (info.2 = "IfcWall" ->
           exists d s, v = PyDict d /\ assoc "spaceName" d = Some (PyStr s)
                       /\ s <> "" /\ s <> "None")) ->
  forall it, In it esm ->
    w_included lookup it
    = bool_decide (snd <$> lookup !! it.1 = Some "IfcWall")
    /\ w_other lookup it
       = negb (bool_decide (snd <$> lookup !! it.1 = Some "IfcWall")).
Proof.
  intros Hall [g v] Hit. unfold w_included, w_other. simpl.
  destruct (Hall g v Hit) as (info & Hl & Hv). rewrite Hl. simpl.
  destruct (String.eqb info.2 "IfcWall") eqn:E.
  - apply String.eqb_eq in E.
    destruct (Hv E) as (d & s & -> & Hs & H1 & H2).
    rewrite E, bool_decide_eq_true_2 by reflexivity.
    unfold name_of. simpl. rewrite Hs. simpl.
    split; [|reflexivity]. now apply valid_name_str.
  - apply String.eqb_neq in E.
    rewrite bool_decide_eq_false_2 by congruence. split; reflexivity.
Qed.

(** C1, as the code has it.  Take a table with distinct keys in which
    every wall entry carries a valid room name (a non-empty string other
    than "None"), N the number of its wall entries and M the number of the
    others.  [Transform], which takes the walls from the model, reports
    [wallsFound] N and [otherElementsSkipped] M, and its mapping has N
    bindings: a key is bound exactly when it is the key of a wall entry,
    and then to the room name of that entry.  The lookup variant [ToWalls]
    reports N and M as well when its lookup knows the key of every entry;
    it writes only valid room names, and every entry resolved to a wall is
    present in the mapping under the GlobalId the lookup gives. *)
Theorem round_trip_where_keys_resolve (top esm : list (string * val))
    (ifc : option model) (ins : ToWalls.inputs) :
  assoc "elementSpaceMap" top = Some (PyDict esm) ->
  wf_dict esm ->
  ToWalls.input ins = Some (PyDict top) ->
  let walls := Transform.wall_global_ids ifc in
  let lookup := ToWalls.element_lookup (ToWalls.elements ins) in
  ((forall g v, In (g, v) esm -> g ∈ walls ->
      exists d s, v = PyDict d /\ assoc "spaceName" d = Some (PyStr s)
                  /\ s <> "" /\ s <> "None") ->
   exists r c,
     Transform.transform (PyDict top) ifc = Ok r
     /\ Transform.meta r = Transform.Counted c
     /\ Transform.wallsFound c
        = List.length (List.filter (fun it => bool_decide (it.1 ∈ walls)) esm)
     /\ Transform.otherElementsSkipped c
        = List.length
            (List.filter (fun it => negb (bool_decide (it.1 ∈ walls))) esm)
     /\ Transform.totalMappings c = Transform.wallsFound c
     /\ size (Transform.mappings r) = Transform.wallsFound c
     /\ (forall g x,
           Transform.mappings r !! g = Some x
           <-> g ∈ walls
               /\ exists d s, In (g, PyDict d) esm
                    /\ assoc "spaceName" d = Some (PyStr s)
                    /\ s <> "" /\ s <> "None" /\ x = PyStr s))
  /\ ((forall g v, In (g, v) esm ->
         exists info, lookup !! g = Some info
           /\ (info.2 = "IfcWall" ->
               exists d s, v = PyDict d /\ assoc "spaceName" d = Some (PyStr s)
                           /\ s <> "" /\ s <> "None")) ->
      exists r c,
        ToWalls.transform ins = Ok (ToWalls.Mapped r)
        /\ Transform.meta r = Transform.Counted c
        /\ Transform.wallsFound c
           = List.length
               (List.filter
                  (fun it => bool_decide (snd <$> lookup !! it.1 = Some "IfcWall"))
                  esm)
        /\ Transform.otherElementsSkipped c
           = List.length
               (List.filter
                  (fun it =>
                     negb (bool_decide (snd <$> lookup !! it.1 = Some "IfcWall")))
                  esm)
        /\ (forall g x, Transform.mappings r !! g = Some x ->
              exists s, x = PyStr s /\ s <> "" /\ s <> "None")
        /\ (forall k v gid, In (k, v) esm ->
              lookup !! k = Some (gid, "IfcWall") ->
              is_Some (Transform.mappings r !! gid))).
Proof.
  intros Hkey Hwf Hin walls lookup. split.
  - intros Hvalid.
    assert (Hname : forall it, In it esm -> it.1 ∈ walls ->
              is_dict it.2 = true
              /\ exists s, name_of it.2 = PyStr s /\ s <> "" /\ s <> "None").
    { intros [g v] Hit Hw.
      destruct (Hvalid g v Hit Hw) as (d & s & -> & Hs & H1 & H2).
      split; [reflexivity|]. exists s. unfold name_of. simpl. rewrite Hs. auto. }
    assert (Hsame : forall it, In it esm ->
              included walls it = bool_decide (it.1 ∈ walls)).
    { intros it Hit. unfold included.
      destruct (bool_decide (it.1 ∈ walls)) eqn:E; [|reflexivity].
      apply bool_decide_eq_true_1 in E.
      destruct (Hname it Hit E) as (_ & s & -> & H1 & H2).
      simpl. now apply valid_name_str. }
    assert (Hsize : size (replay (map (fun it => (it.1, name_of it.2))
                                    (List.filter (included walls) esm)) ∅)
                    = List.length (List.filter (included walls) esm)).
    { rewrite replay_size.
      - now rewrite map_size_empty, length_map.
      - now apply filter_keys_nodup.
      - intros w _. apply lookup_empty. }
    eexists. eexists.
    split; [apply transform_closed; [exact Hkey|]|].
    { intros it Hit Hw. now apply Hname. }
    fold walls. split; [reflexivity|].
    cbn [Transform.report Transform.meta Transform.wallsFound
         Transform.otherElementsSkipped Transform.totalMappings
         Transform.mappings Transform.wall_mappings Transform.walls_found
         Transform.other_elements_skipped].
    split; [f_equal; apply filter_ext_in; exact Hsame|].
    split; [reflexivity|].
    split; [exact Hsize|]. split; [exact Hsize|].
    intros g x. rewrite replay_distinct by now apply filter_keys_nodup.
    rewrite in_map_iff. split.
    + intros ([g' v] & Heq & Hit). simpl in Heq.
      injection Heq as Hg Hx. subst g x.
      apply filter_In in Hit as [Hit Hinc].
      unfold included in Hinc. apply andb_true_iff in Hinc as [Hw _].
      apply bool_decide_eq_true_1 in Hw. simpl in Hw.
      split; [exact Hw|].
      destruct (Hvalid g' v Hit Hw) as (d & s & -> & Hs & H1 & H2).
      exists d, s. repeat split; auto.
      unfold name_of. simpl. now rewrite Hs.
    + intros (Hw & d & s & Hit & Hs & H1 & H2 & ->).
      exists (g, PyDict d). split.
      * unfold name_of. simpl. now rewrite Hs.
      * apply filter_In. split; [exact Hit|].
        rewrite (Hsame _ Hit). now apply bool_decide_eq_true_2.
  - intros Hall.
    pose proof (to_walls_resolved lookup esm Hall) as Hres.
    assert (Hname : forall it, In it esm ->
              forall info, lookup !! it.1 = Some info -> info.2 = "IfcWall" ->
                is_dict it.2 = true
                /\ exists s, name_of it.2 = PyStr s /\ s <> "" /\ s <> "None").
    { intros [g v] Hit info Hl Hw. simpl in Hl.
      destruct (Hall g v Hit) as (info' & Hl' & Hv).
      rewrite Hl in Hl'. inversion Hl'; subst info'.
      destruct (Hv Hw) as (d & s & -> & Hs & H1 & H2).
      split; [reflexivity|]. exists s. unfold name_of. simpl. rewrite Hs. auto. }
    eexists. eexists.
    split; [apply (to_walls_closed ins top esm); [exact Hin | exact Hkey |]|].
    { intros it Hit info Hl Hw. now apply (Hname it Hit info). }
    fold lookup. split; [reflexivity|].
    cbn [Transform.report Transform.meta Transform.wallsFound
         Transform.otherElementsSkipped Transform.mappings
         Transform.wall_mappings Transform.walls_found
         Transform.other_elements_skipped].
    split; [f_equal; apply filter_ext_in; intros it Hit; apply (Hres it Hit)|].
    split; [f_equal; apply filter_ext_in; intros it Hit; apply (Hres it Hit)|].
    split.
    + intros g x Hgx. apply replay_bound in Hgx as [Hgx|Hgx].
      * now rewrite lookup_empty in Hgx.
      * apply in_map_iff in Hgx as (it & Heq & Hit).
        apply filter_In in Hit as [Hit Hinc]. inversion Heq; subst. clear Heq.
        unfold w_included in Hinc.
        destruct (lookup !! it.1) as [info|] eqn:Hl; [|discriminate].
        apply andb_true_iff in Hinc as [Hw _]. apply String.eqb_eq in Hw.
        destruct (Hname it Hit info Hl Hw) as (_ & s & Hs & H1 & H2).
        now exists s.
    + intros k v gid Hit Hl.
      assert (Hinc : w_included lookup (k, v) = true).
      { rewrite (proj1 (Hres _ Hit)). apply bool_decide_eq_true_2.
        simpl. now rewrite Hl. }
      assert (Hk : w_key lookup (k, v) = gid)
        by (unfold w_key; simpl; now rewrite Hl).
      rewrite <- Hk.
      apply (replay_written _ ∅ (w_key lookup (k, v), name_of v)).
      apply in_map_iff. exists (k, v). split; [reflexivity|].
      apply filter_In. split; [exact Hit | exact Hinc].
Qed.

(** C1 on the sample table, one wall entry and one door entry: both
    transformers report 1 and 1, and wall 1 is mapped to "Room A". *)
Lemma round_trip_where_keys_resolve_witness :
  (exists r c,
      Transform.transform (PyDict [("elementSpaceMap", Sample.table)])
        (Some Sample.house) = Ok r
      /\ Transform.meta r = Transform.Counted c
      /\ Transform.wallsFound c = 1
      /\ Transform.otherElementsSkipped c = 1
      /\ size (Transform.mappings r) = 1
      /\ Transform.mappings r !! "W1aaaaaaaaaaaaaaaaaaaa" = Some (PyStr "Room A"))
  /\ (exists r c,
        ToWalls.transform
          {| ToWalls.input := Some (PyDict [("elementSpaceMap", Sample.table)]);
             ToWalls.elements := Sample.viewer |} = Ok (ToWalls.Mapped r)
        /\ Transform.meta r = Transform.Counted c
        /\ Transform.wallsFound c = 1
        /\ Transform.otherElementsSkipped c = 1
        /\ is_Some (Transform.mappings r !! "W1aaaaaaaaaaaaaaaaaaaa")).
Proof.
  destruct (round_trip_where_keys_resolve
              [("elementSpaceMap", Sample.table)] Sample2.entries
              (Some Sample.house)
              {| ToWalls.input := Some (PyDict [("elementSpaceMap", Sample.table)]);
                 ToWalls.elements := Sample.viewer |}
              eq_refl) as [H1 H2].
  - unfold wf_dict. simpl. apply NoDup_cons. split.
    + intros Hin. apply list_elem_of_In in Hin. destruct Hin as [Hin|[]].
      discriminate Hin.
    + apply NoDup_singleton.
  - reflexivity.
  - split.
    + destruct H1 as (r & c & Hr & Hm & Hn & Hk & _ & Hsz & Hmap).
      * intros g v [Heq|[Heq|[]]] Hw; inversion Heq; subst.
        -- exists [("spaceName", PyStr "Room A"); ("spaceType", PyStr "Office")],
                  "Room A".
           repeat split; discriminate.
        -- exfalso. revert Hw. vm_compute. intros [=].
      * exists r, c. split; [exact Hr|]. split; [exact Hm|].
        split; [rewrite Hn; vm_compute; reflexivity|].
        split; [rewrite Hk; vm_compute; reflexivity|].
        split; [rewrite Hsz, Hn; vm_compute; reflexivity|].
        apply Hmap. split; [vm_compute; reflexivity|].
        exists [("spaceName", PyStr "Room A"); ("spaceType", PyStr "Office")],
               "Room A".
        split; [simpl; auto|]. repeat split; discriminate.
    + destruct H2 as (r & c & Hr & Hm & Hn & Hk & _ & Hin).
      * intros g v [Heq|[Heq|[]]]; inversion Heq; subst.
        -- exists ("W1aaaaaaaaaaaaaaaaaaaa", "IfcWall").
           split; [vm_compute; reflexivity|]. intros _.
           exists [("spaceName", PyStr "Room A"); ("spaceType", PyStr "Office")],
                  "Room A".
           repeat split; discriminate.
        -- exists ("D1aaaaaaaaaaaaaaaaaaaa", "IfcDoor").
           split; [vm_compute; reflexivity|]. intros Hw. discriminate Hw.
      * exists r, c. split; [exact Hr|]. split; [exact Hm|].
        split; [rewrite Hn; vm_compute; reflexivity|].
        split; [rewrite Hk; vm_compute; reflexivity|].
        apply (Hin "W1aaaaaaaaaaaaaaaaaaaa"
                 (PyDict [("spaceName", PyStr "Room A");
                          ("spaceType", PyStr "Office")])).
        -- simpl. auto.
        -- vm_compute. reflexivity.
Defined.

(** C1 as the specification words it fails on the lookup variant.  The
    table has one wall entry with a valid room name and one entry under an
    id that the element list does not hold: N is 1 and M is 1, yet the
    script reports [otherElementsSkipped] 0, the second entry reaching
    neither counter. *)
Lemma unknown_id_reaches_no_counter :
  let ins := {| ToWalls.input := Some (PyDict [("elementSpaceMap", PyDict Sample2.stray)]);
                ToWalls.elements := Sample2.lone_viewer |} in
  let lookup := ToWalls.element_lookup (ToWalls.elements ins) in
  let wall (it : string * val) :=
    bool_decide (snd <$> lookup !! it.1 = Some "IfcWall") in
  exists r c,
    ToWalls.transform ins = Ok (ToWalls.Mapped r)
    /\ Transform.meta r = Transform.Counted c
    /\ List.length (List.filter wall Sample2.stray) = 1
    /\ List.length (List.filter (fun it => negb (wall it)) Sample2.stray) = 1
    /\ Transform.wallsFound c = 1
    /\ Transform.otherElementsSkipped c = 0
    /\ Transform.otherElementsSkipped c
       <> List.length (List.filter (fun it => negb (wall it)) Sample2.stray).
Proof.
  intros ins lookup wall.
  exists (Transform.report
            {| Transform.wall_mappings :=
                 {[ "W1aaaaaaaaaaaaaaaaaaaa" := PyStr "Room A" ]};
               Transform.walls_found := 1;
               Transform.other_elements_skipped := 0 |}),
         {| Transform.wallsFound := 1; Transform.otherElementsSkipped := 0;
            Transform.totalMappings := 1 |}.
  split; [vm_compute; reflexivity|].
  split; [vm_compute; reflexivity|].
  split; [vm_compute; reflexivity|].
  split; [vm_compute; reflexivity|].
  split; [reflexivity|]. split; [reflexivity|].
  vm_compute. discriminate.
Qed.

End RoundTrip.

(** ** debug-spaces.py *)

Section Debug.

Import DebugSpaces.

(** The loop over the spatial classes in closed form: it returns when every
    query does, and then lists exactly the listed classes that have
    instances. *)
Lemma scan_spatial_cases (f : file) (acc : gmap string spatial_entry)
    (t : string) :
  scan_spatial f acc t
  = match by_type f t with
    | None => None
    | Some [] => Some acc
    | Some l => Some (<[t := {| count := List.length l;
                                examples := map example (firstn 3 l) |}]> acc)
    end.
Proof. unfold scan_spatial. now destruct (by_type f t) as [[|x l]|]. Qed.

Lemma scan_spatial_closed (f : file) (ts : list string)
    (acc sp : gmap string spatial_entry) :
  fold_opt (scan_spatial f) ts acc = Some sp ->
  (forall t, In t ts -> is_Some (by_type f t))
  /\ forall t,
       sp !! t
       = if bool_decide (t ∈ ts)
         then match by_type f t with
              | Some (x :: l) =>
                  Some {| count := List.length (x :: l);
                          examples := map example (firstn 3 (x :: l)) |}
              | _ => acc !! t
              end
         else acc !! t.
Proof.
  revert acc. induction ts as [|t0 ts IH]; intros acc H.
  - inversion H. split; [intros t []|]. intros t.
    now rewrite bool_decide_eq_false_2 by apply not_elem_of_nil.
  - cbn [fold_opt] in H. rewrite scan_spatial_cases in H.
    destruct (by_type f t0) as [l0|] eqn:E0; [|discriminate H].
    set (acc' := match l0 with
                 | [] => acc
                 | _ => <[t0 := {| count := List.length l0;
                                   examples := map example (firstn 3 l0) |}]> acc
                 end).
    assert (H' : fold_opt (scan_spatial f) ts acc' = Some sp)
      by (unfold acc'; destruct l0; exact H).
    clear H. apply IH in H' as [Hq Hl].
    split.
    + intros t [<-|Ht]; [rewrite E0; eauto | now apply Hq].
    + intros t. rewrite Hl.
      destruct (decide (t = t0)) as [->|Hne].
      * rewrite (bool_decide_eq_true_2 (t0 ∈ t0 :: ts))
          by (apply elem_of_cons; now left).
        rewrite E0. unfold acc'.
        destruct l0 as [|x l]; [now destruct (bool_decide _)|].
        rewrite lookup_insert_eq. now destruct (bool_decide _).
      * assert (Hacc : acc' !! t = acc !! t).
        { unfold acc'. destruct l0; [reflexivity|].
          apply lookup_insert_ne. congruence. }
        rewrite Hacc.
        destruct (bool_decide (t ∈ ts)) eqn:Eb.
        -- apply bool_decide_eq_true_1 in Eb.
           now rewrite (bool_decide_eq_true_2 (t ∈ t0 :: ts))
             by (apply elem_of_cons; now right).
        -- apply bool_decide_eq_false_1 in Eb.
           rewrite (bool_decide_eq_false_2 (t ∈ t0 :: ts)); [reflexivity|].
           intros Hin. apply elem_of_cons in Hin as [Heq|Hin];
             [congruence | contradiction].
Qed.

(** What a report that was computed consists of. *)
Lemma script_inv (f : file) (r : report) :
  script f = Some r ->
  exists sp ss,
    fold_opt (scan_spatial f) spatial_types ∅ = Some sp
    /\ fold_opt (scan_sample f) element_types [] = Some ss
    /\ spatial_elements r = sp
    /\ sample_elements r = ss
    /\ spatial_relationships r = fold_left (scan_rel f) rel_types ∅
    /\ storeys r = storey_analysis f sp
    /\ msg r = message sp.
Proof.
  unfold script. intros H.
  destruct (fold_opt (scan_spatial f) spatial_types ∅) as [sp|];
    cbn [mbind option_bind] in H; [|discriminate H].
  destruct (fold_opt (scan_sample f) element_types []) as [ss|];
    cbn [mbind option_bind] in H; [|discriminate H].
  inversion H; subst r. exists sp, ss. cbn. auto 10.
Qed.

(** X23: [spatial_elements] lists exactly the spatial classes that have
    instances: the entry of a class holds the number of its instances and
    the id, name and type of the first three of them, at most. *)
Theorem spatial_elements_list_nonempty_classes (f : file) (r : report)
    (t : string) :
  script f = Some r ->
  match spatial_elements r !! t with
  | Some e =>
      In t spatial_types
      /\ exists l, by_type f t = Some l /\ l <> []
           /\ count e = List.length l
           /\ examples e = map example (firstn 3 l)
           /\ List.length (examples e) = Nat.min 3 (count e)
  | None => In t spatial_types -> by_type f t = Some []
  end.
Proof.
  intros H. apply script_inv in H as (sp & ss & Hsp & _ & -> & _).
  apply scan_spatial_closed in Hsp as [Hq Hl]. rewrite (Hl t).
  destruct (bool_decide (t ∈ spatial_types)) eqn:Eb.
  - apply bool_decide_eq_true_1, list_elem_of_In in Eb.
    destruct (Hq t Eb) as [l Hbt]. rewrite Hbt.
    destruct l as [|x l].
    + rewrite lookup_empty. auto.
    + split; [exact Eb|]. exists (x :: l). repeat split; try discriminate.
      cbn [count examples]. rewrite length_map, length_firstn. reflexivity.
  - apply bool_decide_eq_false_1 in Eb. rewrite lookup_empty.
    intros Hin. apply list_elem_of_In in Hin. contradiction.
Qed.

(** On the sample file the storeys are listed, the spaces are not. *)
Lemma spatial_elements_list_nonempty_classes_witness :
  exists r e,
    script Sample2.annex_file = Some r
    /\ spatial_elements r !! "IfcBuildingStorey" = Some e
    /\ count e = 1
    /\ spatial_elements r !! "IfcSpace" = None.
Proof.
  assert (H : exists r, script Sample2.annex_file = Some r)
    by (eexists; vm_compute; reflexivity).
  destruct H as [r Hr].
  pose proof (spatial_elements_list_nonempty_classes _ r "IfcBuildingStorey" Hr) as Hs.
  pose proof (spatial_elements_list_nonempty_classes _ r "IfcSpace" Hr) as Hn.
  destruct (spatial_elements r !! "IfcBuildingStorey") as [e|] eqn:Ee.
  - exists r, e. split; [exact Hr|]. split; [exact Ee|].
    destruct Hs as (_ & l & Hl & _ & Hc & _).
    vm_compute in Hl. inversion Hl; subst l. split; [exact Hc|].
    destruct (spatial_elements r !! "IfcSpace") as [e'|]; [|reflexivity].
    destruct Hn as (_ & l' & Hl' & Hne & _).
    vm_compute in Hl'. inversion Hl'; subst l'. now elim Hne.
  - exfalso. assert (Hin : In "IfcBuildingStorey" spatial_types)
      by (unfold spatial_types; simpl; auto).
    apply Hs in Hin. vm_compute in Hin. discriminate Hin.
Defined.

End Debug.

Section DebugReport.

Import DebugSpaces.

(** X24: The message names the first of spaces and storeys that the file has,
    with its number; the storey analysis is made only for a file that has
    storeys and no spaces, one item per storey. *)
Theorem debug_message_cases (f : file) (r : report) :
  script f = Some r ->
  match IfcSpace (core f), IfcBuildingStorey (core f) with
  | _ :: _, _ =>
      msg r = ("Found " ++ pretty (List.length (IfcSpace (core f)))
               ++ " spaces in the model")%string
      /\ storeys r = None
  | [], _ :: _ =>
      msg r = ("No spaces found, but model has "
               ++ pretty (List.length (IfcBuildingStorey (core f)))
               ++ " building storeys")%string
      /\ exists infos,
           storeys r = Some (List.length (IfcBuildingStorey (core f)), infos)
           /\ map st_id infos = map GlobalId (IfcBuildingStorey (core f))
  | [], [] =>
      msg r = "No spatial structure found in this IFC file"
      /\ storeys r = None
  end.
Proof.
  intros H. apply script_inv in H as (sp & ss & Hsp & _ & _ & _ & _ & -> & ->).
  apply scan_spatial_closed in Hsp as [_ Hl].
  pose proof (Hl "IfcSpace") as Hspace.
  pose proof (Hl "IfcBuildingStorey") as Hstorey.
  rewrite bool_decide_eq_true_2 in Hspace
    by (unfold spatial_types; rewrite !elem_of_cons; auto 10).
  rewrite bool_decide_eq_true_2 in Hstorey
    by (unfold spatial_types; rewrite !elem_of_cons; auto 10).
  change (by_type f "IfcSpace") with (Some (IfcSpace (core f))) in Hspace.
  change (by_type f "IfcBuildingStorey")
    with (Some (IfcBuildingStorey (core f))) in Hstorey.
  rewrite lookup_empty in Hspace, Hstorey.
  unfold message, storey_analysis. rewrite Hspace, Hstorey.
  destruct (IfcSpace (core f)) as [|s ss']; [|split; reflexivity].
  destruct (IfcBuildingStorey (core f)) as [|st sts]; [split; reflexivity|].
  split; [reflexivity|]. eexists. split; [reflexivity|].
  rewrite map_map. reflexivity.
Qed.

(** On the sample file: no spaces, one storey. *)
Lemma debug_message_cases_witness :
  exists r,
    script Sample2.annex_file = Some r
    /\ msg r = "No spaces found, but model has 1 building storeys".
Proof.
  assert (H : exists r, script Sample2.annex_file = Some r)
    by (eexists; vm_compute; reflexivity).
  destruct H as [r Hr]. exists r. split; [exact Hr|].
  pose proof (debug_message_cases _ r Hr) as Hm.
  simpl in Hm. destruct Hm as [Hm _]. rewrite Hm. vm_compute. reflexivity.
Defined.

(** The count of a storey: the last relation of the storey decides. *)
Lemma count_contained_last (storey : entity) (rels : list RelContained.t)
    (n : nat) :
  (forall pre rel post,
      rels = pre ++ rel :: post ->
      eid (RelContained.RelatingStructure rel) = eid storey ->
      (forall r, In r post ->
                 eid (RelContained.RelatingStructure r) <> eid storey) ->
      fold_left (count_contained storey) rels n
      = List.length (RelContained.RelatedElements rel))
  /\ ((forall r, In r rels ->
                 eid (RelContained.RelatingStructure r) <> eid storey) ->
      fold_left (count_contained storey) rels n = n).
Proof.
  assert (Hnone : forall l k,
            (forall r, In r l ->
                       eid (RelContained.RelatingStructure r) <> eid storey) ->
            fold_left (count_contained storey) l k = k).
  { induction l as [|r l IH]; intros k Hl; [reflexivity|]. simpl.
    unfold count_contained at 2, entity_eqb.
    rewrite (proj2 (Nat.eqb_neq _ _) (Hl r (or_introl eq_refl))).
    apply IH. intros r' Hr'. apply Hl. now right. }
  split; [|apply Hnone].
  intros pre rel post -> Heid Hpost.
  rewrite fold_left_app. simpl.
  rewrite Hnone by exact Hpost.
  unfold count_contained, entity_eqb.
  now rewrite (proj2 (Nat.eqb_eq _ _) Heid).
Qed.

(** X25: In the storey analysis the number of contained elements of a storey
    is the number of related elements of the last containment relation of
    that storey, not of all its relations together; it is 0 for a storey
    without such a relation. *)
Theorem storey_count_is_last_relation (f : file) (r : report)
    (pre post : list entity) (storey : entity) :
  script f = Some r ->
  IfcSpace (core f) = [] ->
  IfcBuildingStorey (core f) = pre ++ storey :: post ->
  exists n infos info,
    storeys r = Some (n, infos)
    /\ nth_error infos (List.length pre) = Some info
    /\ st_id info = GlobalId storey
    /\ st_name info = Name storey
    /\ (forall rels1 rel rels2,
          IfcRelContainedInSpatialStructure (core f) = rels1 ++ rel :: rels2 ->
          eid (RelContained.RelatingStructure rel) = eid storey ->
          (forall r', In r' rels2 ->
                      eid (RelContained.RelatingStructure r') <> eid storey) ->
          st_contained_elements info
          = List.length (RelContained.RelatedElements rel))
    /\ ((forall r', In r' (IfcRelContainedInSpatialStructure (core f)) ->
                    eid (RelContained.RelatingStructure r') <> eid storey) ->
        st_contained_elements info = 0).
Proof.
  intros H Hnos Hst.
  apply script_inv in H as (sp & ss & Hsp & _ & _ & _ & _ & -> & _).
  apply scan_spatial_closed in Hsp as [_ Hl].
  pose proof (Hl "IfcSpace") as Hspace.
  rewrite bool_decide_eq_true_2 in Hspace
    by (unfold spatial_types; rewrite !elem_of_cons; auto 10).
  change (by_type f "IfcSpace") with (Some (IfcSpace (core f))) in Hspace.
  rewrite Hnos, lookup_empty in Hspace.
  unfold storey_analysis. rewrite Hspace, Hst.
  assert (Hm : forall l : list entity, l <> [] ->
            match l with
            | [] => None
            | x :: l' => Some (List.length (x :: l'),
                               map (analyse_storey f) (x :: l'))
            end = Some (List.length l, map (analyse_storey f) l))
    by (intros [|? ?] ?; [contradiction | reflexivity]).
  rewrite Hm by (now destruct pre). clear Hm.
  exists (List.length (pre ++ storey :: post)),
         (map (analyse_storey f) (pre ++ storey :: post)),
         (analyse_storey f storey).
  split; [reflexivity|]. split.
  - rewrite map_app.
    rewrite nth_error_app2 by (rewrite length_map; lia).
    rewrite length_map, Nat.sub_diag. reflexivity.
  - split; [reflexivity|]. split; [reflexivity|].
    apply count_contained_last.
Qed.

(** On the sample file storey L1 has a relation of one element and then a
    relation of two: the analysis says 2. *)
Lemma storey_count_is_last_relation_witness :
  exists r n infos info,
    script Sample2.annex_file = Some r
    /\ storeys r = Some (n, infos)
    /\ nth_error infos 0 = Some info
    /\ st_contained_elements info = 2.
Proof.
  assert (H : exists r, script Sample2.annex_file = Some r)
    by (eexists; vm_compute; reflexivity).
  destruct H as [r Hr].
  destruct (storey_count_is_last_relation Sample2.annex_file r [] []
              Sample.storey_L1 Hr eq_refl eq_refl)
    as (n & infos & info & Hs & Hn & _ & _ & Hlast & _).
  exists r, n, infos, info. split; [exact Hr|]. split; [exact Hs|].
  split; [exact Hn|].
  apply (Hlast
           [ {| RelContained.RelatingStructure := Sample.storey_L1;
                RelContained.RelatedElements := [Sample.door_1] |} ]
           {| RelContained.RelatingStructure := Sample.storey_L1;
              RelContained.RelatedElements := [Sample.slab_1; Sample.wall_1] |}
           []).
  - reflexivity.
  - reflexivity.
  - intros r' [].
Defined.

Lemma find_container_skip (sample : entity) (pre rest : list RelContained.t) :
  (forall r, In r pre ->
             entity_in sample (RelContained.RelatedElements r) = false) ->
  find_container sample (pre ++ rest) = find_container sample rest.
Proof.
  induction pre as [|r pre IH]; intros Hpre; simpl; [reflexivity|].
  rewrite (Hpre r (or_introl eq_refl)).
  apply IH. intros r' Hr'. apply Hpre. now right.
Qed.

Lemma entity_in_spec (e : entity) (es : list entity) :
  entity_in e es = true <-> exists x, In x es /\ eid x = eid e.
Proof.
  unfold entity_in, entity_eqb. rewrite existsb_exists.
  split; intros [x [Hx He]]; exists x; (split; [exact Hx|]);
    now apply Nat.eqb_eq.
Qed.

Lemma scan_sample_cases (f : file) (acc : list sample_info) (t : string) :
  scan_sample f acc t
  = match by_type f t with
    | None => None
    | Some [] => Some acc
    | Some (sample :: l) =>
        Some (acc ++ [ {| s_type := t;
                          s_count := List.length (sample :: l);
                          s_id := GlobalId sample;
                          s_name := Name sample;
                          s_contained_in :=
                            find_container sample
                              (IfcRelContainedInSpatialStructure (core f)) |} ])
    end.
Proof. unfold scan_sample. now destruct (by_type f t) as [[|x l]|]. Qed.

Lemma scan_sample_fold (f : file) (ts : list string) (acc ss : list sample_info) :
  fold_opt (scan_sample f) ts acc = Some ss ->
  forall s, In s ss ->
    In s acc
    \/ exists sample l,
         In (s_type s) ts
         /\ by_type f (s_type s) = Some (sample :: l)
         /\ s_count s = List.length (sample :: l)
         /\ s_id s = GlobalId sample
         /\ s_name s = Name sample
         /\ s_contained_in s
            = find_container sample (IfcRelContainedInSpatialStructure (core f)).
Proof.
  revert acc. induction ts as [|t ts IH]; intros acc H s Hs.
  - inversion H; subst. now left.
  - cbn [fold_opt] in H. rewrite scan_sample_cases in H.
    destruct (by_type f t) as [l0|] eqn:E0; [|discriminate H].
    destruct l0 as [|sample l]; cbn [mbind option_bind] in H.
    + destruct (IH _ H s Hs) as [Hacc|(sm & l' & Hin & Hrest)]; [now left|].
      right. exists sm, l'. split; [now right | exact Hrest].
    + destruct (IH _ H s Hs) as [Hacc|(sm & l' & Hin & Hrest)].
      * apply in_app_or in Hacc as [Hacc|[<-|[]]]; [now left|].
        right. exists sample, l. simpl. rewrite E0. auto 10.
      * right. exists sm, l'. split; [now right | exact Hrest].
Qed.

(** X26: Every sample of the report is the first instance of one of the listed
    element classes, with the number of instances of the class; its
    container is the relating structure of the first containment relation
    that relates the sample, and it has none when no relation does. *)
Theorem sample_container_is_first_relation (f : file) (r : report)
    (s : sample_info) :
  script f = Some r ->
  In s (sample_elements r) ->
  exists sample l,
    In (s_type s) element_types
    /\ by_type f (s_type s) = Some (sample :: l)
    /\ s_count s = List.length (sample :: l)
    /\ s_id s = GlobalId sample
    /\ (forall pre rel post,
          IfcRelContainedInSpatialStructure (core f) = pre ++ rel :: post ->
          (forall r', In r' pre ->
             ~ exists x, In x (RelContained.RelatedElements r')
                         /\ eid x = eid sample) ->
          (exists x, In x (RelContained.RelatedElements rel)
                     /\ eid x = eid sample) ->
          s_contained_in s
          = Some (ifc_class (RelContained.RelatingStructure rel),
                  Name (RelContained.RelatingStructure rel),
                  GlobalId (RelContained.RelatingStructure rel)))
    /\ ((forall r', In r' (IfcRelContainedInSpatialStructure (core f)) ->
           ~ exists x, In x (RelContained.RelatedElements r')
                       /\ eid x = eid sample) ->
        s_contained_in s = None).
Proof.
  intros H Hs. apply script_inv in H as (sp & ss & _ & Hss & _ & Hse & _).
  rewrite Hse in Hs.
  destruct (scan_sample_fold f element_types [] ss Hss s Hs)
    as [[]|(sample & l & Hin & Hbt & Hc & Hid & _ & Hci)].
  exists sample, l. repeat split; auto.
  - intros pre rel post Hrels Hpre Hrel. rewrite Hci, Hrels.
    rewrite find_container_skip.
    + simpl. now rewrite (proj2 (entity_in_spec _ _) Hrel).
    + intros r' Hr'. apply not_true_is_false. intros Ht.
      apply entity_in_spec in Ht. now apply (Hpre r').
  - intros Hnone. rewrite Hci.
    rewrite <- (app_nil_r (IfcRelContainedInSpatialStructure (core f))).
    rewrite find_container_skip; [reflexivity|].
    intros r' Hr'. apply not_true_is_false. intros Ht.
    apply entity_in_spec in Ht. now apply (Hnone r').
Qed.

(** On the sample file the door sample sits in storey L1. *)
Lemma sample_container_is_first_relation_witness :
  exists r s,
    script Sample2.annex_file = Some r
    /\ In s (sample_elements r)
    /\ s_type s = "IfcDoor"
    /\ s_contained_in s
       = Some ("IfcBuildingStorey", Some "L1", GlobalId Sample.storey_L1).
Proof.
  assert (H : exists r, script Sample2.annex_file = Some r
                        /\ exists s, In s (sample_elements r)
                                     /\ s_type s = "IfcDoor").
  { eexists. split; [vm_compute; reflexivity|]. simpl.
    eexists. split; [right; right; left; reflexivity | reflexivity]. }
  destruct H as (r & Hr & s & Hs & Ht).
  exists r, s. split; [exact Hr|]. split; [exact Hs|]. split; [exact Ht|].
  destruct (sample_container_is_first_relation _ r s Hr Hs)
    as (sample & l & _ & Hbt & _ & _ & Hfirst & _).
  rewrite Ht in Hbt. vm_compute in Hbt. inversion Hbt; subst sample l.
  apply (Hfirst []
           {| RelContained.RelatingStructure := Sample.storey_L1;
              RelContained.RelatedElements := [Sample.door_1] |}
           [ {| RelContained.RelatingStructure := Sample.storey_L1;
                RelContained.RelatedElements := [Sample.slab_1; Sample.wall_1] |} ]).
  - reflexivity.
  - intros r' [].
  - exists Sample.door_1. simpl. auto.
Defined.

End DebugReport.
